(** * SoulReader: the generation service and the annotation/memory controller

    A shallow embedding of [services/geminiService.ts] (endpoint resolution,
    format adapter, provider clients, router, response extraction) and of the
    controller logic of [App] (autonomous page scan, initial scan of a created
    book, automatic memory consolidation), with the properties the
    specification states about them; then the rest of the service (the
    free-text operations), the other handlers of [App], the conversation of
    [AnnotationModal], the connection test of [SettingsModal] and the
    duration of [ReadingReportModal], with properties read off the code.

    Conventions.
    - A JavaScript string is a [string]; a character of the model is one code
      unit, and only pass-through text may leave the ASCII range.
    - A parsed JSON value is a [json]; [undefined] is [None] of [option json].
      An object is the list of its own properties, in the order in which
      JavaScript lists them: array-index keys first, in ascending order, then
      the other keys in the order of their creation.
    - A function that may throw returns [result A]; [Throw e] is the exception.
    - What the platform decides (the network, [JSON.parse], [JSON.stringify],
      the clock, [Math.random], [process.env]) is a variable of the section
      that uses it. *)

From Stdlib Require Import String Ascii List Bool Arith ZArith QArith Lia.
From Stdlib Require Import Numbers.DecimalString.
From Stdlib Require DecimalZ DecimalPos.
From Stdlib Require Import Sorted.
From stdpp Require Import base list.
Import ListNotations.
Open Scope string_scope.

(* ================================================================== *)
(** * JavaScript strings *)
(* ================================================================== *)

Module Js.

(** The double quote and the line feed, which the prompts contain. *)
Definition dq : string := String (ascii_of_nat 34) EmptyString.
Definition nl : string := String (ascii_of_nat 10) EmptyString.

(** White space as [String.prototype.trim] reads it, on the ASCII range:
    TAB, LF, VT, FF, CR and SPACE. *)
Definition isWhiteSpace (c : ascii) : bool :=
  match nat_of_ascii c with
  | 9 | 10 | 11 | 12 | 13 | 32 => true
  | _ => false
  end.

Fixpoint trimStart (s : string) : string :=
  match s with
  | EmptyString => EmptyString
  | String c s' => if isWhiteSpace c then trimStart s' else s
  end.

Fixpoint trimEnd (s : string) : string :=
  match s with
  | EmptyString => EmptyString
  | String c s' =>
      match trimEnd s' with
      | EmptyString => if isWhiteSpace c then EmptyString else String c EmptyString
      | t => String c t
      end
  end.

(** [s.trim()] *)
Definition trim (s : string) : string := trimEnd (trimStart s).

(** [s.startsWith(p)] *)
Fixpoint startsWith (p s : string) : bool :=
  match p, s with
  | EmptyString, _ => true
  | String _ _, EmptyString => false
  | String a p', String b s' => Ascii.eqb a b && startsWith p' s'
  end.

(** [s.includes(p)] *)
Fixpoint includes (p s : string) : bool :=
  startsWith p s ||
  match s with
  | EmptyString => false
  | String _ s' => includes p s'
  end.

(** [s.endsWith(p)] *)
Fixpoint endsWith (p s : string) : bool :=
  String.eqb s p ||
  match s with
  | EmptyString => false
  | String _ s' => endsWith p s'
  end.

Fixpoint take (n : nat) (s : string) : string :=
  match n, s with
  | S n', String c s' => String c (take n' s')
  | _, _ => EmptyString
  end.

Fixpoint drop (n : nat) (s : string) : string :=
  match n, s with
  | S n', String _ s' => drop n' s'
  | _, _ => s
  end.

(** [s.slice(0, -k)] for [k > 0]: all but the last [k] characters, the empty
    string when [s] has at most [k]. *)
Definition sliceFromEnd (k : nat) (s : string) : string :=
  take (String.length s - k) s.

(** [s.substring(0, n)] *)
Definition substring0 (n : nat) (s : string) : string := take n s.

(** [s.replace(/p/g, '')] for a literal, non-empty pattern [p]: the matches are
    found left to right and do not overlap.  [skip] counts the characters of
    the current match still to be dropped. *)
Fixpoint removeAllFrom (p : string) (skip : nat) (s : string) : string :=
  match s with
  | EmptyString => EmptyString
  | String c s' =>
      match skip with
      | S k => removeAllFrom p k s'
      | O =>
          if startsWith p s
          then removeAllFrom p (String.length p - 1) s'
          else String c (removeAllFrom p 0 s')
      end
  end.

Definition removeAll (p s : string) : string := removeAllFrom p 0 s.

(** [s.split('\n')[0]]: the text before the first line feed. *)
Fixpoint firstLine (s : string) : string :=
  match s with
  | EmptyString => EmptyString
  | String c s' =>
      if Ascii.eqb c (ascii_of_nat 10) then EmptyString else String c (firstLine s')
  end.

(** Truthiness of a string: every string but the empty one. *)
Definition truthy (s : string) : bool := negb (String.eqb s EmptyString).

(** [a || b] on strings. *)
Definition orElse (a b : string) : string := if truthy a then a else b.

(** [n.toString()] and [`${n}`] for an integer [n]. *)
Definition ofZ (n : Z) : string := NilZero.string_of_int (Z.to_int n).

(** The number of positions of [s] at which [p] occurs. *)
Fixpoint occurrences (p s : string) : nat :=
  (if startsWith p s then 1 else 0) +
  match s with
  | EmptyString => 0
  | String _ s' => occurrences p s'
  end.

(** No proper, non-empty suffix of [p] is a prefix of [p]: two occurrences of
    [p] never overlap. *)
Definition unbordered (p : string) : bool :=
  forallb (fun k => negb (startsWith (drop k p) p)) (seq 1 (String.length p - 1)).

(** The first character, if any, is not white space. *)
Definition noLeadingSpace (s : string) : bool :=
  match s with
  | EmptyString => true
  | String c _ => negb (isWhiteSpace c)
  end.

(** [c] is a character of [p]. *)
Fixpoint charIn (c : ascii) (p : string) : bool :=
  match p with
  | EmptyString => false
  | String x p' => Ascii.eqb x c || charIn c p'
  end.

End Js.

(* ================================================================== *)
(** * Values, exceptions and the data model ([types.ts]) *)
(* ================================================================== *)

(** A value read from JSON.  A number is only stored and passed on. *)
#[warning="-register-all"]
Inductive json : Type :=
  | JNull
  | JBool (b : bool)
  | JNum (n : Q)
  | JStr (s : string)
  | JArr (items : list json)
  | JObj (fields : list (string * json)).

(** What a [throw] carries.  [Error v] is [new Error(v)]: its message is
    [String(v)], which is [s] for [v = JStr s]. *)
Inductive exn : Type :=
  | Error (message : json)
  | TypeError
  | SyntaxError
  | NetworkError (reason : string).

Inductive result (A : Type) : Type :=
  | Ok (a : A)
  | Throw (e : exn).
Arguments Ok {A} a.
Arguments Throw {A} e.

Definition bind {A B : Type} (r : result A) (k : A -> result B) : result B :=
  match r with
  | Ok a => k a
  | Throw e => Throw e
  end.

Notation "'let!' x ':=' r 'in' k" := (bind r (fun x => k))
  (at level 10, x name, r at level 100, k at level 200).

(** [try { r } catch (e) { d }] *)
Definition tryCatch {A : Type} (r : result A) (d : A) : A :=
  match r with
  | Ok a => a
  | Throw _ => d
  end.

Module Value.

(** The own property [k] of an object literal or a parsed object. *)
Fixpoint getField (k : string) (fields : list (string * json)) : option json :=
  match fields with
  | [] => None
  | (k', v) :: rest => if String.eqb k k' then Some v else getField k rest
  end.

(** An array index is the canonical decimal form of an integer from 0 to
    2^32 - 2: the digits of the number, with no sign and no leading zero.
    An object lists its array-index keys first, in ascending numeric order,
    and its other string keys after them, in the order of their creation. *)
Definition digit (c : ascii) : option N :=
  let n := N_of_ascii c in
  if (48 <=? n)%N && (n <=? 57)%N then Some (n - 48)%N else None.

Fixpoint digitsValue (acc : N) (s : string) : option N :=
  match s with
  | EmptyString => Some acc
  | String c s' =>
      match digit c with
      | Some d => digitsValue (10 * acc + d)%N s'
      | None => None
      end
  end.

Definition arrayIndex (k : string) : option N :=
  match digitsValue 0 k with
  | Some n =>
      if String.eqb (Js.ofZ (Z.of_N n)) k && (n <? 4294967295)%N then Some n else None
  | None => None
  end.

(** [true] for an array index. *)
Definition isIndex (k : string) : bool :=
  match arrayIndex k with Some _ => true | None => false end.

(** The order in which an object lists its keys, in part: no array index
    after a key that is none. *)
Fixpoint indexFirst (keys : list string) : bool :=
  match keys with
  | [] => true
  | k :: rest => if isIndex k then indexFirst rest else forallb (fun x => negb (isIndex x)) rest
  end.

(** The value of an existing key is replaced where the key stands; [None]
    when the object has no such key. *)
Fixpoint replaceField (k : string) (v : json) (fields : list (string * json))
  : option (list (string * json)) :=
  match fields with
  | [] => None
  | (k', v') :: rest =>
      if String.eqb k k' then Some ((k, v) :: rest)
      else match replaceField k v rest with
           | Some rest' => Some ((k', v') :: rest')
           | None => None
           end
  end.

(** A new array-index key [k], of value [n], takes its place among the
    array-index keys: before the first key that is a greater array index or
    no array index at all. *)
Fixpoint insertIndexed (n : N) (k : string) (v : json) (fields : list (string * json))
  : list (string * json) :=
  match fields with
  | [] => [(k, v)]
  | (k', v') :: rest =>
      match arrayIndex k' with
      | Some n' =>
          if (n <? n')%N then (k, v) :: fields else (k', v') :: insertIndexed n k v rest
      | None => (k, v) :: fields
      end
  end.

(** [o[k] = v] on an object, the fields in the order in which the object lists
    its own properties: the value of an existing key is replaced where the key
    stands, a new array-index key goes among the array-index keys, any other
    new key is added at the end. *)
Definition setField (k : string) (v : json) (fields : list (string * json))
  : list (string * json) :=
  match replaceField k v fields with
  | Some fields' => fields'
  | None =>
      match arrayIndex k with
      | Some n => insertIndexed n k v fields
      | None => (fields ++ [(k, v)])%list
      end
  end.

(** [{ ...base, ...extra }], [extra] possibly [undefined]: the properties of
    [extra] are set on a copy of [base] one after the other, in the order in
    which [extra] lists them. *)
Definition spread (base : list (string * json)) (extra : option (list (string * json)))
  : list (string * json) :=
  match extra with
  | None => base
  | Some fs => fold_left (fun acc kv => setField (fst kv) (snd kv) acc) fs base
  end.

(** Truthiness; [None] is [undefined]. *)
Definition truthy (v : option json) : bool :=
  match v with
  | None | Some JNull => false
  | Some (JBool b) => b
  | Some (JNum n) => negb (Qeq_bool n 0)
  | Some (JStr s) => Js.truthy s
  | Some (JArr _) | Some (JObj _) => true
  end.

(** [a || b], [b] a value. *)
Definition orElse (a : option json) (b : json) : json :=
  match a with
  | Some v => if truthy a then v else b
  | None => b
  end.

(** [v.k] for [v] neither [null] nor [undefined] and [k] one of the names the
    service reads ([error], [message], [candidates], [content], [parts],
    [text], [choices]): only an object has such a property. *)
Definition member (k : string) (v : json) : option json :=
  match v with
  | JObj fields => getField k fields
  | _ => None
  end.

(** [v[0]] for [v] neither [null] nor [undefined]. *)
Definition index0 (v : json) : option json :=
  match v with
  | JArr (x :: _) => Some x
  | JStr (String c _) => Some (JStr (String c EmptyString))
  | JObj fields => getField "0" fields
  | _ => None
  end.

(** [v.k]: a [TypeError] on [null]. *)
Definition dot (k : string) (v : json) : result (option json) :=
  match v with
  | JNull => Throw TypeError
  | _ => Ok (member k v)
  end.

(** [v?.k] *)
Definition optDot (k : string) (v : option json) : option json :=
  match v with
  | None | Some JNull => None
  | Some x => member k x
  end.

(** [v?.[0]] *)
Definition optIndex0 (v : option json) : option json :=
  match v with
  | None | Some JNull => None
  | Some x => index0 x
  end.

Definition isString (s : string) (v : option json) : bool :=
  match v with
  | Some (JStr s') => String.eqb s' s
  | _ => false
  end.

End Value.

Record Persona : Type := {
  persona_id : string;
  persona_name : string;
  persona_role : string;
  relationship : string;
  description : string;
  avatar : string;
  systemInstruction : string;
  longTermMemory : option string
}.

Inductive Provider : Type := gemini | openai.

(** The fields of [EngineConfig] the service and the controller read; the
    presentation settings (fonts, theme, backup tokens) are read by neither. *)
Record EngineConfig : Type := {
  provider : Provider;
  baseUrl : string;
  apiKey : string;
  model : string;
  temperature : Q;
  autoMemoryThreshold : Z;
  autonomousReading : bool;
  autoAnnotationCount : Z
}.

Inductive Author : Type := ai | user.

Record ChatTurn : Type := { turn_role : string; turn_text : string }.

Record Annotation : Type := {
  anno_id : string;
  bookId : string;
  textSelection : string;
  comment : string;
  author : Author;
  timestamp : Z;
  personaId : option string;
  topic : option string;
  isAutonomous : option bool;
  position : Z * Z;
  chatHistory : option (list ChatTurn)
}.

(** One element of the array [autonomousScan] is declared to return. *)
Record ScanResult : Type := {
  scan_textSelection : string;
  scan_comment : string;
  scan_topic : string
}.

(* ================================================================== *)
(** * The service ([services/geminiService.ts]) *)
(* ================================================================== *)

(** ** Wire shapes *)

Record Part : Type := { text : string }.
Record Content : Type := { role : string; parts : list Part }.
Record Message : Type := { msg_role : string; msg_content : string }.

Record Endpoint : Type := { url : string; headers : list (string * string) }.

(** The body of a request, as the object handed to [JSON.stringify]. *)
Record GeminiBody : Type := {
  gem_contents : list Content;
  gem_generationConfig : list (string * json);
  gem_systemInstruction : option string
}.

Record OpenAIBody : Type := {
  oa_model : string;
  oa_messages : list Message;
  oa_temperature : Q
}.

Inductive Body : Type :=
  | BodyGemini (b : GeminiBody)
  | BodyOpenAI (b : OpenAIBody).

(** One [fetch(url, { method: 'POST', headers, body })]. *)
Record Request : Type := {
  req_url : string;
  req_headers : list (string * string);
  req_body : Body
}.

Record Response : Type := { status : Z; bodyText : string }.

(** [response.ok]: the status is in the range 200-299. *)
Definition ok (r : Response) : bool := (200 <=? status r)%Z && (status r <=? 299)%Z.

(** ** Constants and pure helpers *)

Definition lines (l : list string) : string := String.concat Js.nl l.

Definition THOUGHT_ONLY_CONSTRAINT : string :=
  lines
    [ "";
      "  CRITICAL CONSTRAINTS: ";
      "  1. NO ACTIONS: Strictly NO physical descriptions (e.g., NO " ++ Js.dq ++ "*nods*"
        ++ Js.dq ++ ", " ++ Js.dq ++ "*sighs*" ++ Js.dq ++ ", " ++ Js.dq ++ "I look up"
        ++ Js.dq ++ "). ";
      "  2. PURE THOUGHT: Express only internal insights, intellectual sparks, or visceral mental reactions.";
      "  3. COLLOQUIAL: Use natural, spoken, and informal language—like a quick thought scribbled in a margin.";
      "  4. BARS: Maximum 100 characters. Be punchy.";
      "  5. PERSONA: You must speak with the bias and life experience of your specific persona.";
      "" ].

Definition cleanJSON (t : string) : string :=
  Js.trim (Js.removeAll "```" (Js.removeAll "```json" t)).

Definition buildSystemPrompt (persona : Persona) : string :=
  let prompt := systemInstruction persona in
  let prompt :=
    match longTermMemory persona with
    | Some m =>
        if Js.truthy m
        then prompt ++ Js.nl ++ Js.nl ++ "[LONG-TERM MEMORY & SHARED HISTORY]" ++ Js.nl
             ++ "The following is a summary of our past conversations and your evolved understanding. Use this context to deepen our bond, but do not explicitly recite it:"
             ++ Js.nl ++ Js.dq ++ m ++ Js.dq
        else prompt
    | None => prompt
    end in
  prompt ++ Js.nl ++ THOUGHT_ONLY_CONSTRAINT.

(** Convert Gemini "Contents" format to OpenAI "Messages" format. *)
Definition mapGeminiToOpenAI (contents : list Content) (sys : option string)
  : list Message :=
  let messages :=
    match sys with
    | Some s => if Js.truthy s then [ {| msg_role := "system"; msg_content := s |} ] else []
    | None => []
    end in
  (messages ++
   map (fun item =>
          {| msg_role := if String.eqb (role item) "model" then "assistant" else "user";
             msg_content := lines (map text (parts item)) |})
       contents)%list.

(** [generationConfigOverride?.responseMimeType === 'application/json'] *)
Definition isJsonMode (override : option (list (string * json))) : bool :=
  match override with
  | Some fields => Value.isString "application/json" (Value.getField "responseMimeType" fields)
  | None => false
  end.

Definition JSON_INSTRUCTION : string :=
  Js.nl ++ "IMPORTANT: Output strictly in JSON format.".

(** The objects [callOpenAI] shares.  [mapGeminiToOpenAI] creates the message
    objects; the array [messages] holds references to them and [body.messages]
    is that same array, so what is written through [messages[0]] after [body]
    was built is what [JSON.stringify(body)] reads.  A reference is an index of
    the object table. *)
Abbreviation MessageHeap := (list Message).

Record OpenAIBodyRef : Type := {
  ref_model : string;
  ref_messages : list nat;
  ref_temperature : Q
}.

(** [JSON.stringify(body)] follows the references at the time of the call. *)
Definition derefBody (h : MessageHeap) (b : OpenAIBodyRef) : OpenAIBody :=
  {| oa_model := ref_model b;
     oa_messages := omap (fun r => h !! r) (ref_messages b);
     oa_temperature := ref_temperature b |}.

(** The JSON-mode branch of [callOpenAI]:
    [if (!messages[0].content.includes('JSON')) messages[0].content += ...].
    Reading [.content] of a missing [messages[0]] is a [TypeError]. *)
Definition amendForJsonMode (messages : list nat) (h : MessageHeap) : result MessageHeap :=
  match messages !! 0%nat with
  | None => Throw TypeError
  | Some r =>
      match h !! r with
      | None => Throw TypeError
      | Some m =>
          if Js.includes "JSON" (msg_content m)
          then Ok h
          else Ok (<[ r := {| msg_role := msg_role m;
                              msg_content := msg_content m ++ JSON_INSTRUCTION |} ]> h)
      end
  end.

(** ** Endpoints, clients, router and the exported operations *)

Section Service.

(** [process.env.API_KEY], [undefined] when the build sets none. *)
Variable env_API_KEY : option string.
(** The network: the response to a request, or a rejection. *)
Variable fetch : Request -> result Response.
Variable JSON_parse : string -> option json.
Variable JSON_stringify : json -> string.

(** [(config.apiKey || process.env.API_KEY || '')] *)
Definition apiKeyOrEnv (config : EngineConfig) : string :=
  Js.orElse (apiKey config)
    (match env_API_KEY with
     | Some k => Js.orElse k ""
     | None => ""
     end).

(** The base URL of [getGeminiEndpoint] after its three normalisation steps. *)
Definition geminiBase (config : EngineConfig) : string :=
  let baseUrl := Js.trim (Js.orElse (baseUrl config) "https://generativelanguage.googleapis.com") in
  let baseUrl := if Js.endsWith "/" baseUrl then Js.sliceFromEnd 1 baseUrl else baseUrl in
  let version := "v1beta" in
  if Js.endsWith version baseUrl
  then Js.sliceFromEnd (String.length version + 1) baseUrl
  else baseUrl.

Definition getGeminiEndpoint (config : EngineConfig) (method : string) : Endpoint :=
  let apiKey := Js.trim (apiKeyOrEnv config) in
  let baseUrl := geminiBase config in
  let version := "v1beta" in
  let model := Js.orElse (model config) "gemini-3-flash-preview" in
  {| url := baseUrl ++ "/" ++ version ++ "/models/" ++ model ++ ":" ++ method
            ++ "?key=" ++ apiKey;
     headers := [ ("Content-Type", "application/json"); ("x-goog-api-key", apiKey) ] |}.

(** The base URL of [getOpenAIEndpoint] after trimming and dropping one
    trailing slash. *)
Definition openAIBase (config : EngineConfig) : string :=
  let baseUrl := Js.trim (Js.orElse (baseUrl config) "https://api.siliconflow.cn") in
  if Js.endsWith "/" baseUrl then Js.sliceFromEnd 1 baseUrl else baseUrl.

Definition getOpenAIEndpoint (config : EngineConfig) : Endpoint :=
  let baseUrl := openAIBase config in
  let baseUrl :=
    if negb (Js.includes "/chat/completions" baseUrl)
    then (if negb (Js.endsWith "/v1" baseUrl) then baseUrl ++ "/v1" else baseUrl)
         ++ "/chat/completions"
    else baseUrl in
  {| url := baseUrl;
     headers := [ ("Content-Type", "application/json");
                  ("Authorization", "Bearer " ++ Js.trim (apiKeyOrEnv config)) ] |}.

(** [response.json()] *)
Definition responseJson (r : Response) : result json :=
  match JSON_parse (bodyText r) with
  | Some v => Ok v
  | None => Throw SyntaxError
  end.

(** [await response.json().catch(() => ({}))] *)
Definition errorData (r : Response) : json :=
  tryCatch (responseJson r) (JObj []).

(** The request [callGemini] sends. *)
Definition geminiRequest (contents : list Content) (config : EngineConfig)
    (sys : option string) (override : option (list (string * json))) : Request :=
  let ep := getGeminiEndpoint config "generateContent" in
  {| req_url := url ep;
     req_headers := headers ep;
     req_body :=
       BodyGemini
         {| gem_contents := contents;
            gem_generationConfig :=
              Value.spread [ ("temperature", JNum (temperature config)) ] override;
            gem_systemInstruction :=
              match sys with
              | Some s => if Js.truthy s then Some s else None
              | None => None
              end |} |}.

(** What [callGemini] makes of the response. *)
Definition geminiResult (response : Response) : result json :=
  if negb (ok response) then
    let errData := errorData response in
    let! e := Value.dot "error" errData in
    Throw (Error (Value.orElse (Value.optDot "message" e)
                    (JStr ("Gemini API Error: " ++ Js.ofZ (status response)))))
  else
    let! data := responseJson response in
    let! candidates := Value.dot "candidates" data in
    Ok (Value.orElse
          (Value.optDot "text"
             (Value.optIndex0
                (Value.optDot "parts"
                   (Value.optDot "content" (Value.optIndex0 candidates)))))
          (JStr "")).

Definition callGemini (contents : list Content) (config : EngineConfig)
    (sys : option string) (override : option (list (string * json))) : result json :=
  let! response := fetch (geminiRequest contents config sys override) in
  geminiResult response.

(** The request [callOpenAI] sends; building it can throw. *)
Definition openAIRequest (contents : list Content) (config : EngineConfig)
    (sys : option string) (override : option (list (string * json))) : result Request :=
  let ep := getOpenAIEndpoint config in
  let h := mapGeminiToOpenAI contents sys in
  let messages := seq 0 (length h) in
  let body :=
    {| ref_model := Js.orElse (model config) "deepseek-ai/DeepSeek-V3";
       ref_messages := messages;
       ref_temperature := temperature config |} in
  let! h := (if isJsonMode override then amendForJsonMode messages h else Ok h) in
  Ok {| req_url := url ep;
        req_headers := headers ep;
        req_body := BodyOpenAI (derefBody h body) |}.

(** What [callOpenAI] makes of the response. *)
Definition openAIResult (response : Response) : result json :=
  if negb (ok response) then
    let errData := errorData response in
    let! e := Value.dot "error" errData in
    Throw (Error (Value.orElse (Value.optDot "message" e)
                    (JStr ("OpenAI API Error: " ++ Js.ofZ (status response) ++ " - "
                           ++ JSON_stringify errData))))
  else
    let! data := responseJson response in
    let! choices := Value.dot "choices" data in
    Ok (Value.orElse
          (Value.optDot "content" (Value.optDot "message" (Value.optIndex0 choices)))
          (JStr "")).

Definition callOpenAI (contents : list Content) (config : EngineConfig)
    (sys : option string) (override : option (list (string * json))) : result json :=
  let! request := openAIRequest contents config sys override in
  let! response := fetch request in
  openAIResult response.

(** The router. *)
Definition callAI (contents : list Content) (config : EngineConfig)
    (sys : option string) (override : option (list (string * json))) : result json :=
  match provider config with
  | openai => callOpenAI contents config sys override
  | gemini => callGemini contents config sys override
  end.

(** The request [callAI] sends for a configuration. *)
Definition requestOf (contents : list Content) (config : EngineConfig)
    (sys : option string) (override : option (list (string * json))) : result Request :=
  match provider config with
  | openai => openAIRequest contents config sys override
  | gemini => Ok (geminiRequest contents config sys override)
  end.

(** A method of [String.prototype] applied to what [callAI] returned: a
    [TypeError] unless it is a string. *)
Definition onString {A : Type} (v : json) (f : string -> A) : result A :=
  match v with
  | JStr s => Ok (f s)
  | _ => Throw TypeError
  end.

(** [JSON.parse(cleanJSON(text))] *)
Definition parseStructured (v : json) : result json :=
  let! clean := onString v cleanJSON in
  match JSON_parse clean with
  | Some r => Ok r
  | None => Throw SyntaxError
  end.

Definition userTurn (prompt : string) : list Content :=
  [ {| role := "user"; parts := [ {| text := prompt |} ] |} ].

Definition JSON_OVERRIDE : option (list (string * json)) :=
  Some [ ("responseMimeType", JStr "application/json") ].

Definition soulReportPrompt (bookTitle : string) (annotations : list Annotation) : string :=
  let discussionData :=
    lines (map (fun a =>
                  "[Thought: " ++ match topic a with Some t => t | None => "undefined" end
                  ++ "] " ++ comment a)
               annotations) in
  lines
    [ "";
      "    Analyze our reading session of " ++ Js.dq ++ bookTitle ++ Js.dq ++ ".";
      "    Data:";
      "    " ++ Js.substring0 5000 discussionData;
      "    ";
      "    Output a poetic JSON report:";
      "    - " ++ Js.dq ++ "summary" ++ Js.dq
        ++ ": 2 sentences of our shared soul journey (Colloquial, No actions).";
      "    - " ++ Js.dq ++ "keywords" ++ Js.dq ++ ": 8 evocative keywords.";
      "    - " ++ Js.dq ++ "highlightTopics" ++ Js.dq ++ ": 3 main themes.";
      "  " ].

Definition DEFAULT_SOUL_REPORT : json :=
  JObj [ ("summary", JStr "A quiet exchange of minds.");
         ("keywords", JArr [ JStr "Thought" ]);
         ("highlightTopics", JArr [ JStr "General" ]) ].

Definition generateSoulReport (bookTitle : string) (annotations : list Annotation)
    (personaName : string) (engineConfig : EngineConfig) : json :=
  tryCatch
    (let! t := callAI (userTurn (soulReportPrompt bookTitle annotations))
                      engineConfig None JSON_OVERRIDE in
     parseStructured t)
    DEFAULT_SOUL_REPORT.

(** [Math.max(1, Math.min(5, engine.autoAnnotationCount || 2))] *)
Definition scanCount (engine : EngineConfig) : Z :=
  let c := autoAnnotationCount engine in
  Z.max 1 (Z.min 5 (if (c =? 0)%Z then 2 else c))%Z.

Definition scanPrompt (pageContent : string) (persona : Persona) (engine : EngineConfig)
  : string :=
  lines
    [ "";
      "    Text: " ++ Js.dq ++ pageContent ++ Js.dq;
      "    Persona: " ++ persona_name persona;
      "    Instruction: Find between 1 and " ++ Js.ofZ (scanCount engine)
        ++ " distinct passages that spark a deep thought.";
      "    JSON Output: A list of objects. Each object: { " ++ Js.dq ++ "textSelection" ++ Js.dq
        ++ ": " ++ Js.dq ++ "exact text from passage" ++ Js.dq ++ ", " ++ Js.dq ++ "comment"
        ++ Js.dq ++ ": " ++ Js.dq ++ "Colloquial thought under 100 chars, no actions" ++ Js.dq
        ++ ", " ++ Js.dq ++ "topic" ++ Js.dq ++ ": " ++ Js.dq ++ "2-word theme" ++ Js.dq ++ " }";
      "  " ].

(** [Array.isArray(result) ? result : [result]] *)
Definition asArray (v : json) : list json :=
  match v with
  | JArr items => items
  | _ => [ v ]
  end.

(** The array [autonomousScan] resolves to, before any typing of its elements. *)
Definition autonomousScan (pageContent : string) (persona : Persona)
    (engine : EngineConfig) (isOriginal : bool) : list json :=
  tryCatch
    (let! t := callAI (userTurn (scanPrompt pageContent persona engine))
                      engine (Some (buildSystemPrompt persona)) JSON_OVERRIDE in
     let! r := parseStructured t in
     Ok (asArray r))
    [].

Definition TOPIC_OVERRIDE : option (list (string * json)) :=
  Some [ ("temperature", JNum (3 # 10)) ].

Definition topicPrompt (comment : string) : string :=
  "Topic for: " ++ Js.dq ++ comment ++ Js.dq.

Definition summarizeTopic (textSelection comment : string) (engine : EngineConfig)
  : result string :=
  let! t := callAI (userTurn (topicPrompt comment)) engine None TOPIC_OVERRIDE in
  onString t (fun s => Js.orElse (Js.trim s) "Thought").

(** The request [summarizeTopic] sends. *)
Definition summarizeTopicRequest (comment : string) (engine : EngineConfig) : result Request :=
  requestOf (userTurn (topicPrompt comment)) engine None TOPIC_OVERRIDE.

End Service.

(* ================================================================== *)
(** * The controller ([App]) *)
(* ================================================================== *)

Record Chapter : Type := {
  chapter_id : string;
  chapter_title : string;
  chapter_content : string;
  lastModified : Z
}.

Record WritingMetadata : Type := {
  chapters : list Chapter;
  mainOutline : string;
  volumeOutline : string;
  inspirations : string;
  characterSettings : string
}.

Record Book : Type := {
  book_id : string;
  book_title : string;
  book_content : string;
  book_author : option string;
  book_category : string;
  coverColor : option string;
  addedAt : Z;
  timeSpent : Z;
  rating : option Z;
  userReview : option string;
  aiReview : option string;
  isOriginal : option bool;
  writingMetadata : option WritingMetadata
}.

Inductive AppState : Type := library_view | reading.
Inductive ToastType : Type := info | success | error.

(** The state and the refs of [App] that the modelled handlers read or write.
    A [set...] of React is applied at once: every handler and effect below
    runs against the state of the latest render. *)
Record App : Type := {
  appState : AppState;
  activeBookId : option string;
  library : list Book;
  customPersonas : list Persona;
  persona : Persona;
  engineConfig : EngineConfig;
  annotations : list Annotation;
  isAutoScanning : bool;
  isWritingStudioOpen : bool;
  progress : Z;
  toast : option (string * ToastType);
  lastScannedPageRef : option string;
  lastConsolidatedCountRef : Z
}.

Definition setAppState (v : AppState) (s : App) : App :=
  {| appState := v; activeBookId := activeBookId s; library := library s;
     customPersonas := customPersonas s; persona := persona s;
     engineConfig := engineConfig s; annotations := annotations s;
     isAutoScanning := isAutoScanning s; isWritingStudioOpen := isWritingStudioOpen s;
     progress := progress s; toast := toast s;
     lastScannedPageRef := lastScannedPageRef s;
     lastConsolidatedCountRef := lastConsolidatedCountRef s |}.

Definition setActiveBookId (v : option string) (s : App) : App :=
  {| appState := appState s; activeBookId := v; library := library s;
     customPersonas := customPersonas s; persona := persona s;
     engineConfig := engineConfig s; annotations := annotations s;
     isAutoScanning := isAutoScanning s; isWritingStudioOpen := isWritingStudioOpen s;
     progress := progress s; toast := toast s;
     lastScannedPageRef := lastScannedPageRef s;
     lastConsolidatedCountRef := lastConsolidatedCountRef s |}.

Definition setLibrary (f : list Book -> list Book) (s : App) : App :=
  {| appState := appState s; activeBookId := activeBookId s; library := f (library s);
     customPersonas := customPersonas s; persona := persona s;
     engineConfig := engineConfig s; annotations := annotations s;
     isAutoScanning := isAutoScanning s; isWritingStudioOpen := isWritingStudioOpen s;
     progress := progress s; toast := toast s;
     lastScannedPageRef := lastScannedPageRef s;
     lastConsolidatedCountRef := lastConsolidatedCountRef s |}.

Definition setCustomPersonas (f : list Persona -> list Persona) (s : App) : App :=
  {| appState := appState s; activeBookId := activeBookId s; library := library s;
     customPersonas := f (customPersonas s); persona := persona s;
     engineConfig := engineConfig s; annotations := annotations s;
     isAutoScanning := isAutoScanning s; isWritingStudioOpen := isWritingStudioOpen s;
     progress := progress s; toast := toast s;
     lastScannedPageRef := lastScannedPageRef s;
     lastConsolidatedCountRef := lastConsolidatedCountRef s |}.

Definition setPersona (v : Persona) (s : App) : App :=
  {| appState := appState s; activeBookId := activeBookId s; library := library s;
     customPersonas := customPersonas s; persona := v;
     engineConfig := engineConfig s; annotations := annotations s;
     isAutoScanning := isAutoScanning s; isWritingStudioOpen := isWritingStudioOpen s;
     progress := progress s; toast := toast s;
     lastScannedPageRef := lastScannedPageRef s;
     lastConsolidatedCountRef := lastConsolidatedCountRef s |}.

Definition setEngineConfig (v : EngineConfig) (s : App) : App :=
  {| appState := appState s; activeBookId := activeBookId s; library := library s;
     customPersonas := customPersonas s; persona := persona s;
     engineConfig := v; annotations := annotations s;
     isAutoScanning := isAutoScanning s; isWritingStudioOpen := isWritingStudioOpen s;
     progress := progress s; toast := toast s;
     lastScannedPageRef := lastScannedPageRef s;
     lastConsolidatedCountRef := lastConsolidatedCountRef s |}.

Definition setAnnotations (f : list Annotation -> list Annotation) (s : App) : App :=
  {| appState := appState s; activeBookId := activeBookId s; library := library s;
     customPersonas := customPersonas s; persona := persona s;
     engineConfig := engineConfig s; annotations := f (annotations s);
     isAutoScanning := isAutoScanning s; isWritingStudioOpen := isWritingStudioOpen s;
     progress := progress s; toast := toast s;
     lastScannedPageRef := lastScannedPageRef s;
     lastConsolidatedCountRef := lastConsolidatedCountRef s |}.

Definition setIsAutoScanning (v : bool) (s : App) : App :=
  {| appState := appState s; activeBookId := activeBookId s; library := library s;
     customPersonas := customPersonas s; persona := persona s;
     engineConfig := engineConfig s; annotations := annotations s;
     isAutoScanning := v; isWritingStudioOpen := isWritingStudioOpen s;
     progress := progress s; toast := toast s;
     lastScannedPageRef := lastScannedPageRef s;
     lastConsolidatedCountRef := lastConsolidatedCountRef s |}.

Definition setIsWritingStudioOpen (v : bool) (s : App) : App :=
  {| appState := appState s; activeBookId := activeBookId s; library := library s;
     customPersonas := customPersonas s; persona := persona s;
     engineConfig := engineConfig s; annotations := annotations s;
     isAutoScanning := isAutoScanning s; isWritingStudioOpen := v;
     progress := progress s; toast := toast s;
     lastScannedPageRef := lastScannedPageRef s;
     lastConsolidatedCountRef := lastConsolidatedCountRef s |}.

Definition setProgress (v : Z) (s : App) : App :=
  {| appState := appState s; activeBookId := activeBookId s; library := library s;
     customPersonas := customPersonas s; persona := persona s;
     engineConfig := engineConfig s; annotations := annotations s;
     isAutoScanning := isAutoScanning s; isWritingStudioOpen := isWritingStudioOpen s;
     progress := v; toast := toast s;
     lastScannedPageRef := lastScannedPageRef s;
     lastConsolidatedCountRef := lastConsolidatedCountRef s |}.

Definition showToast (message : string) (type : ToastType) (s : App) : App :=
  {| appState := appState s; activeBookId := activeBookId s; library := library s;
     customPersonas := customPersonas s; persona := persona s;
     engineConfig := engineConfig s; annotations := annotations s;
     isAutoScanning := isAutoScanning s; isWritingStudioOpen := isWritingStudioOpen s;
     progress := progress s; toast := Some (message, type);
     lastScannedPageRef := lastScannedPageRef s;
     lastConsolidatedCountRef := lastConsolidatedCountRef s |}.

(** [lastScannedPageRef.current = v] *)
Definition writeLastScannedPage (v : string) (s : App) : App :=
  {| appState := appState s; activeBookId := activeBookId s; library := library s;
     customPersonas := customPersonas s; persona := persona s;
     engineConfig := engineConfig s; annotations := annotations s;
     isAutoScanning := isAutoScanning s; isWritingStudioOpen := isWritingStudioOpen s;
     progress := progress s; toast := toast s;
     lastScannedPageRef := Some v;
     lastConsolidatedCountRef := lastConsolidatedCountRef s |}.

(** [lastConsolidatedCountRef.current = v] *)
Definition writeLastConsolidatedCount (v : Z) (s : App) : App :=
  {| appState := appState s; activeBookId := activeBookId s; library := library s;
     customPersonas := customPersonas s; persona := persona s;
     engineConfig := engineConfig s; annotations := annotations s;
     isAutoScanning := isAutoScanning s; isWritingStudioOpen := isWritingStudioOpen s;
     progress := progress s; toast := toast s;
     lastScannedPageRef := lastScannedPageRef s;
     lastConsolidatedCountRef := v |}.

(** [x === id] for a string [x] and an [id] that may be [null]. *)
Definition sameId (x : string) (id : option string) : bool :=
  match id with
  | Some y => String.eqb x y
  | None => false
  end.

(** [arr.includes(x)] on an array of strings. *)
Definition arrayIncludes (arr : list string) (x : string) : bool :=
  existsb (String.eqb x) arr.

(** [arr.sort((a, b) => b.timestamp - a.timestamp)]: stable, newest first. *)
Fixpoint insertByTimestamp (a : Annotation) (sorted : list Annotation) : list Annotation :=
  match sorted with
  | [] => [ a ]
  | b :: rest =>
      if (timestamp a <? timestamp b)%Z
      then b :: insertByTimestamp a rest
      else a :: sorted
  end.

Definition sortByTimestampDesc (l : list Annotation) : list Annotation :=
  fold_right insertByTimestamp [] l.

Definition activeBook (s : App) : option Book :=
  find (fun b => sameId (book_id b) (activeBookId s)) (library s).

Definition bookAnnotations (s : App) : list Annotation :=
  sortByTimestampDesc (List.filter (fun a => sameId (bookId a) (activeBookId s)) (annotations s)).

(** What a scan captured when it started. *)
Record ScanJob : Type := {
  job_content : string;
  job_bookId : string;
  job_persona : Persona;
  job_config : EngineConfig;
  job_isOriginal : option bool;
  job_existingSelections : list string
}.

(** What a consolidation captured when it started. *)
Record MemoryJob : Type := {
  mem_persona : Persona;
  mem_bookTitle : string;
  mem_annotations : list Annotation;
  mem_config : EngineConfig
}.

(** The annotation both scans build from result [idx]; [id_now] and [ts_now]
    are the two readings of [Date.now()]. *)
Definition scanAnnotation (bookId : string) (p : Persona) (idx : nat)
    (id_now ts_now : Z) (r : ScanResult) : Annotation :=
  {| anno_id := Js.ofZ (id_now + Z.of_nat idx);
     bookId := bookId;
     textSelection := scan_textSelection r;
     comment := scan_comment r;
     author := ai;
     timestamp := ts_now;
     personaId := Some (persona_id p);
     topic := Some (scan_topic r);
     isAutonomous := Some true;
     position := (0, 0)%Z;
     chatHistory := None |}.

Section Controller.

Variable env_API_KEY : option string.

(** [(engineConfig.apiKey || process.env.API_KEY)] as a condition. *)
Definition hasApiKey (config : EngineConfig) : bool :=
  Js.truthy (apiKey config) ||
  match env_API_KEY with
  | Some k => Js.truthy k
  | None => false
  end.

(** ** Automatic memory consolidation (the Auto-Memory effect) *)

(** The condition of the effect, on the values it reads. *)
Definition shouldConsolidate (threshold : Z) (hasBook : bool) (count lastCount : Z)
    (hasKey : bool) : bool :=
  (threshold >? 0)%Z && hasBook && (count >? 0)%Z
  && (Z.rem count threshold =? 0)%Z && negb (count =? lastCount)%Z && hasKey.

(** One run of the effect: the state after its synchronous part, and the
    consolidation it started, if any. *)
Definition autoMemoryEffect (s : App) : App * option MemoryJob :=
  let count := Z.of_nat (length (bookAnnotations s)) in
  match activeBook s with
  | Some book =>
      if shouldConsolidate (autoMemoryThreshold (engineConfig s)) true count
           (lastConsolidatedCountRef s) (hasApiKey (engineConfig s))
      then (showToast "Auto-consolidating memories..." info
              (writeLastConsolidatedCount count s),
            Some {| mem_persona := persona s; mem_bookTitle := book_title book;
                    mem_annotations := bookAnnotations s;
                    mem_config := engineConfig s |})
      else (s, None)
  | None => (s, None)
  end.

(** [runAutoMemory] once [consolidateMemory] has settled with [outcome]. *)
Definition autoMemorySettled (job : MemoryJob) (outcome : result string) (s : App) : App :=
  match outcome with
  | Ok newMemory =>
      let p := mem_persona job in
      let updatedPersona :=
        {| persona_id := persona_id p; persona_name := persona_name p;
           persona_role := persona_role p; relationship := relationship p;
           description := description p; avatar := avatar p;
           systemInstruction := systemInstruction p;
           longTermMemory := Some newMemory |} in
      let s := if String.eqb (persona_id updatedPersona) (persona_id p)
               then setPersona updatedPersona s else s in
      let s := setCustomPersonas
                 (map (fun q => if String.eqb (persona_id q) (persona_id updatedPersona)
                                then updatedPersona else q)) s in
      showToast "Long-term memory updated." success s
  | Throw _ => s
  end.

(** ** Autonomous scan of a page ([handlePageChange]) *)

(** [!activeBookId] is false for a non-empty id. *)
Definition activeId (s : App) : option string :=
  match activeBookId s with
  | Some id => if Js.truthy id then Some id else None
  | None => None
  end.

(** The part of [handlePageChange] before the [await]. *)
Definition handlePageChange (content : string) (p : Z) (s : App) : App * option ScanJob :=
  let s := setProgress p s in
  match activeId s with
  | Some id =>
      if negb (autonomousReading (engineConfig s)) || isAutoScanning s
         || match lastScannedPageRef s with
            | Some last => String.eqb last content
            | None => false
            end
      then (s, None)
      else if negb (hasApiKey (engineConfig s)) then (s, None)
      else
        let existingSelections := map textSelection (bookAnnotations s) in
        let isOriginal :=
          match activeBook s with
          | Some b => isOriginal b
          | None => None
          end in
        (writeLastScannedPage content (setIsAutoScanning true s),
         Some {| job_content := content; job_bookId := id; job_persona := persona s;
                 job_config := engineConfig s; job_isOriginal := isOriginal;
                 job_existingSelections := existingSelections |})
  | None => (s, None)
  end.

(** The [forEach] of [handlePageChange], from result [idx] on: a result whose
    [textSelection] is among [existingSelections] is skipped. *)
Fixpoint collectNew (job : ScanJob) (id_now ts_now : nat -> Z) (idx : nat)
    (results : list ScanResult) : list Annotation :=
  match results with
  | [] => []
  | r :: rest =>
      if negb (arrayIncludes (job_existingSelections job) (scan_textSelection r))
      then scanAnnotation (job_bookId job) (job_persona job) idx (id_now idx) (ts_now idx) r
           :: collectNew job id_now ts_now (S idx) rest
      else collectNew job id_now ts_now (S idx) rest
  end.

Definition newAnnos (job : ScanJob) (id_now ts_now : nat -> Z) (results : list ScanResult)
  : list Annotation :=
  if (0 <? length results)%nat then collectNew job id_now ts_now 0 results else [].

(** The part of [handlePageChange] after the [await]: [results] is the array
    [autonomousScan] resolved to, and [id_now idx], [ts_now idx] are the
    readings of [Date.now()] taken for result [idx]. *)
Definition pageScanSettled (job : ScanJob) (results : list ScanResult)
    (id_now ts_now : nat -> Z) (s : App) : App :=
  let added := newAnnos job id_now ts_now results in
  let s :=
    if (0 <? length added)%nat
    then showToast (persona_name (job_persona job) ++ " added "
                    ++ Js.ofZ (Z.of_nat (length added)) ++ " thoughts") info
           (setAnnotations (fun prev => (added ++ prev)%list) s)
    else s in
  setIsAutoScanning false s.

(** ** The initial scan of a saved work ([handleSaveCreatedBook]) *)

Definition COLORS : list string :=
  [ "#f59e0b"; "#10b981"; "#3b82f6"; "#8b5cf6"; "#ef4444"; "#ec4899" ].

(** What the timer callback captured. *)
Record InitialScanJob : Type := {
  init_firstPara : string;
  init_bookId : string;
  init_persona : Persona;
  init_config : EngineConfig
}.

(** The synchronous part of [handleSaveCreatedBook].  [now] is the reading of
    [Date.now()] for the new id, [added_now] the one for [addedAt], and
    [pick] is [Math.floor(Math.random() * colors.length)]. *)
Definition handleSaveCreatedBook (title content author category : string)
    (existingId : option string) (metadata : option WritingMetadata)
    (now added_now : Z) (pick : nat) (s : App) : App * option InitialScanJob :=
  let existing :=
    match existingId with
    | Some id => if Js.truthy id then Some id else None
    | None => None
    end in
  let newId := match existing with Some id => id | None => Js.ofZ now end in
  let s0 := s in
  let s :=
    match existing with
    | Some id =>
        showToast "Work synced successfully" success
          (setLibrary
             (map (fun b =>
                     if String.eqb (book_id b) id
                     then {| book_id := book_id b; book_title := title;
                             book_content := content; book_author := Some author;
                             book_category := category; coverColor := coverColor b;
                             addedAt := addedAt b; timeSpent := timeSpent b;
                             rating := rating b; userReview := userReview b;
                             aiReview := aiReview b; isOriginal := isOriginal b;
                             writingMetadata := metadata |}
                     else b)) s)
    | None =>
        let newBook :=
          {| book_id := newId; book_title := title; book_content := content;
             book_author := Some author; book_category := category;
             coverColor := COLORS !! pick; addedAt := added_now; timeSpent := 0;
             rating := None; userReview := None; aiReview := None;
             isOriginal := Some true; writingMetadata := metadata |} in
        showToast "New work created!" success (setLibrary (cons newBook) s)
    end in
  let s := setAppState reading (setActiveBookId (Some newId) (setIsWritingStudioOpen false s)) in
  (s,
   if hasApiKey (engineConfig s0)
   then Some {| init_firstPara := Js.orElse (Js.firstLine content) content;
                init_bookId := newId; init_persona := persona s0;
                init_config := engineConfig s0 |}
   else None).

(** The timer callback once [autonomousScan] has resolved to [results]:
    [results.map((r, i) => ...)], every result kept. *)
Definition initialAnnos (job : InitialScanJob) (id_now ts_now : nat -> Z)
    (results : list ScanResult) : list Annotation :=
  imap (fun i r =>
          scanAnnotation (init_bookId job) (init_persona job) i (id_now i) (ts_now i) r)
       results.

Definition initialScanSettled (job : InitialScanJob) (results : list ScanResult)
    (id_now ts_now : nat -> Z) (s : App) : App :=
  if (0 <? length results)%nat
  then
    let added := initialAnnos job id_now ts_now results in
    showToast (persona_name (init_persona job) ++ " found "
               ++ Js.ofZ (Z.of_nat (length added)) ++ " initial thoughts") success
      (setAnnotations (fun prev => (added ++ prev)%list) s)
  else s.

(** ** A reading session *)

(** What happens to [App] during a session, as far as the scan guard and the
    annotations are concerned. *)
Inductive Event : Type :=
  | PageChanged (content : string) (p : Z)
  | ScanSettled (results : list ScanResult) (id_now ts_now : nat -> Z)
  | BookSelected (id : string)
  | SettingsSaved (newConfig : EngineConfig)
  | PersonaChanged (p : Persona)
  | AnnotationCreated (a : Annotation)
  | BookDeleted (id : string).

(** The state of a session: [App] and the scan in flight. *)
Record Session : Type := { app : App; inFlight : option ScanJob }.

Definition handleDeleteBook (id : string) (s : App) : App :=
  let s := setLibrary (List.filter (fun b => negb (String.eqb (book_id b) id))) s in
  let s := setAnnotations (List.filter (fun a => negb (String.eqb (bookId a) id))) s in
  let s := if sameId id (activeBookId s)
           then setAppState library_view (setActiveBookId None s) else s in
  showToast "Book deleted" info s.

(** One event: the next state, and the page content of the scan it started. *)
Definition step (ss : Session) (e : Event) : Session * option string :=
  match e with
  | PageChanged content p =>
      match handlePageChange content p (app ss) with
      | (s, Some job) => ({| app := s; inFlight := Some job |}, Some content)
      | (s, None) => ({| app := s; inFlight := inFlight ss |}, None)
      end
  | ScanSettled results id_now ts_now =>
      match inFlight ss with
      | Some job =>
          ({| app := pageScanSettled job results id_now ts_now (app ss);
              inFlight := None |}, None)
      | None => (ss, None)
      end
  | BookSelected id =>
      ({| app := setAppState reading (setActiveBookId (Some id) (app ss));
          inFlight := inFlight ss |}, None)
  | SettingsSaved newConfig =>
      ({| app :=
            (if negb (hasApiKey newConfig)
             then showToast "Warning: API Key is still missing." info
             else showToast "Settings saved!" success)
              (setEngineConfig newConfig (app ss));
          inFlight := inFlight ss |}, None)
  | PersonaChanged p =>
      ({| app := setPersona p (app ss); inFlight := inFlight ss |}, None)
  | AnnotationCreated a =>
      ({| app := setAnnotations (cons a) (app ss); inFlight := inFlight ss |}, None)
  | BookDeleted id =>
      ({| app := handleDeleteBook id (app ss); inFlight := inFlight ss |}, None)
  end.

(** A run of events: the final state and, in order, the page contents of the
    scans that were started. *)
Fixpoint run (ss : Session) (events : list Event) : Session * list string :=
  match events with
  | [] => (ss, [])
  | e :: rest =>
      let '(ss1, started) := step ss e in
      let '(ss2, later) := run ss1 rest in
      (ss2, (match started with Some c => [ c ] | None => [] end ++ later)%list)
  end.

(** The consolidation effect re-run after each change of the annotations: for
    each new array, whether the effect fired.  Everything else in [App] stays
    as the effect left it. *)
Fixpoint observe (s : App) (changes : list (list Annotation)) : list bool :=
  match changes with
  | [] => []
  | annos :: rest =>
      let '(s1, job) := autoMemoryEffect (setAnnotations (fun _ => annos) s) in
      match job with
      | Some _ => true :: observe s1 rest
      | None => false :: observe s1 rest
      end
  end.

End Controller.

(* ================================================================== *)
(** * Notions the statements use *)
(* ================================================================== *)

(** [{ ...config, baseUrl: b }] *)
Definition withBaseUrl (b : string) (config : EngineConfig) : EngineConfig :=
  {| provider := provider config; baseUrl := b; apiKey := apiKey config;
     model := model config; temperature := temperature config;
     autoMemoryThreshold := autoMemoryThreshold config;
     autonomousReading := autonomousReading config;
     autoAnnotationCount := autoAnnotationCount config |}.

(** A response wrapped in a Markdown code fence with the language tag [tag]. *)
Definition fenced (tag body : string) : string :=
  "```" ++ tag ++ Js.nl ++ body ++ Js.nl ++ "```".

(** A path into a response envelope, read with every step guarded:
    [candidates[0].content.parts[0].text] is
    [[Field "candidates"; First; Field "content"; Field "parts"; First; Field "text"]]. *)
Inductive PathStep : Type :=
  | Field (k : string)
  | First.

Fixpoint readPath (path : list PathStep) (v : option json) : option json :=
  match path with
  | [] => v
  | Field k :: rest => readPath rest (Value.optDot k v)
  | First :: rest => readPath rest (Value.optIndex0 v)
  end.

Definition GEMINI_TEXT : list PathStep :=
  [ Field "candidates"; First; Field "content"; Field "parts"; First; Field "text" ].

Definition OPENAI_TEXT : list PathStep :=
  [ Field "choices"; First; Field "message"; Field "content" ].

Definition ERROR_MESSAGE : list PathStep := [ Field "error"; Field "message" ].

(** A [JSON.parse] known on finitely many texts: a listed text parses to the
    value listed for it, and no other text is asked for. *)
Definition parseTable (table : list (string * json)) (t : string) : option json :=
  Value.getField t table.

(** A network that answers every request with [response]. *)
Definition respondWith (response : Response) (request : Request) : result Response :=
  Ok response.

(** Whether an effect or a handler started a job. *)
Definition started {A : Type} (job : option A) : bool :=
  match job with
  | Some _ => true
  | None => false
  end.

(** No element of [l] equals its predecessor, [last] being the predecessor of
    the first. *)
Fixpoint noAdjacentRepeat (last : option string) (l : list string) : Prop :=
  match l with
  | [] => True
  | c :: rest => last <> Some c /\ noAdjacentRepeat (Some c) rest
  end.

(** The number of annotations of [annos] that belong to the active book. *)
Definition countFor (s : App) (annos : list Annotation) : Z :=
  Z.of_nat (length (List.filter (fun a => sameId (bookId a) (activeBookId s)) annos)).

(* ================================================================== *)
(** * Sample data *)
(* ================================================================== *)

Module Sample.

Definition socrates : Persona :=
  {| persona_id := "socrates"; persona_name := "Socrates"; persona_role := "Philosopher";
     relationship := "Mentor"; description := "Asks questions."; avatar := "S";
     systemInstruction := "You are Socrates."; longTermMemory := None |}.

Definition config (family : Provider) (key base : string) : EngineConfig :=
  {| provider := family; baseUrl := base; apiKey := key; model := "";
     temperature := 7 # 10; autoMemoryThreshold := 50; autonomousReading := true;
     autoAnnotationCount := 2 |}.

Definition walden : Book :=
  {| book_id := "walden"; book_title := "Walden"; book_content := "I went to the woods.";
     book_author := Some "Thoreau"; book_category := "Philosophy";
     coverColor := Some "#10b981"; addedAt := 0; timeSpent := 0; rating := None;
     userReview := None; aiReview := None; isOriginal := None; writingMetadata := None |}.

Definition note (anchor : string) (at_ : Z) : Annotation :=
  {| anno_id := Js.ofZ at_; bookId := "walden"; textSelection := anchor;
     comment := "Noted."; author := user; timestamp := at_; personaId := None;
     topic := Some "Woods"; isAutonomous := None; position := (0, 0)%Z;
     chatHistory := None |}.

(** [App] reading Walden with the annotations [annos] and the key [key]. *)
Definition reader (key : string) (annos : list Annotation) : App :=
  {| appState := reading; activeBookId := Some "walden"; library := [ walden ];
     customPersonas := []; persona := socrates; engineConfig := config gemini key "";
     annotations := annos; isAutoScanning := false; isWritingStudioOpen := false;
     progress := 0; toast := None; lastScannedPageRef := None;
     lastConsolidatedCountRef := 0 |}.

Definition notes (n : nat) : list Annotation := repeat (note "woods" 1) n.

Definition found (anchor : string) : ScanResult :=
  {| scan_textSelection := anchor; scan_comment := "Hm."; scan_topic := "Woods" |}.

Definition clock (i : nat) : Z := 1000.


(** The scan [handlePageChange] starts on page ["A"] of Walden annotated at
    ["X"] and ["Y"]. *)
Definition scanOfA : ScanJob :=
  {| job_content := "A"; job_bookId := "walden"; job_persona := socrates;
     job_config := config gemini "k" ""; job_isOriginal := None;
     job_existingSelections := [ "X"; "Y" ] |}.

Definition initialScan : InitialScanJob :=
  {| init_firstPara := "I went to the woods."; init_bookId := "walden";
     init_persona := socrates; init_config := config gemini "k" "" |}.

(** Response bodies and what [JSON.parse] makes of them. *)
Definition quotaBody : string :=
  "{" ++ Js.dq ++ "error" ++ Js.dq ++ ":{" ++ Js.dq ++ "message" ++ Js.dq ++ ":"
  ++ Js.dq ++ "quota exceeded" ++ Js.dq ++ "}}".

Definition quotaError : json :=
  JObj [ ("error", JObj [ ("message", JStr "quota exceeded") ]) ].

Definition wrappedBody : string :=
  "{" ++ Js.dq ++ "candidates" ++ Js.dq ++ ":[{" ++ Js.dq ++ "content" ++ Js.dq ++ ":{"
  ++ Js.dq ++ "parts" ++ Js.dq ++ ":[{" ++ Js.dq ++ "text" ++ Js.dq ++ ":" ++ Js.dq
  ++ "[{}]" ++ Js.dq ++ "}]}}]}".

Definition wrappedEnvelope : json :=
  JObj [ ("candidates",
          JArr [ JObj [ ("content",
                         JObj [ ("parts", JArr [ JObj [ ("text", JStr "[{}]") ] ]) ]) ] ]) ].

(** An envelope whose text is the bare object [{}]. *)
Definition bareBody : string :=
  "{" ++ Js.dq ++ "candidates" ++ Js.dq ++ ":[{" ++ Js.dq ++ "content" ++ Js.dq ++ ":{"
  ++ Js.dq ++ "parts" ++ Js.dq ++ ":[{" ++ Js.dq ++ "text" ++ Js.dq ++ ":" ++ Js.dq
  ++ "{}" ++ Js.dq ++ "}]}}]}".

Definition bareEnvelope : json :=
  JObj [ ("candidates",
          JArr [ JObj [ ("content",
                         JObj [ ("parts", JArr [ JObj [ ("text", JStr "{}") ] ]) ]) ] ]) ].

Definition parse : string -> option json :=
  parseTable
    [ (quotaBody, quotaError);
      ("{}", JObj []);
      (wrappedBody, wrappedEnvelope);
      (bareBody, bareEnvelope);
      ("[{}]", JArr [ JObj [] ]);
      ("[]", JArr []);
      ("null", JNull) ].

(** [JSON.stringify], asked here only for the empty object. *)
Definition stringify (v : json) : string := "{}".

Definition tooManyRequests : Response := {| status := 429; bodyText := quotaBody |}.
Definition badGateway : Response := {| status := 502; bodyText := "<html>" |}.
Definition emptyEnvelope : Response := {| status := 200; bodyText := "{}" |}.
Definition wrappedReport : Response := {| status := 200; bodyText := wrappedBody |}.
Definition bareObject : Response := {| status := 200; bodyText := bareBody |}.
Definition nullError : Response := {| status := 500; bodyText := "null" |}.
Definition nullReply : Response := {| status := 200; bodyText := "null" |}.

End Sample.

(* ================================================================== *)
(** * More of the service: the free-text operations *)
(* ================================================================== *)

(** [{ ...config, model: m }] *)
Definition withModel (m : string) (config : EngineConfig) : EngineConfig :=
  {| provider := provider config; baseUrl := baseUrl config; apiKey := apiKey config;
     model := m; temperature := temperature config;
     autoMemoryThreshold := autoMemoryThreshold config;
     autonomousReading := autonomousReading config;
     autoAnnotationCount := autoAnnotationCount config |}.

(** [{ ...config, temperature: t }] *)
Definition withTemperature (t : Q) (config : EngineConfig) : EngineConfig :=
  {| provider := provider config; baseUrl := baseUrl config; apiKey := apiKey config;
     model := model config; temperature := t;
     autoMemoryThreshold := autoMemoryThreshold config;
     autonomousReading := autonomousReading config;
     autoAnnotationCount := autoAnnotationCount config |}.

(** [text.substring(0, 100) || "..."] *)
Definition capReply (t : string) : string := Js.orElse (Js.substring0 100 t) "...".

Definition annotationPrompt (textSegment : string) (persona : Persona) : string :=
  lines
    [ "";
      "    Role: " ++ persona_name persona;
      "    Passage: " ++ Js.dq ++ textSegment ++ Js.dq;
      "    Task: Provide a brief, colloquial thought. Max 100 chars. No actions.";
      "  " ].

Definition notePrompt (textSelection userNote : string) (persona : Persona) : string :=
  lines
    [ "";
      "    User's note on " ++ Js.dq ++ textSelection ++ Js.dq ++ ": "
        ++ Js.dq ++ userNote ++ Js.dq;
      "    Response as " ++ persona_name persona
        ++ ": Max 100 chars, colloquial, no actions.";
      "  " ].

Definition chatPrompt (message : string) (persona : Persona) : string :=
  "User: " ++ message ++ ". Respond as " ++ persona_name persona
  ++ ". Max 100 chars, colloquial, no actions.".

(** The contents [chatWithPersona] sends: the thread so far, every role but
    [user] read as [model], then the new message. *)
Definition chatContents (message : string) (persona : Persona)
    (chatHistory : list ChatTurn) : list Content :=
  (map (fun h =>
          {| role := if String.eqb (turn_role h) "user" then "user" else "model";
             parts := [ {| text := turn_text h |} ] |})
       chatHistory
   ++ userTurn (chatPrompt message persona))%list.

Definition reviewPrompt (bookTitle : string) : string :=
  "Write a characterful review of " ++ Js.dq ++ bookTitle ++ Js.dq
  ++ ". Max 300 words. Colloquial tone.".

Definition ratingPrompt (userReview : string) (userRating : Z) (persona : Persona) : string :=
  "User rated " ++ Js.ofZ userRating ++ " stars: " ++ Js.dq ++ userReview ++ Js.dq
  ++ ". Reply briefly as " ++ persona_name persona ++ ".".

(** One line of [recentConversations]. *)
Definition conversationLine (persona : Persona) (a : Annotation) : string :=
  "[Topic: " ++ match topic a with Some t => t | None => "undefined" end ++ "] "
  ++ match author a with user => "User" | ai => persona_name persona end
  ++ ": " ++ comment a ++ " "
  ++ match chatHistory a with Some _ => "(+ discussion)" | None => "" end.

(** The annotations with a comment, one line each, cut at 8000 characters. *)
Definition recentConversations (persona : Persona) (annotations : list Annotation) : string :=
  Js.substring0 8000
    (lines (map (conversationLine persona)
              (List.filter (fun a => Js.truthy (comment a)) annotations))).

(** [persona.longTermMemory || "We have just met."] *)
Definition existingMemory (persona : Persona) : string :=
  match longTermMemory persona with
  | Some m => Js.orElse m "We have just met."
  | None => "We have just met."
  end.

Definition memoryPrompt (persona : Persona) (bookTitle : string)
    (annotations : list Annotation) : string :=
  lines
    [ "";
      "    TASK: Consolidate Memory for " ++ persona_name persona ++ ".";
      "    ";
      "    OLD MEMORY:";
      "    " ++ Js.dq ++ existingMemory persona ++ Js.dq;
      "";
      "    NEW EXPERIENCES (Book: " ++ bookTitle ++ "):";
      "    " ++ recentConversations persona annotations;
      "";
      "    INSTRUCTIONS:";
      "    1. Merge the new experiences into the old memory.";
      "    2. Keep it concise (max 300 words).";
      "    3. Focus on emotional bonds, shared discoveries, and intellectual disagreements we had.";
      "    4. Maintain the persona's voice (e.g., if Socrates, focus on what definitions we explored).";
      "    5. This text will be injected into your brain next time we meet.";
      "  " ].

Definition ARCHIVIST : string := "You are a memory archivist for an AI persona.".

(** [{ ...engineConfig, model: engineConfig.model || 'gemini-3-pro-preview' }] *)
Definition longFormConfig (engineConfig : EngineConfig) : EngineConfig :=
  withModel (Js.orElse (model engineConfig) "gemini-3-pro-preview") engineConfig.

(** [{ ...engineConfig, model: ..., temperature: 0.5 }] *)
Definition memoryConfig (engineConfig : EngineConfig) : EngineConfig :=
  withTemperature (1 # 2) (longFormConfig engineConfig).

Section FreeText.

Variable env_API_KEY : option string.
Variable fetch : Request -> result Response.
Variable JSON_parse : string -> option json.
Variable JSON_stringify : json -> string.

Definition generateAIAnnotation (textSegment fullContext : string) (persona : Persona)
    (engine : EngineConfig) (isOriginal : bool) : result string :=
  let! t := callAI env_API_KEY fetch JSON_parse JSON_stringify
              (userTurn (annotationPrompt textSegment persona)) engine
              (Some (buildSystemPrompt persona)) None in
  onString t capReply.

Definition generateAIResponseToUserNote (textSelection userNote : string)
    (persona : Persona) (engine : EngineConfig) (isOriginal : bool) : result string :=
  let! t := callAI env_API_KEY fetch JSON_parse JSON_stringify
              (userTurn (notePrompt textSelection userNote persona)) engine
              (Some (buildSystemPrompt persona)) None in
  onString t capReply.

Definition chatWithPersona (message textSelection : string) (persona : Persona)
    (chatHistory : list ChatTurn) (engine : EngineConfig) (isOriginal : bool)
  : result string :=
  let! t := callAI env_API_KEY fetch JSON_parse JSON_stringify
              (chatContents message persona chatHistory) engine
              (Some (buildSystemPrompt persona)) None in
  onString t capReply.

(** The request [chatWithPersona] sends. *)
Definition chatRequest (message : string) (persona : Persona)
    (chatHistory : list ChatTurn) (engine : EngineConfig) : result Request :=
  requestOf env_API_KEY (chatContents message persona chatHistory) engine
    (Some (buildSystemPrompt persona)) None.

(** [text || "A deep resonance."]: what [callAI] returned is not used as a
    string, so it is returned as the value it is. *)
Definition generateLongFormAIReview (bookTitle bookContent : string)
    (annotations : list Annotation) (persona : Persona) (engineConfig : EngineConfig)
    (isOriginal : bool) : result json :=
  let! t := callAI env_API_KEY fetch JSON_parse JSON_stringify
              (userTurn (reviewPrompt bookTitle)) (longFormConfig engineConfig)
              (Some (buildSystemPrompt persona)) None in
  Ok (Value.orElse (Some t) (JStr "A deep resonance.")).

Definition longFormRequest (bookTitle : string) (persona : Persona)
    (engineConfig : EngineConfig) : result Request :=
  requestOf env_API_KEY (userTurn (reviewPrompt bookTitle)) (longFormConfig engineConfig)
    (Some (buildSystemPrompt persona)) None.

Definition respondToUserBookReview (bookTitle userReview : string) (userRating : Z)
    (persona : Persona) (engineConfig : EngineConfig) : result json :=
  let! t := callAI env_API_KEY fetch JSON_parse JSON_stringify
              (userTurn (ratingPrompt userReview userRating persona)) engineConfig
              (Some (buildSystemPrompt persona)) None in
  Ok (Value.orElse (Some t) (JStr "I see.")).

Definition consolidateMemory (persona : Persona) (bookTitle : string)
    (annotations : list Annotation) (engineConfig : EngineConfig) : result string :=
  let! t := callAI env_API_KEY fetch JSON_parse JSON_stringify
              (userTurn (memoryPrompt persona bookTitle annotations))
              (memoryConfig engineConfig) (Some ARCHIVIST) None in
  onString t Js.trim.

(** The request [consolidateMemory] sends. *)
Definition consolidateMemoryRequest (persona : Persona) (bookTitle : string)
    (annotations : list Annotation) (engineConfig : EngineConfig) : result Request :=
  requestOf env_API_KEY (userTurn (memoryPrompt persona bookTitle annotations))
    (memoryConfig engineConfig) (Some ARCHIVIST) None.

(** The requests of the two JSON-mode operations. *)
Definition scanRequest (pageContent : string) (persona : Persona) (engine : EngineConfig)
  : result Request :=
  requestOf env_API_KEY (userTurn (scanPrompt pageContent persona engine)) engine
    (Some (buildSystemPrompt persona)) JSON_OVERRIDE.

Definition soulReportRequest (bookTitle : string) (annotations : list Annotation)
    (engineConfig : EngineConfig) : result Request :=
  requestOf env_API_KEY (userTurn (soulReportPrompt bookTitle annotations)) engineConfig
    None JSON_OVERRIDE.

End FreeText.

(* ================================================================== *)
(** * More of the controller: the library and the annotations by hand *)
(* ================================================================== *)

Definition handleUpdateBook (updatedBook : Book) (s : App) : App :=
  setLibrary (map (fun b => if String.eqb (book_id b) (book_id updatedBook)
                            then updatedBook else b)) s.

(** [handleSaveReview]: [aiResponse] is accepted and not used. *)
Definition handleSaveReview (rating : Z) (review : string) (aiResponse : option string)
    (aiLongReview : option string) (s : App) : App :=
  match activeId s with
  | None => s
  | Some _ =>
      showToast "Review saved!" success
        (setLibrary
           (map (fun b =>
                   if sameId (book_id b) (activeBookId s)
                   then {| book_id := book_id b; book_title := book_title b;
                           book_content := book_content b; book_author := book_author b;
                           book_category := book_category b; coverColor := coverColor b;
                           addedAt := addedAt b; timeSpent := timeSpent b;
                           rating := Some rating; userReview := Some review;
                           aiReview := aiLongReview; isOriginal := isOriginal b;
                           writingMetadata := writingMetadata b |}
                   else b)) s)
  end.

(** One firing of the reading timer, which runs every second while a book is
    open in the reader. *)
Definition tick (s : App) : App :=
  match appState s, activeId s with
  | reading, Some _ =>
      setLibrary
        (map (fun b =>
                if sameId (book_id b) (activeBookId s)
                then {| book_id := book_id b; book_title := book_title b;
                        book_content := book_content b; book_author := book_author b;
                        book_category := book_category b; coverColor := coverColor b;
                        addedAt := addedAt b; timeSpent := (timeSpent b + 1)%Z;
                        rating := rating b; userReview := userReview b;
                        aiReview := aiReview b; isOriginal := isOriginal b;
                        writingMetadata := writingMetadata b |}
                else b)) s
  | _, _ => s
  end.

(** [Partial<Annotation>]: the fields an update names. *)
Record AnnotationUpdates : Type := {
  upd_id : option string;
  upd_bookId : option string;
  upd_textSelection : option string;
  upd_comment : option string;
  upd_author : option Author;
  upd_timestamp : option Z;
  upd_personaId : option string;
  upd_topic : option string;
  upd_isAutonomous : option bool;
  upd_position : option (Z * Z);
  upd_chatHistory : option (list ChatTurn)
}.

(** [{ ...a, ...updates }] *)
Definition applyUpdates (u : AnnotationUpdates) (a : Annotation) : Annotation :=
  let keep {A : Type} (new : option A) (old : A) : A :=
    match new with Some v => v | None => old end in
  let keepOpt {A : Type} (new : option A) (old : option A) : option A :=
    match new with Some v => Some v | None => old end in
  {| anno_id := keep (upd_id u) (anno_id a);
     bookId := keep (upd_bookId u) (bookId a);
     textSelection := keep (upd_textSelection u) (textSelection a);
     comment := keep (upd_comment u) (comment a);
     author := keep (upd_author u) (author a);
     timestamp := keep (upd_timestamp u) (timestamp a);
     personaId := keepOpt (upd_personaId u) (personaId a);
     topic := keepOpt (upd_topic u) (topic a);
     isAutonomous := keepOpt (upd_isAutonomous u) (isAutonomous a);
     position := keep (upd_position u) (position a);
     chatHistory := keepOpt (upd_chatHistory u) (chatHistory a) |}.

(** [{ chatHistory: h }] *)
Definition chatHistoryUpdate (h : list ChatTurn) : AnnotationUpdates :=
  {| upd_id := None; upd_bookId := None; upd_textSelection := None; upd_comment := None;
     upd_author := None; upd_timestamp := None; upd_personaId := None; upd_topic := None;
     upd_isAutonomous := None; upd_position := None; upd_chatHistory := Some h |}.

Definition handleUpdateAnnotation (id : string) (updates : AnnotationUpdates) (s : App) : App :=
  setAnnotations (map (fun a => if String.eqb (anno_id a) id then applyUpdates updates a else a)) s.

(** ** Annotating a selection *)

(** [App] with the state the annotation handlers read and write. *)
Record Workspace : Type := {
  core : App;
  isProcessing : bool;
  pendingSelection : option string;
  activeAnnotationId : option string;
  isSettingsModalOpen : bool
}.

Definition onCore (f : App -> App) (w : Workspace) : Workspace :=
  {| core := f (core w); isProcessing := isProcessing w;
     pendingSelection := pendingSelection w; activeAnnotationId := activeAnnotationId w;
     isSettingsModalOpen := isSettingsModalOpen w |}.

Definition setIsProcessing (v : bool) (w : Workspace) : Workspace :=
  {| core := core w; isProcessing := v;
     pendingSelection := pendingSelection w; activeAnnotationId := activeAnnotationId w;
     isSettingsModalOpen := isSettingsModalOpen w |}.

Definition setPendingSelection (v : option string) (w : Workspace) : Workspace :=
  {| core := core w; isProcessing := isProcessing w;
     pendingSelection := v; activeAnnotationId := activeAnnotationId w;
     isSettingsModalOpen := isSettingsModalOpen w |}.

Definition setActiveAnnotationId (v : option string) (w : Workspace) : Workspace :=
  {| core := core w; isProcessing := isProcessing w;
     pendingSelection := pendingSelection w; activeAnnotationId := v;
     isSettingsModalOpen := isSettingsModalOpen w |}.

Definition setIsSettingsModalOpen (v : bool) (w : Workspace) : Workspace :=
  {| core := core w; isProcessing := isProcessing w;
     pendingSelection := pendingSelection w; activeAnnotationId := activeAnnotationId w;
     isSettingsModalOpen := v |}.

(** What [executeAIAnnotation] captured when it started. *)
Record AnnotateJob : Type := {
  an_selection : string;
  an_book : Book;
  an_persona : Persona;
  an_config : EngineConfig
}.

(** What [handleUserAnnotate] captured when it started. *)
Record NoteJob : Type := {
  note_selection : string;
  note_text : string;
  note_book : Book;
  note_config : EngineConfig
}.

(** An optional boolean argument with the default [false]. *)
Definition orFalse (b : option bool) : bool :=
  match b with
  | Some v => v
  | None => false
  end.

Section Annotating.

Variable env_API_KEY : option string.
Variable fetch : Request -> result Response.
Variable JSON_parse : string -> option json.
Variable JSON_stringify : json -> string.
(** [err.message] of a thrown value that is not an [Error] made from a
    string: the wording is the platform's. *)
Variable platformMessage : exn -> string.

(** [err.message] *)
Definition messageOf (e : exn) : string :=
  match e with
  | Error (JStr m) => m
  | _ => platformMessage e
  end.

Definition validateAPI (w : Workspace) : Workspace * bool :=
  if negb (Js.truthy (apiKey (engineConfig (core w))))
     && negb match env_API_KEY with
             | Some k => Js.truthy k
             | None => false
             end
  then (setIsSettingsModalOpen true
          (onCore (showToast "Please set your API Key in Settings first." error) w),
        false)
  else (w, true).

(** The part of [executeAIAnnotation] before the first [await]. *)
Definition executeAIAnnotation (selection : string) (w : Workspace)
  : Workspace * option AnnotateJob :=
  match activeBook (core w) with
  | None => (w, None)
  | Some book =>
      if isProcessing w then (w, None)
      else
        let '(w1, valid) := validateAPI w in
        if negb valid then (w1, None)
        else (setIsProcessing true w1,
              Some {| an_selection := selection; an_book := book;
                      an_persona := persona (core w); an_config := engineConfig (core w) |})
  end.

(** The [try] block of [executeAIAnnotation] up to the new annotation;
    [tempId] and [ts] are the two readings of [Date.now()]. *)
Definition aiAnnotation (job : AnnotateJob) (tempId ts : Z) : result Annotation :=
  let! comment := generateAIAnnotation env_API_KEY fetch JSON_parse JSON_stringify
                    (an_selection job) (book_content (an_book job)) (an_persona job)
                    (an_config job) (orFalse (isOriginal (an_book job))) in
  if negb (Js.truthy comment) then Throw (Error (JStr "Empty response from AI"))
  else
    let! topic := summarizeTopic env_API_KEY fetch JSON_parse JSON_stringify
                    (an_selection job) comment (an_config job) in
    Ok {| anno_id := Js.ofZ tempId; bookId := book_id (an_book job);
          textSelection := an_selection job; comment := comment; author := ai;
          timestamp := ts; personaId := Some (persona_id (an_persona job));
          topic := Some topic; isAutonomous := None; position := (0, 0)%Z;
          chatHistory := Some [ {| turn_role := "model"; turn_text := comment |} ] |}.

(** The rest of [executeAIAnnotation], the [try] block having ended in
    [outcome]. *)
Definition aiAnnotationSettled (outcome : result Annotation) (w : Workspace) : Workspace :=
  setIsProcessing false
    match outcome with
    | Ok newAnno =>
        onCore (showToast "AI Annotation created" success)
          (setActiveAnnotationId (Some (anno_id newAnno))
             (onCore (setAnnotations (cons newAnno)) w))
    | Throw e =>
        onCore (showToast ("AI Error: " ++ Js.orElse (messageOf e) "Unknown error") error) w
    end.

Definition handleAIAnnotate (w : Workspace) : Workspace * option AnnotateJob :=
  match pendingSelection w with
  | Some selection =>
      if Js.truthy selection
      then executeAIAnnotation selection (setPendingSelection None w)
      else (w, None)
  | None => (w, None)
  end.

(** The part of [handleUserAnnotate] before the [await]. *)
Definition handleUserAnnotate (note : string) (w : Workspace) : Workspace * option NoteJob :=
  match pendingSelection w, activeBook (core w) with
  | Some selection, Some book =>
      if negb (Js.truthy selection) || isProcessing w then (w, None)
      else
        let '(w1, valid) := validateAPI w in
        if negb valid then (w1, None)
        else (setIsProcessing true (setPendingSelection None w1),
              Some {| note_selection := selection; note_text := note; note_book := book;
                      note_config := engineConfig (core w) |})
  | _, _ => (w, None)
  end.

(** The [try] block of [handleUserAnnotate] up to the new annotation. *)
Definition userAnnotation (job : NoteJob) (userAnnoId ts : Z) : result Annotation :=
  let! topic := summarizeTopic env_API_KEY fetch JSON_parse JSON_stringify
                  (note_selection job) (note_text job) (note_config job) in
  Ok {| anno_id := Js.ofZ userAnnoId; bookId := book_id (note_book job);
        textSelection := note_selection job; comment := note_text job; author := user;
        timestamp := ts; personaId := None; topic := Some topic; isAutonomous := None;
        position := (0, 0)%Z;
        chatHistory := Some [ {| turn_role := "user"; turn_text := note_text job |} ] |}.

Definition userAnnotationSettled (outcome : result Annotation) (w : Workspace) : Workspace :=
  setIsProcessing false
    match outcome with
    | Ok userAnno =>
        onCore (showToast "Note saved" success)
          (setActiveAnnotationId (Some (anno_id userAnno))
             (onCore (setAnnotations (cons userAnno)) w))
    | Throw e => onCore (showToast ("Error saving note: " ++ messageOf e) error) w
    end.

End Annotating.

(** [annotations.find(a => a.id === activeAnnotationId)] *)
Definition activeAnnotation (w : Workspace) : option Annotation :=
  find (fun a => sameId (anno_id a) (activeAnnotationId w)) (annotations (core w)).

(* ================================================================== *)
(** * The conversation on an annotation ([AnnotationModal]) *)
(* ================================================================== *)

(** The state of the modal; [initialized] is its ref. *)
Record ChatModal : Type := {
  messages : list ChatTurn;
  input : string;
  isTyping : bool;
  initialized : bool
}.

Definition setMessages (f : list ChatTurn -> list ChatTurn) (m : ChatModal) : ChatModal :=
  {| messages := f (messages m); input := input m; isTyping := isTyping m;
     initialized := initialized m |}.

Definition setInput (v : string) (m : ChatModal) : ChatModal :=
  {| messages := messages m; input := v; isTyping := isTyping m;
     initialized := initialized m |}.

Definition setIsTyping (v : bool) (m : ChatModal) : ChatModal :=
  {| messages := messages m; input := input m; isTyping := v;
     initialized := initialized m |}.

Definition writeInitialized (v : bool) (m : ChatModal) : ChatModal :=
  {| messages := messages m; input := input m; isTyping := isTyping m;
     initialized := v |}.

(** What the modal is opened with. *)
Record ChatProps : Type := {
  chat_annotation : Annotation;
  chat_persona : Persona;
  chat_config : EngineConfig;
  chat_isOriginal : bool
}.

(** The reply a conversation waits for: the annotation it belongs to and the
    thread the call was made with. *)
Record ReplyJob : Type := {
  reply_id : string;
  reply_thread : list ChatTurn
}.

Definition FALLBACK_REPLY : ChatTurn :=
  {| turn_role := "model"; turn_text := "I'm reflecting on your thought..." |}.

Definition CLOUDED_REPLY : ChatTurn :=
  {| turn_role := "model"; turn_text := "Forgive me, my thoughts are clouded right now." |}.

(** The effect that runs when the modal opens, up to its [await]; [onUpdate]
    is [handleUpdateAnnotation]. *)
Definition chatInit (props : ChatProps) (m : ChatModal) (s : App)
  : ChatModal * App * option ReplyJob :=
  if initialized m then (m, s, None)
  else
    let m := writeInitialized true m in
    let annotation := chat_annotation props in
    match chatHistory annotation with
    | Some (h :: rest) => (setMessages (fun _ => h :: rest) m, s, None)
    | _ =>
        match author annotation with
        | user =>
            let initialMessages :=
              [ {| turn_role := "user"; turn_text := comment annotation |} ] in
            (setIsTyping true (setMessages (fun _ => initialMessages) m), s,
             Some {| reply_id := anno_id annotation; reply_thread := initialMessages |})
        | ai =>
            let initialMessages :=
              [ {| turn_role := "model"; turn_text := comment annotation |} ] in
            (setMessages (fun _ => initialMessages) m,
             handleUpdateAnnotation (anno_id annotation) (chatHistoryUpdate initialMessages) s,
             None)
        end
    end.

(** The effect once [generateAIResponseToUserNote] has settled.  The array
    [initialMessages] is the one the state holds, so the reply pushed onto it
    is in the state. *)
Definition chatInitSettled (job : ReplyJob) (outcome : result string) (m : ChatModal)
    (s : App) : ChatModal * App :=
  let initialMessages := reply_thread job in
  match outcome with
  | Ok aiReply =>
      let initialMessages :=
        (initialMessages ++ [ {| turn_role := "model"; turn_text := aiReply |} ])%list in
      (setIsTyping false (setMessages (fun _ => initialMessages) m),
       handleUpdateAnnotation (reply_id job) (chatHistoryUpdate initialMessages) s)
  | Throw _ =>
      (setIsTyping false (setMessages (fun prev => prev ++ [ FALLBACK_REPLY ])%list m),
       handleUpdateAnnotation (reply_id job)
         (chatHistoryUpdate (initialMessages ++ [ FALLBACK_REPLY ])%list) s)
  end.

(** What [handleSend] captured: the message, the thread before it and the
    thread with it. *)
Record SendJob : Type := {
  send_id : string;
  send_message : string;
  send_thread : list ChatTurn;
  send_newHistory : list ChatTurn
}.

(** The part of [handleSend] before the [await]. *)
Definition handleSend (props : ChatProps) (m : ChatModal) (s : App)
  : ChatModal * App * option SendJob :=
  if negb (Js.truthy (Js.trim (input m))) || isTyping m then (m, s, None)
  else
    let userMsg := input m in
    let newHistory :=
      (messages m ++ [ {| turn_role := "user"; turn_text := userMsg |} ])%list in
    (setIsTyping true (setMessages (fun _ => newHistory) (setInput "" m)),
     handleUpdateAnnotation (anno_id (chat_annotation props)) (chatHistoryUpdate newHistory) s,
     Some {| send_id := anno_id (chat_annotation props); send_message := userMsg;
             send_thread := messages m; send_newHistory := newHistory |}).

(** [handleSend] once [chatWithPersona] has settled. *)
Definition handleSendSettled (job : SendJob) (outcome : result string) (m : ChatModal)
    (s : App) : ChatModal * App :=
  match outcome with
  | Ok reply =>
      let updatedHistory :=
        (send_newHistory job ++ [ {| turn_role := "model"; turn_text := reply |} ])%list in
      (setIsTyping false (setMessages (fun _ => updatedHistory) m),
       handleUpdateAnnotation (send_id job) (chatHistoryUpdate updatedHistory) s)
  | Throw _ =>
      (setIsTyping false (setMessages (fun prev => prev ++ [ CLOUDED_REPLY ])%list m), s)
  end.

Section Conversation.

Variable env_API_KEY : option string.
Variable fetch : Request -> result Response.
Variable JSON_parse : string -> option json.
Variable JSON_stringify : json -> string.

(** The call the opening effect awaits. *)
Definition noteReply (props : ChatProps) : result string :=
  generateAIResponseToUserNote env_API_KEY fetch JSON_parse JSON_stringify
    (textSelection (chat_annotation props)) (comment (chat_annotation props))
    (chat_persona props) (chat_config props) (chat_isOriginal props).

(** The call [handleSend] awaits. *)
Definition sendReply (props : ChatProps) (job : SendJob) : result string :=
  chatWithPersona env_API_KEY fetch JSON_parse JSON_stringify (send_message job)
    (textSelection (chat_annotation props)) (chat_persona props) (send_thread job)
    (chat_config props) (chat_isOriginal props).

End Conversation.

(** The thread stored for the annotation [id], if the annotation is there. *)
Definition storedThread (id : string) (s : App) : option (list ChatTurn) :=
  match find (fun a => String.eqb (anno_id a) id) (annotations s) with
  | Some a => chatHistory a
  | None => None
  end.

(* ================================================================== *)
(** * The connection test of the settings ([SettingsModal]) *)
(* ================================================================== *)

(** The [GET] request of [handleFetchModels]. *)
Record Probe : Type := {
  probe_url : string;
  probe_headers : list (string * string)
}.

(** The request [handleFetchModels] sends for the form [formData]; none when
    the endpoint or the key is blank. *)
Definition modelsProbe (formData : EngineConfig) : option Probe :=
  let trimmedApiKey := Js.trim (apiKey formData) in
  let trimmedBaseUrl := Js.trim (baseUrl formData) in
  if negb (Js.truthy trimmedApiKey) || negb (Js.truthy trimmedBaseUrl) then None
  else
    let url := trimmedBaseUrl in
    let url := if Js.endsWith "/" url then Js.sliceFromEnd 1 url else url in
    match provider formData with
    | gemini =>
        Some {| probe_url := url ++ "/v1beta/models?key=" ++ trimmedApiKey;
                probe_headers := [] |}
    | openai =>
        let url := if negb (Js.endsWith "/v1" url) then url ++ "/v1" else url in
        Some {| probe_url := url ++ "/models";
                probe_headers := [ ("Authorization", "Bearer " ++ trimmedApiKey) ] |}
    end.

(** [handleProviderChange] on the form. *)
Definition handleProviderChange (p : Provider) (formData : EngineConfig) : EngineConfig :=
  let defaultUrl :=
    match p with
    | gemini => "https://generativelanguage.googleapis.com"
    | openai => "https://api.siliconflow.cn/v1"
    end in
  {| provider := p; baseUrl := defaultUrl; apiKey := apiKey formData; model := "";
     temperature := temperature formData;
     autoMemoryThreshold := autoMemoryThreshold formData;
     autonomousReading := autonomousReading formData;
     autoAnnotationCount := autoAnnotationCount formData |}.

(* ================================================================== *)
(** * The reading report ([ReadingReportModal]) *)
(* ================================================================== *)

(** [formatDuration] of a whole number of seconds: [Math.floor] of a quotient
    is [Z.div], [%] is [Z.rem]. *)
Definition formatDuration (seconds : Z) : string :=
  let hrs := (seconds / 3600)%Z in
  let mins := (Z.rem seconds 3600 / 60)%Z in
  if (hrs >? 0)%Z then Js.ofZ hrs ++ "h " ++ Js.ofZ mins ++ "m"
  else Js.ofZ mins ++ "m " ++ Js.ofZ (Z.rem seconds 60) ++ "s".

(* ================================================================== *)
(** * More notions the statements use *)
(* ================================================================== *)

(** A network on which no request is answered with a status in the range
    200-299: every [fetch] rejects or returns a failed response. *)
Definition unavailable (fetch : Request -> result Response) : Prop :=
  forall request, match fetch request with
                  | Ok response => ok response = false
                  | Throw _ => True
                  end.

(** Whether an event is the settling of a scan. *)
Definition isSettle (e : Event) : bool :=
  match e with
  | ScanSettled _ _ _ => true
  | _ => false
  end.

(** The scanning flag of [App] says whether a scan is in flight. *)
Definition flagged (ss : Session) : Prop :=
  isAutoScanning (app ss) = started (inFlight ss).

(** A base URL trimmed, with one trailing slash dropped: the first two steps
    of both endpoint resolvers and of the connection test. *)
Definition normalBase (b : string) : string :=
  let u := Js.trim b in
  if Js.endsWith "/" u then Js.sliceFromEnd 1 u else u.

(* ================================================================== *)
(** * More sample data *)
(* ================================================================== *)

(** A workspace reading Walden with a selection pending. *)
Module Desk.

Definition selecting (key : string) (annos : list Annotation) : Workspace :=
  {| core := Sample.reader key annos; isProcessing := false;
     pendingSelection := Some "I went to the woods"; activeAnnotationId := None;
     isSettingsModalOpen := false |}.

Definition noteJob : NoteJob :=
  {| note_selection := "I went to the woods"; note_text := "Why the woods?";
     note_book := Sample.walden; note_config := Sample.config gemini "k" "" |}.

(** A note of the reader with its first turn, and the modal open on it with
    a message typed. *)
Definition noted : Annotation :=
  {| anno_id := "7"; bookId := "walden"; textSelection := "I went to the woods";
     comment := "Why the woods?"; author := user; timestamp := 7; personaId := None;
     topic := Some "Woods"; isAutonomous := None; position := (0, 0)%Z;
     chatHistory := Some [ {| turn_role := "user"; turn_text := "Why the woods?" |} ] |}.

Definition props : ChatProps :=
  {| chat_annotation := noted; chat_persona := Sample.socrates;
     chat_config := Sample.config gemini "k" ""; chat_isOriginal := false |}.

Definition chat : ChatModal :=
  {| messages := [ {| turn_role := "user"; turn_text := "Why the woods?" |} ];
     input := "Go on."; isTyping := false; initialized := true |}.

(** The built-in errors are not worded here. *)
Definition wording (e : exn) : string := "".

End Desk.

(* ================================================================== *)
(** * Facts about JavaScript strings *)
(* ================================================================== *)

Module JsFacts.
Import Js.

Lemma append_nil_r (s : string) : s ++ "" = s.
Proof. induction s as [|c s IH]; simpl; [reflexivity | now rewrite IH]. Qed.

Lemma append_assoc (a b c : string) : (a ++ b) ++ c = a ++ (b ++ c).
Proof. induction a as [|x a IH]; simpl; [reflexivity | now rewrite IH]. Qed.

Lemma length_append (a b : string) :
  String.length (a ++ b) = String.length a + String.length b.
Proof. induction a as [|x a IH]; simpl; [reflexivity | now rewrite IH]. Qed.

Lemma append_inv_head (a b c : string) : a ++ b = a ++ c -> b = c.
Proof. induction a as [|x a IH]; simpl; intros H; [exact H | injection H; auto]. Qed.

(** ** [startsWith], [includes], [endsWith] *)

Lemma startsWith_spec (p s : string) :
  startsWith p s = true <-> exists t, s = p ++ t.
Proof.
  revert s; induction p as [|a p IH]; intros s; simpl.
  - split; [intros _; now exists s | reflexivity].
  - destruct s as [|b s].
    + split; [discriminate | intros [t Ht]; discriminate].
    + rewrite andb_true_iff, Ascii.eqb_eq, IH. split.
      * intros [-> [t ->]]. now exists t.
      * intros [t Ht]. injection Ht as -> ->. split; [reflexivity | now exists t].
Qed.

Lemma startsWith_append (p t : string) : startsWith p (p ++ t) = true.
Proof. apply startsWith_spec. now exists t. Qed.

Lemma startsWith_length (p s : string) :
  startsWith p s = true -> String.length p <= String.length s.
Proof.
  intros H. apply startsWith_spec in H as [t ->]. rewrite length_append. lia.
Qed.

Lemma includes_spec (p s : string) :
  includes p s = true <-> exists a b, s = a ++ p ++ b.
Proof.
  induction s as [|c s IH]; simpl.
  - rewrite orb_false_r, startsWith_spec. split.
    + intros [t Ht]. now exists "", t.
    + intros [a [b H]]. destruct a; [now exists b | discriminate].
  - rewrite orb_true_iff, startsWith_spec, IH. split.
    + intros [[t Ht] | [a [b ->]]].
      * now exists "", t.
      * now exists (String c a), b.
    + intros [a [b H]]. destruct a as [|x a].
      * left. now exists b.
      * right. injection H as -> ->. now exists a, b.
Qed.

Lemma includes_append (a p b : string) : includes p (a ++ p ++ b) = true.
Proof. apply includes_spec. now exists a, b. Qed.

Lemma endsWith_spec (p s : string) :
  endsWith p s = true <-> exists a, s = a ++ p.
Proof.
  induction s as [|c s IH]; cbn [endsWith].
  - rewrite orb_false_r, String.eqb_eq. split.
    + intros <-. now exists "".
    + intros [a H]. destruct a; [exact H | discriminate].
  - rewrite orb_true_iff, String.eqb_eq, IH. split.
    + intros [<- | [a ->]]; [now exists "" | now exists (String c a)].
    + intros [a H]. destruct a as [|x a].
      * now left.
      * right. injection H as -> ->. now exists a.
Qed.

Lemma endsWith_append (a p : string) : endsWith p (a ++ p) = true.
Proof. apply endsWith_spec. now exists a. Qed.

Lemma endsWith_length (p s : string) :
  endsWith p s = true -> String.length p <= String.length s.
Proof.
  intros H. apply endsWith_spec in H as [a ->]. rewrite length_append. lia.
Qed.

(** A suffix test on [a ++ b] only looks at [b] when [b] is long enough. *)
Lemma endsWith_append_long (p a b : string) :
  String.length p <= String.length b -> endsWith p (a ++ b) = endsWith p b.
Proof.
  intros Hlen. induction a as [|c a IH]; [reflexivity |].
  change (String c a ++ b) with (String c (a ++ b)). cbn [endsWith]. rewrite IH.
  destruct (String.eqb_spec (String c (a ++ b)) p) as [E | _]; [| reflexivity].
  exfalso. apply (f_equal String.length) in E. simpl in E.
  rewrite length_append in E. lia.
Qed.

(** ** [take], [drop], [sliceFromEnd] *)

Lemma take_append (a b : string) : take (String.length a) (a ++ b) = a.
Proof. induction a as [|c a IH]; simpl; [now destruct b | now rewrite IH]. Qed.

Lemma drop_append (a b : string) : drop (String.length a) (a ++ b) = b.
Proof. induction a as [|c a IH]; simpl; [now destruct b | exact IH]. Qed.

Lemma drop_append_le (k : nat) (a b : string) :
  k <= String.length a -> drop k (a ++ b) = drop k a ++ b.
Proof.
  revert a; induction k as [|k IH]; intros a Hk.
  - now destruct a, b.
  - destruct a as [|c a]; simpl in *; [lia | apply IH; lia].
Qed.

Lemma sliceFromEnd_append (a p : string) : sliceFromEnd (String.length p) (a ++ p) = a.
Proof.
  unfold sliceFromEnd. rewrite length_append.
  replace (String.length a + String.length p - String.length p) with (String.length a) by lia.
  apply take_append.
Qed.

Lemma noLeadingSpace_take (n : nat) (s : string) :
  noLeadingSpace s = true -> noLeadingSpace (take n s) = true.
Proof. destruct n, s; simpl; auto. Qed.

(** ** [trim] *)

Lemma noLeadingSpace_trimStart (s : string) : noLeadingSpace (trimStart s) = true.
Proof.
  induction s as [|c s IH]; simpl; [reflexivity |].
  destruct (isWhiteSpace c) eqn:E; [exact IH | simpl; now rewrite E].
Qed.

Lemma trimStart_fixed (s : string) : noLeadingSpace s = true -> trimStart s = s.
Proof.
  destruct s as [|c s]; simpl; [reflexivity |].
  now destruct (isWhiteSpace c).
Qed.

Lemma noLeadingSpace_trimEnd (s : string) :
  noLeadingSpace s = true -> noLeadingSpace (trimEnd s) = true.
Proof.
  destruct s as [|c s]; simpl; [reflexivity |].
  intros H. destruct (trimEnd s); simpl; [| exact H].
  destruct (isWhiteSpace c) eqn:E; simpl; [reflexivity | now rewrite E].
Qed.

Lemma noLeadingSpace_trim (s : string) : noLeadingSpace (trim s) = true.
Proof. apply noLeadingSpace_trimEnd, noLeadingSpace_trimStart. Qed.

Lemma trimEnd_append (a b : string) :
  trimEnd b <> "" -> trimEnd (a ++ b) = a ++ trimEnd b.
Proof.
  intros Hb. induction a as [|c a IH]; simpl; [reflexivity |].
  rewrite IH. destruct (a ++ trimEnd b) eqn:E; [| reflexivity].
  destruct a; simpl in E; [contradiction | discriminate].
Qed.

Lemma noLeadingSpace_append (a b : string) :
  noLeadingSpace a = true -> noLeadingSpace b = true -> noLeadingSpace (a ++ b) = true.
Proof. destruct a; simpl; auto. Qed.

(** A string that starts without white space and ends with a fixed point of
    [trimEnd] is a fixed point of [trim]. *)
Lemma trim_append_fixed (a b : string) :
  noLeadingSpace a = true -> noLeadingSpace b = true ->
  trimEnd b = b -> b <> "" -> trim (a ++ b) = a ++ b.
Proof.
  intros Ha Hb Hfix Hne. unfold trim.
  rewrite trimStart_fixed by now apply noLeadingSpace_append.
  rewrite trimEnd_append; rewrite Hfix; auto.
Qed.

(** ** Occurrences of an unbordered pattern *)

Lemma occurrences_short (p s : string) :
  String.length s < String.length p -> occurrences p s = 0.
Proof.
  induction s as [|c s IH]; simpl; intros Hlen.
  - destruct p; simpl in *; [lia | reflexivity].
  - rewrite IH by lia.
    destruct (startsWith p (String c s)) eqn:E; [| reflexivity].
    apply startsWith_length in E. simpl in E. lia.
Qed.

Lemma unbordered_spec (p : string) (k : nat) :
  unbordered p = true -> 0 < k < String.length p -> startsWith (drop k p) p = false.
Proof.
  unfold unbordered. rewrite forallb_forall. intros H Hk.
  apply negb_true_iff, H, in_seq. lia.
Qed.

Lemma append_eq_prefix (a b c d : string) :
  a ++ b = c ++ d -> String.length c <= String.length a -> exists e, a = c ++ e.
Proof.
  revert a; induction c as [|x c IH]; intros a H Hlen.
  - now exists a.
  - destruct a as [|y a]; simpl in *; [lia |].
    injection H as -> H. destruct (IH a H) as [e ->]; [lia | now exists e].
Qed.

(** An unbordered pattern does not start inside [m ++ p] before the end of
    [m], unless it lies within [m]. *)
Lemma startsWith_overlap (p m : string) :
  unbordered p = true -> m <> "" -> startsWith p m = false ->
  startsWith p (m ++ p) = false.
Proof.
  intros Hu Hm Hp. destruct (startsWith p (m ++ p)) eqn:E; [| reflexivity].
  exfalso. apply startsWith_spec in E as [t Ht].
  destruct (le_lt_dec (String.length p) (String.length m)) as [Hle | Hlt].
  - destruct (append_eq_prefix _ _ _ _ Ht Hle) as [e ->].
    rewrite startsWith_append in Hp. discriminate.
  - assert (0 < String.length m) as Hpos by (destruct m; simpl; [contradiction | lia]).
    pose proof (unbordered_spec p (String.length m) Hu (conj Hpos Hlt)) as Hb.
    apply (f_equal (drop (String.length m))) in Ht.
    rewrite drop_append, drop_append_le in Ht by lia.
    assert (startsWith (drop (String.length m) p) p = true) as Habs; [| congruence].
    apply startsWith_spec. now exists t.
Qed.

Lemma includes_cons_false (p : string) (c : ascii) (s : string) :
  includes p (String c s) = false ->
  startsWith p (String c s) = false /\ includes p s = false.
Proof. cbn [includes]. now rewrite orb_false_iff. Qed.

(** An unbordered pattern occurs exactly once in [m ++ p] when [m] does not
    contain it. *)
Lemma occurrences_append_once (p m : string) :
  unbordered p = true -> p <> "" -> includes p m = false ->
  occurrences p (m ++ p) = 1.
Proof.
  intros Hu Hne. induction m as [|c m IH]; intros Hinc.
  - destruct p as [|x p]; [contradiction |]. cbn [append occurrences].
    replace (startsWith (String x p) (String x p)) with true
      by (symmetry; apply startsWith_spec; exists ""; now rewrite append_nil_r).
    rewrite occurrences_short by (simpl; lia). reflexivity.
  - apply includes_cons_false in Hinc as [Hs Hi].
    change (String c m ++ p) with (String c (m ++ p)). cbn [occurrences].
    change (String c (m ++ p)) with (String c m ++ p).
    rewrite startsWith_overlap by (auto; discriminate).
    now rewrite IH.
Qed.

(** ** [removeAll] *)

Lemma removeAllFrom_skip (p a rest : string) :
  removeAllFrom p (String.length a) (a ++ rest) = removeAllFrom p 0 rest.
Proof.
  induction a as [|c a IH]; cbn [String.length append].
  - now destruct rest.
  - exact IH.
Qed.

(** A match at the head of the text is dropped. *)
Lemma removeAll_head (p rest : string) :
  p <> "" -> removeAll p (p ++ rest) = removeAll p rest.
Proof.
  unfold removeAll. destruct p as [|x p]; [contradiction |]. intros _.
  change (String x p ++ rest) with (String x (p ++ rest)). cbn [removeAllFrom].
  change (String x (p ++ rest)) with (String x p ++ rest).
  rewrite startsWith_append.
  replace (String.length (String x p) - 1) with (String.length p)
    by (cbn [String.length]; lia).
  apply removeAllFrom_skip.
Qed.

(** A pattern cannot match across a character it does not contain. *)
Lemma startsWith_separator (p a b : string) (c : ascii) :
  charIn c p = false ->
  startsWith p (a ++ String c b) = startsWith p a.
Proof.
  revert a; induction p as [|x p IH]; intros a Hc; [now destruct a |].
  cbn [charIn] in Hc. apply orb_false_iff in Hc as [Hx Hp].
  destruct a as [|y a]; cbn [append startsWith].
  - now rewrite Hx.
  - now rewrite IH.
Qed.

Lemma removeAllFrom_separator (p : string) (c : ascii) (b a : string) (k : nat) :
  p <> "" -> charIn c p = false -> k <= String.length a ->
  removeAllFrom p k (a ++ String c b)
  = removeAllFrom p k a ++ String c (removeAllFrom p 0 b).
Proof.
  intros Hne Hc. revert k; induction a as [|y a IH]; intros k Hk.
  - cbn [String.length] in Hk. replace k with 0 by lia.
    change ("" ++ String c b) with (String c b). cbn [removeAllFrom append].
    pose proof (startsWith_separator p "" b c Hc) as E.
    change ("" ++ String c b) with (String c b) in E. rewrite E.
    destruct p; [contradiction | reflexivity].
  - change (String y a ++ String c b) with (String y (a ++ String c b)).
    cbn [removeAllFrom]. destruct k as [|k].
    + change (String y (a ++ String c b)) with (String y a ++ String c b).
      rewrite startsWith_separator by assumption.
      destruct (startsWith p (String y a)) eqn:E.
      * apply IH. apply startsWith_length in E. cbn [String.length] in E. lia.
      * cbn [append]. f_equal. apply IH. lia.
    + apply IH. cbn [String.length] in Hk. lia.
Qed.

Lemma removeAll_separator (p : string) (c : ascii) (a b : string) :
  p <> "" -> charIn c p = false ->
  removeAll p (a ++ String c b) = removeAll p a ++ String c (removeAll p b).
Proof. intros Hne Hc. apply removeAllFrom_separator; auto with arith. Qed.

Lemma removeAll_cons_separator (p : string) (c : ascii) (b : string) :
  p <> "" -> charIn c p = false ->
  removeAll p (String c b) = String c (removeAll p b).
Proof. intros Hne Hc. apply (removeAll_separator p c "" b Hne Hc). Qed.

(** A text without the pattern is left as it is. *)
Lemma removeAll_absent (p s : string) : includes p s = false -> removeAll p s = s.
Proof.
  unfold removeAll. induction s as [|c s IH]; intros H; [reflexivity |].
  apply includes_cons_false in H as [Hs Hi].
  cbn [removeAllFrom]. rewrite Hs. f_equal. now apply IH.
Qed.

(** ** More on [trim] *)

Lemma trimEnd_append_space (a : string) (c : ascii) :
  isWhiteSpace c = true -> trimEnd (a ++ String c "") = trimEnd a.
Proof.
  intros Hc. induction a as [|x a IH]; cbn [append trimEnd].
  - now rewrite Hc.
  - now rewrite IH.
Qed.

Lemma trim_append_space (a : string) (c : ascii) :
  isWhiteSpace c = true -> trim (a ++ String c "") = trim a.
Proof.
  intros Hc. unfold trim. induction a as [|x a IH]; cbn [append trimStart].
  - now rewrite Hc.
  - destruct (isWhiteSpace x); [exact IH |].
    apply (trimEnd_append_space (String x a) c Hc).
Qed.

Lemma trim_cons_space (c : ascii) (s : string) :
  isWhiteSpace c = true -> trim (String c s) = trim s.
Proof. intros Hc. unfold trim. cbn [trimStart]. now rewrite Hc. Qed.

End JsFacts.

Import JsFacts.

(* ================================================================== *)
(** * The endpoint resolver *)
(* ================================================================== *)

Lemma orElse_nonempty (s d : string) : s <> "" -> Js.orElse s d = s.
Proof.
  intros H. unfold Js.orElse, Js.truthy.
  now destruct (String.eqb_spec s "").
Qed.

Lemma append_nonempty_r (a b : string) : b <> "" -> a ++ b <> "".
Proof. destruct a; simpl; [auto | discriminate]. Qed.

Lemma noLeadingSpace_prefix (a b : string) :
  Js.noLeadingSpace (a ++ b) = true -> Js.noLeadingSpace a = true.
Proof. destruct a; simpl; auto. Qed.

Lemma openAIBase_noLeadingSpace (config : EngineConfig) :
  Js.noLeadingSpace (openAIBase config) = true.
Proof.
  unfold openAIBase.
  destruct (Js.endsWith "/" _).
  - apply noLeadingSpace_take, noLeadingSpace_trim.
  - apply noLeadingSpace_trim.
Qed.

Lemma geminiBase_noLeadingSpace (config : EngineConfig) :
  Js.noLeadingSpace (geminiBase config) = true.
Proof.
  unfold geminiBase. cbv zeta.
  set (t := Js.trim _).
  assert (Js.noLeadingSpace (if Js.endsWith "/" t then Js.sliceFromEnd 1 t else t) = true) as H.
  { destruct (Js.endsWith "/" t); [apply noLeadingSpace_take |]; apply noLeadingSpace_trim. }
  destruct (Js.endsWith "v1beta" _); [now apply noLeadingSpace_take | exact H].
Qed.

(** A base that is already normalised is left as it is. *)
Lemma openAIBase_fixed (b : string) (config : EngineConfig) :
  b <> "" -> Js.trim b = b -> Js.endsWith "/" b = false ->
  openAIBase (withBaseUrl b config) = b.
Proof.
  intros Hne Htrim Hslash. unfold openAIBase. cbn [baseUrl withBaseUrl].
  rewrite orElse_nonempty, Htrim, Hslash by assumption. reflexivity.
Qed.

(** The resolved URL of the OpenAI-compatible family when the base does not
    contain the path: a prefix of the base followed by the versioned path. *)
Lemma openAI_url_shape (env : option string) (config : EngineConfig) :
  Js.includes "/chat/completions" (openAIBase config) = false ->
  exists m x, openAIBase config = m ++ x
              /\ url (getOpenAIEndpoint env config) = m ++ "/v1/chat/completions".
Proof.
  intros Hinc. unfold getOpenAIEndpoint. cbn [url]. rewrite Hinc. cbn [negb].
  destruct (Js.endsWith "/v1" (openAIBase config)) eqn:Ev; cbn [negb].
  - apply endsWith_spec in Ev as [m Hm]. exists m, "/v1". split; [exact Hm |].
    rewrite Hm, append_assoc. reflexivity.
  - exists (openAIBase config), "". split; [now rewrite append_nil_r |].
    rewrite append_assoc. reflexivity.
Qed.

Lemma includes_prefix_path (m x : string) :
  Js.includes "/chat/completions" (m ++ x) = false ->
  Js.includes "/v1/chat/completions" m = false.
Proof.
  intros H. destruct (Js.includes "/v1/chat/completions" m) eqn:E; [| reflexivity].
  apply includes_spec in E as [a [b ->]].
  assert (Js.includes "/chat/completions"
            ((a ++ "/v1/chat/completions" ++ b) ++ x) = true) as Habs; [| congruence].
  apply includes_spec. exists (a ++ "/v1"), (b ++ x).
  rewrite !append_assoc. reflexivity.
Qed.

(** A pattern longer than [t] that does not occur in [s] and does not end
    with a non-empty prefix of [t] does not occur in [s ++ t]. *)
Lemma includes_append_short (p s t : string) :
  String.length t < String.length p ->
  Js.includes p s = false ->
  (forall e b, t = e ++ b -> e <> "" -> Js.endsWith e p = false) ->
  Js.includes p (s ++ t) = false.
Proof.
  intros Hlen Hs Hends. destruct (Js.includes p (s ++ t)) eqn:E; [| reflexivity].
  exfalso. apply includes_spec in E as [a [b E]]. rewrite <- append_assoc in E.
  destruct (le_lt_dec (String.length (a ++ p)) (String.length s)) as [Hle | Hlt].
  - destruct (append_eq_prefix _ _ _ _ E Hle) as [e He].
    assert (Js.includes p s = true) as Habs; [| congruence].
    apply includes_spec. exists a, e. now rewrite He, append_assoc.
  - symmetry in E. destruct (append_eq_prefix _ _ _ _ E ltac:(lia)) as [e He].
    rewrite He, append_assoc in E. apply append_inv_head in E.
    assert (String.length e <= String.length t) as Het
      by (rewrite <- E, length_append; lia).
    assert (e <> "") as Hne.
    { intros ->. rewrite append_nil_r in He. rewrite He in Hlt. lia. }
    assert (Js.endsWith e p = true) as Habs; [| rewrite (Hends e b) in Habs; congruence].
    assert (String.length a <= String.length s) as Has.
    { apply (f_equal String.length) in He. rewrite !length_append in He. lia. }
    symmetry in He. destruct (append_eq_prefix _ _ _ _ He Has) as [x Hx].
    rewrite Hx, append_assoc in He. apply append_inv_head in He.
    rewrite <- He. apply endsWith_append.
Qed.

(** The path [/chat/completions] does not come with a trailing [/v1]. *)
Lemma includes_path_version (b : string) :
  Js.includes "/chat/completions" b = false ->
  Js.includes "/chat/completions" (b ++ "/v1") = false.
Proof.
  intros H. apply includes_append_short; [cbn; lia | exact H |].
  intros e x He Hne.
  destruct e as [|c1 [|c2 [|c3 [|c4 e]]]]; [contradiction | | | |];
    cbn [append] in He; inversion He; subst; reflexivity.
Qed.

Lemma trim_noLeadingSpace (b : string) : Js.trim b = b -> Js.noLeadingSpace b = true.
Proof. intros <-. apply noLeadingSpace_trim. Qed.

(** One trailing slash of the base is dropped. *)
Lemma openAIBase_slash (b : string) (config : EngineConfig) :
  Js.trim b = b -> openAIBase (withBaseUrl (b ++ "/") config) = b.
Proof.
  intros Htrim. unfold openAIBase. cbn [baseUrl withBaseUrl].
  rewrite orElse_nonempty by (apply append_nonempty_r; discriminate).
  rewrite trim_append_fixed;
    [| now apply trim_noLeadingSpace | reflexivity | reflexivity | discriminate].
  rewrite endsWith_append. apply (sliceFromEnd_append b "/").
Qed.

(** The URL of the OpenAI-compatible family over the normalised base. *)
Lemma openAI_url_cases (env : option string) (config : EngineConfig) :
  Js.includes "/chat/completions" (openAIBase config) = false ->
  (Js.endsWith "/v1" (openAIBase config) = true ->
   url (getOpenAIEndpoint env config) = openAIBase config ++ "/chat/completions")
  /\ (Js.endsWith "/v1" (openAIBase config) = false ->
      url (getOpenAIEndpoint env config) = openAIBase config ++ "/v1/chat/completions").
Proof.
  intros Hinc. unfold getOpenAIEndpoint. cbn [url]. rewrite Hinc. cbn [negb].
  split; intros ->; cbn [negb]; [reflexivity | now rewrite append_assoc].
Qed.

(** The normalised base of the Gemini family: one trailing slash and one
    trailing version segment are dropped. *)
Lemma geminiBase_plain (b : string) (config : EngineConfig) :
  b <> "" -> Js.trim b = b -> Js.endsWith "/" b = false -> Js.endsWith "v1beta" b = false ->
  geminiBase (withBaseUrl b config) = b.
Proof.
  intros Hne Htrim Hslash Hv. unfold geminiBase. cbn [baseUrl withBaseUrl]. cbv zeta.
  rewrite orElse_nonempty, Htrim, Hslash, Hv by assumption. reflexivity.
Qed.

Lemma geminiBase_slash (b : string) (config : EngineConfig) :
  Js.trim b = b -> Js.endsWith "v1beta" b = false ->
  geminiBase (withBaseUrl (b ++ "/") config) = b.
Proof.
  intros Htrim Hv. unfold geminiBase. cbn [baseUrl withBaseUrl]. cbv zeta.
  rewrite orElse_nonempty by (apply append_nonempty_r; discriminate).
  rewrite trim_append_fixed;
    [| now apply trim_noLeadingSpace | reflexivity | reflexivity | discriminate].
  pose proof (sliceFromEnd_append b "/") as Hs. cbn [String.length] in Hs.
  rewrite endsWith_append, Hs, Hv. reflexivity.
Qed.

Lemma geminiBase_versioned (b : string) (config : EngineConfig) :
  Js.noLeadingSpace b = true ->
  geminiBase (withBaseUrl (b ++ "/v1beta") config) = b.
Proof.
  intros Hb. unfold geminiBase. cbn [baseUrl withBaseUrl]. cbv zeta.
  rewrite orElse_nonempty by (apply append_nonempty_r; discriminate).
  rewrite trim_append_fixed; [| exact Hb | reflexivity | reflexivity | discriminate].
  rewrite (endsWith_append_long "/") by (simpl; lia).
  cbn [Js.endsWith String.eqb Ascii.eqb Bool.eqb orb].
  rewrite (endsWith_append_long "v1beta") by (simpl; lia).
  change (Js.endsWith "v1beta" "/v1beta") with true. cbv iota.
  apply (sliceFromEnd_append b "/v1beta").
Qed.

Lemma geminiBase_versioned_slash (b : string) (config : EngineConfig) :
  Js.noLeadingSpace b = true ->
  geminiBase (withBaseUrl (b ++ "/v1beta/") config) = b.
Proof.
  intros Hb. unfold geminiBase. cbn [baseUrl withBaseUrl]. cbv zeta.
  rewrite orElse_nonempty by (apply append_nonempty_r; discriminate).
  rewrite trim_append_fixed; [| exact Hb | reflexivity | reflexivity | discriminate].
  rewrite (endsWith_append_long "/") by (simpl; lia).
  change (Js.endsWith "/" "/v1beta/") with true. cbv iota.
  replace (Js.sliceFromEnd 1 (b ++ "/v1beta/")) with (b ++ "/v1beta")
    by (symmetry; change "/v1beta/" with ("/v1beta" ++ "/");
        rewrite <- append_assoc; apply (sliceFromEnd_append (b ++ "/v1beta") "/")).
  rewrite (endsWith_append_long "v1beta") by (simpl; lia).
  change (Js.endsWith "v1beta" "/v1beta") with true. cbv iota.
  apply (sliceFromEnd_append b "/v1beta").
Qed.

(** The URL of the Gemini family over the normalised base. *)
Lemma gemini_url (env : option string) (config : EngineConfig) (method b : string) :
  url (getGeminiEndpoint env (withBaseUrl b config) method)
  = geminiBase (withBaseUrl b config) ++ "/v1beta/models/"
    ++ Js.orElse (model config) "gemini-3-flash-preview" ++ ":" ++ method
    ++ "?key=" ++ Js.trim (apiKeyOrEnv env config).
Proof. reflexivity. Qed.

(** A host resolves to the same URL of the OpenAI-compatible family however
    it is given: bare, with a trailing slash, with [/v1], or with both. *)
Lemma openAI_host_variants (env : option string) (config : EngineConfig) (h : string) :
  h <> "" -> Js.trim h = h -> Js.endsWith "/" h = false ->
  Js.endsWith "/v1" h = false -> Js.includes "/chat/completions" h = false ->
  let openAI b := url (getOpenAIEndpoint env (withBaseUrl b config)) in
  openAI h = h ++ "/v1/chat/completions"
  /\ openAI (h ++ "/") = h ++ "/v1/chat/completions"
  /\ openAI (h ++ "/v1") = h ++ "/v1/chat/completions"
  /\ openAI (h ++ "/v1/") = h ++ "/v1/chat/completions".
Proof.
  intros Hne Htrim Hslash Hv Hinc openAI.
  assert (Js.noLeadingSpace h = true) as Hlead by now apply trim_noLeadingSpace.
  assert (Js.trim (h ++ "/v1") = h ++ "/v1") as Htrimv
    by (apply trim_append_fixed; [exact Hlead | reflexivity | reflexivity | discriminate]).
  assert (openAIBase (withBaseUrl h config) = h) as B1
    by now apply openAIBase_fixed.
  assert (openAIBase (withBaseUrl (h ++ "/") config) = h) as B2
    by now apply openAIBase_slash.
  assert (openAIBase (withBaseUrl (h ++ "/v1") config) = h ++ "/v1") as B3.
  { apply openAIBase_fixed; [apply append_nonempty_r; discriminate | exact Htrimv |].
    rewrite endsWith_append_long by (simpl; lia). reflexivity. }
  assert (openAIBase (withBaseUrl (h ++ "/v1/") config) = h ++ "/v1") as B4.
  { change "/v1/" with ("/v1" ++ "/"). rewrite <- append_assoc.
    now apply openAIBase_slash. }
  assert (forall b, openAIBase (withBaseUrl b config) = h ->
            openAI b = h ++ "/v1/chat/completions") as Hbare.
  { intros b Hb. destruct (openAI_url_cases env (withBaseUrl b config)) as [_ H];
      rewrite Hb in *; [exact Hinc |]. exact (H Hv). }
  assert (forall b, openAIBase (withBaseUrl b config) = h ++ "/v1" ->
            openAI b = h ++ "/v1/chat/completions") as Hversioned.
  { intros b Hb. destruct (openAI_url_cases env (withBaseUrl b config)) as [H _];
      rewrite Hb in *; [now apply includes_path_version |].
    unfold openAI. rewrite (H (endsWith_append h "/v1")), append_assoc. reflexivity. }
  repeat split; [apply Hbare | apply Hbare | apply Hversioned | apply Hversioned]; assumption.
Qed.

(** A host resolves to the same URL of the Gemini family however it is
    given: bare, with a trailing slash, with the version segment, or with
    both. *)
Lemma gemini_host_variants (env : option string) (config : EngineConfig)
    (method h : string) :
  h <> "" -> Js.trim h = h -> Js.endsWith "/" h = false -> Js.endsWith "v1beta" h = false ->
  let gemini b := url (getGeminiEndpoint env (withBaseUrl b config) method) in
  let resolved :=
    h ++ "/v1beta/models/" ++ Js.orElse (model config) "gemini-3-flash-preview"
    ++ ":" ++ method ++ "?key=" ++ Js.trim (apiKeyOrEnv env config) in
  gemini h = resolved
  /\ gemini (h ++ "/") = resolved
  /\ gemini (h ++ "/v1beta") = resolved
  /\ gemini (h ++ "/v1beta/") = resolved.
Proof.
  intros Hne Htrim Hslash Hv gemini resolved. subst gemini resolved. cbv beta.
  assert (Js.noLeadingSpace h = true) as Hlead by now apply trim_noLeadingSpace.
  rewrite !gemini_url.
  rewrite geminiBase_plain, geminiBase_slash, geminiBase_versioned,
    geminiBase_versioned_slash by assumption.
  repeat split; reflexivity.
Qed.

(** C3 (amended).  Resolution is stable under bases that already carry what it
    appends, and adds no path segment twice.  OpenAI-compatible family: when
    the normalised base (trimmed, one trailing slash dropped) does not contain
    [/chat/completions], the URL is the normalised base followed by
    [/chat/completions] if the base ends in [/v1] and by
    [/v1/chat/completions] if not, so it ends in [/v1/chat/completions], holds
    that path exactly once, and resolving again with the URL as the base
    returns the URL; a host [h] (trimmed, without trailing slash or [/v1] and
    without the path) resolves to [h ++ "/v1/chat/completions"] whether it is
    given as [h], [h/], [h/v1] or [h/v1/].  When the base already contains
    [/chat/completions] it is the URL as it stands (no [/v1] is added), and
    resolving again returns it provided the base is trimmed and has no further
    trailing slash.  Gemini family: a host [h] (trimmed, without trailing
    slash, not ending in [v1beta]) resolves to the same URL, with one version
    segment after [h], whether it is given as [h], [h/], [h/v1beta] or
    [h/v1beta/]; and the normalised base of any configuration followed by the
    version segment, with or without one trailing slash, resolves to the URL
    of that configuration. *)
Theorem endpoint_resolution_idempotent
    (env : option string) (config : EngineConfig) (method : string) :
  let n := openAIBase config in
  let u := url (getOpenAIEndpoint env config) in
  let g := geminiBase config in
  let openAI b := url (getOpenAIEndpoint env (withBaseUrl b config)) in
  let gemini b := url (getGeminiEndpoint env (withBaseUrl b config) method) in
  (Js.includes "/chat/completions" n = false ->
     Js.endsWith "/v1/chat/completions" u = true
     /\ Js.occurrences "/v1/chat/completions" u = 1
     /\ url (getOpenAIEndpoint env (withBaseUrl u config)) = u)
  /\ (Js.includes "/chat/completions" n = true ->
        u = n
        /\ (Js.trim n = n -> Js.endsWith "/" n = false ->
            url (getOpenAIEndpoint env (withBaseUrl u config)) = u))
  /\ url (getGeminiEndpoint env (withBaseUrl (g ++ "/v1beta") config) method)
     = url (getGeminiEndpoint env config method)
  /\ url (getGeminiEndpoint env (withBaseUrl (g ++ "/v1beta/") config) method)
     = url (getGeminiEndpoint env config method)
  /\ (Js.includes "/chat/completions" n = false ->
      (Js.endsWith "/v1" n = true -> u = n ++ "/chat/completions")
      /\ (Js.endsWith "/v1" n = false -> u = n ++ "/v1/chat/completions"))
  /\ (forall h,
      h <> "" -> Js.trim h = h -> Js.endsWith "/" h = false ->
      Js.endsWith "/v1" h = false -> Js.includes "/chat/completions" h = false ->
      openAI h = h ++ "/v1/chat/completions"
      /\ openAI (h ++ "/") = h ++ "/v1/chat/completions"
      /\ openAI (h ++ "/v1") = h ++ "/v1/chat/completions"
      /\ openAI (h ++ "/v1/") = h ++ "/v1/chat/completions")
  /\ (forall h,
      h <> "" -> Js.trim h = h -> Js.endsWith "/" h = false ->
      Js.endsWith "v1beta" h = false ->
      let resolved :=
        h ++ "/v1beta/models/" ++ Js.orElse (model config) "gemini-3-flash-preview"
        ++ ":" ++ method ++ "?key=" ++ Js.trim (apiKeyOrEnv env config) in
      gemini h = resolved
      /\ gemini (h ++ "/") = resolved
      /\ gemini (h ++ "/v1beta") = resolved
      /\ gemini (h ++ "/v1beta/") = resolved).
Proof.
  intros n u g openAI gemini. split; [| split; [| split; [| split; [| split; [| split]]]]].
  - intros Hinc. destruct (openAI_url_shape env config Hinc) as [m [x [Hn Hu]]].
    fold n in Hn. fold u in Hu. rewrite Hu. split; [| split].
    + apply endsWith_append.
    + apply occurrences_append_once; [reflexivity | discriminate |].
      apply (includes_prefix_path m x). rewrite <- Hn. exact Hinc.
    + assert (openAIBase (withBaseUrl (m ++ "/v1/chat/completions") config)
              = m ++ "/v1/chat/completions") as Hbase.
      { apply openAIBase_fixed.
        - apply append_nonempty_r. discriminate.
        - apply trim_append_fixed; [| reflexivity | reflexivity | discriminate].
          apply (noLeadingSpace_prefix m x). rewrite <- Hn. apply openAIBase_noLeadingSpace.
        - rewrite endsWith_append_long by (simpl; lia). reflexivity. }
      unfold getOpenAIEndpoint. cbn [url]. rewrite Hbase.
      replace (Js.includes "/chat/completions" (m ++ "/v1/chat/completions")) with true;
        [reflexivity |].
      symmetry. apply includes_spec. exists (m ++ "/v1"), "".
      rewrite append_assoc. reflexivity.
  - intros Hinc.
    assert (u = n) as Hun
      by (subst u n; unfold getOpenAIEndpoint; cbn [url]; now rewrite Hinc).
    split; [exact Hun |]. intros Htrim Hslash. rewrite Hun.
    unfold getOpenAIEndpoint. cbn [url].
    rewrite openAIBase_fixed; [now rewrite Hinc | | assumption | assumption].
    intros E. rewrite E in Hinc. discriminate.
  - unfold getGeminiEndpoint. cbn [url]. f_equal.
    apply geminiBase_versioned, geminiBase_noLeadingSpace.
  - unfold getGeminiEndpoint. cbn [url]. f_equal.
    apply geminiBase_versioned_slash, geminiBase_noLeadingSpace.
  - intros Hinc. exact (openAI_url_cases env config Hinc).
  - intros h. apply openAI_host_variants.
  - intros h. apply gemini_host_variants.
Qed.

(** C3, where the statement of the specification fails: a base URL without
    trailing slash and without [/v1] that already holds the path resolves to
    a URL with no [/v1/chat/completions] in it, which is not the URL of the
    host alone; resolving the Gemini URL again doubles its path; and a
    version segment the base holds twice stays twice in the URL of either
    family. *)
Lemma endpoint_resolution_not_idempotent_in_general :
  url (getOpenAIEndpoint None (Sample.config openai "k" "https://api.example.com"))
  = "https://api.example.com/v1/chat/completions"
  /\ url (getOpenAIEndpoint None
            (Sample.config openai "k" "https://api.example.com/chat/completions"))
     = "https://api.example.com/chat/completions"
  /\ Js.occurrences "/v1/chat/completions"
       (url (getOpenAIEndpoint None
               (Sample.config openai "k" "https://api.example.com/chat/completions")))
     = 0
  /\ url (getGeminiEndpoint None (Sample.config gemini "k" "https://g.example") "generateContent")
     = "https://g.example/v1beta/models/gemini-3-flash-preview:generateContent?key=k"
  /\ url (getGeminiEndpoint None
            (withBaseUrl
               (url (getGeminiEndpoint None (Sample.config gemini "k" "https://g.example")
                       "generateContent"))
               (Sample.config gemini "k" "https://g.example"))
            "generateContent")
     = "https://g.example/v1beta/models/gemini-3-flash-preview:generateContent?key=k"
       ++ "/v1beta/models/gemini-3-flash-preview:generateContent?key=k"
  /\ url (getOpenAIEndpoint None (Sample.config openai "k" "https://api.example.com/v1/v1"))
     = "https://api.example.com/v1/v1/chat/completions"
  /\ url (getGeminiEndpoint None (Sample.config gemini "k" "https://g.example/v1beta/v1beta")
            "generateContent")
     = "https://g.example/v1beta/v1beta/models/gemini-3-flash-preview:generateContent?key=k".
Proof. repeat split; vm_compute; reflexivity. Qed.

Lemma endpoint_resolution_idempotent_witness :
  let config := Sample.config openai "k" " https://api.example.com/v1/ " in
  let u := url (getOpenAIEndpoint None config) in
  let openAI b := url (getOpenAIEndpoint None (withBaseUrl b config)) in
  let gemini b := url (getGeminiEndpoint None (withBaseUrl b config) "generateContent") in
  (u = "https://api.example.com/v1/chat/completions"
   /\ Js.occurrences "/v1/chat/completions" u = 1
   /\ url (getOpenAIEndpoint None (withBaseUrl u config)) = u)
  /\ (openAI "https://api.example.com" = "https://api.example.com/v1/chat/completions"
      /\ openAI "https://api.example.com/" = "https://api.example.com/v1/chat/completions"
      /\ openAI "https://api.example.com/v1" = "https://api.example.com/v1/chat/completions"
      /\ openAI "https://api.example.com/v1/" = "https://api.example.com/v1/chat/completions")
  /\ (gemini "https://g.example"
      = "https://g.example/v1beta/models/gemini-3-flash-preview:generateContent?key=k"
      /\ gemini "https://g.example/"
         = "https://g.example/v1beta/models/gemini-3-flash-preview:generateContent?key=k"
      /\ gemini "https://g.example/v1beta"
         = "https://g.example/v1beta/models/gemini-3-flash-preview:generateContent?key=k"
      /\ gemini "https://g.example/v1beta/"
         = "https://g.example/v1beta/models/gemini-3-flash-preview:generateContent?key=k").
Proof.
  intros config u openAI gemini.
  pose proof (endpoint_resolution_idempotent None config "generateContent")
    as (H1 & _ & _ & _ & _ & H6 & H7).
  split; [| split].
  - split; [vm_compute; reflexivity |].
    specialize (H1 ltac:(vm_compute; reflexivity)). exact (proj2 H1).
  - exact (H6 "https://api.example.com" ltac:(discriminate) ltac:(vm_compute; reflexivity)
             ltac:(vm_compute; reflexivity) ltac:(vm_compute; reflexivity)
             ltac:(vm_compute; reflexivity)).
  - exact (H7 "https://g.example" ltac:(discriminate) ltac:(vm_compute; reflexivity)
             ltac:(vm_compute; reflexivity) ltac:(vm_compute; reflexivity)).
Defined.

(* ================================================================== *)
(** * The response extractor *)
(* ================================================================== *)

Lemma cleanJSON_fenced (j : string) : cleanJSON (fenced "json" j) = cleanJSON j.
Proof.
  unfold cleanJSON, fenced.
  change ("```" ++ "json" ++ Js.nl ++ j ++ Js.nl ++ "```")
    with ("```json" ++ String (ascii_of_nat 10) (j ++ String (ascii_of_nat 10) "```")).
  rewrite removeAll_head by discriminate.
  rewrite removeAll_cons_separator by (discriminate || reflexivity).
  rewrite removeAll_separator by (discriminate || reflexivity).
  change (Js.removeAll "```json" "```") with "```".
  rewrite removeAll_cons_separator by (discriminate || reflexivity).
  rewrite removeAll_separator by (discriminate || reflexivity).
  change (Js.removeAll "```" "```") with "".
  rewrite trim_cons_space by reflexivity.
  apply trim_append_space. reflexivity.
Qed.

Section ExtractorFacts.

Variable env : option string.
Variable fetch : Request -> result Response.
Variable parse : string -> option json.
Variable stringify : json -> string.

Lemma parseStructured_fenced (j : string) :
  parseStructured parse (JStr (fenced "json" j)) = parseStructured parse (JStr j).
Proof. unfold parseStructured, onString. cbn [bind]. now rewrite cleanJSON_fenced. Qed.

Lemma cleanJSON_plain (j : string) :
  Js.includes "```" j = false -> cleanJSON j = Js.trim j.
Proof.
  intros H. unfold cleanJSON.
  assert (Js.includes "```json" j = false) as H'.
  { destruct (Js.includes "```json" j) eqn:E; [| reflexivity].
    apply includes_spec in E as [a [b ->]].
    assert (Js.includes "```" (a ++ "```json" ++ b) = true) as Habs; [| congruence].
    apply includes_spec. now exists a, ("json" ++ b). }
  now rewrite (removeAll_absent _ _ H'), (removeAll_absent _ _ H).
Qed.

(** C6 (amended).  A response wrapped in a code fence with the language tag
    [json] (opening line, text, closing line) is cleaned to the same text, and
    so parsed to the same result, as the text alone; when the text holds no
    triple backtick, that is the trimmed text.  The caller that expects an
    array, [autonomousScan], returns a parsed array as it is and wraps any other
    parsed value in a one-element array; [generateSoulReport] returns the
    parsed value as it is. *)
Theorem response_extractor_fences_and_arrays
    (j : string) (title name page : string) (annos : list Annotation)
    (p : Persona) (config : EngineConfig) (orig : bool) (t : string) (v : json) :
  (cleanJSON (fenced "json" j) = cleanJSON j
   /\ parseStructured parse (JStr (fenced "json" j)) = parseStructured parse (JStr j)
   /\ (Js.includes "```" j = false -> cleanJSON (fenced "json" j) = Js.trim j))
  /\ (callAI env fetch parse stringify (userTurn (scanPrompt page p config)) config
             (Some (buildSystemPrompt p)) JSON_OVERRIDE = Ok (JStr t) ->
      parse (cleanJSON t) = Some v ->
      autonomousScan env fetch parse stringify page p config orig
      = match v with JArr items => items | _ => [ v ] end)
  /\ (callAI env fetch parse stringify (userTurn (soulReportPrompt title annos)) config
             None JSON_OVERRIDE = Ok (JStr t) ->
      parse (cleanJSON t) = Some v ->
      generateSoulReport env fetch parse stringify title annos name config = v).
Proof.
  split; [split; [| split] | split].
  - apply cleanJSON_fenced.
  - apply parseStructured_fenced.
  - intros H. rewrite cleanJSON_fenced. now apply cleanJSON_plain.
  - intros Hcall Hparse. unfold autonomousScan. rewrite Hcall.
    cbn [bind parseStructured onString]. rewrite Hparse. reflexivity.
  - intros Hcall Hparse. unfold generateSoulReport. rewrite Hcall.
    cbn [bind parseStructured onString]. rewrite Hparse. reflexivity.
Qed.

End ExtractorFacts.

(** C6, where the statement of the specification fails: a fence with another language tag is not
    parsed as the text inside it, and [generateSoulReport], which expects one
    object, returns a one-element array as the array. *)
Lemma extractor_other_tags_and_wrapped_object :
  cleanJSON (fenced "javascript" "[]") = "javascript" ++ Js.nl ++ "[]"
  /\ parseStructured Sample.parse (JStr (fenced "javascript" "[]")) = Throw SyntaxError
  /\ parseStructured Sample.parse (JStr "[]") = Ok (JArr [])
  /\ generateSoulReport None (respondWith Sample.wrappedReport) Sample.parse
       Sample.stringify "Walden" [] "Socrates" (Sample.config gemini "k" "")
     = JArr [ JObj [] ]
  /\ JArr [ JObj [] ] <> JObj [].
Proof. repeat split; try (vm_compute; reflexivity). discriminate. Qed.

Lemma response_extractor_witness :
  cleanJSON (fenced "json" "[{}]") = "[{}]"
  /\ autonomousScan None (respondWith Sample.bareObject) Sample.parse Sample.stringify
       "I went to the woods." Sample.socrates (Sample.config gemini "k" "") false
     = [ JObj [] ]
  /\ generateSoulReport None (respondWith Sample.bareObject) Sample.parse Sample.stringify
       "Walden" [] "Socrates" (Sample.config gemini "k" "")
     = JObj [].
Proof.
  pose proof (response_extractor_fences_and_arrays None (respondWith Sample.bareObject)
                Sample.parse Sample.stringify
                "[{}]" "Walden" "Socrates" "I went to the woods." []
                Sample.socrates (Sample.config gemini "k" "") false "{}" (JObj [])) as H.
  split; [| split].
  - rewrite (proj2 (proj2 (proj1 H))); vm_compute; reflexivity.
  - apply (proj1 (proj2 H)); vm_compute; reflexivity.
  - apply (proj2 (proj2 H)); vm_compute; reflexivity.
Defined.

(* ================================================================== *)
(** * The provider clients and the requests they send *)
(* ================================================================== *)

Section ClientFacts.

Variable env : option string.
Variable fetch : Request -> result Response.
Variable parse : string -> option json.
Variable stringify : json -> string.

Lemma orElse_string (m : string) (d : json) :
  m <> "" -> Value.orElse (Some (JStr m)) d = JStr m.
Proof.
  intros H. unfold Value.orElse, Value.truthy, Js.truthy.
  now destruct (String.eqb_spec m "").
Qed.

Lemma dot_nonnull (k : string) (v : json) :
  v <> JNull -> Value.dot k v = Ok (Value.optDot k (Some v)).
Proof. destruct v; simpl; congruence. Qed.

(** The router sends the request of the configured family and hands the
    response to that family's client. *)
Lemma callAI_sends (contents : list Content) (config : EngineConfig)
    (sys : option string) (override : option (list (string * json))) :
  callAI env fetch parse stringify contents config sys override
  = (let! request := requestOf env contents config sys override in
     let! response := fetch request in
     match provider config with
     | openai => openAIResult parse stringify response
     | gemini => geminiResult parse response
     end).
Proof. unfold callAI, requestOf. destruct (provider config); reflexivity. Qed.

(** [summarizeTopic] sends [summarizeTopicRequest] and nothing else. *)
Lemma summarizeTopic_sends (textSelection comment : string) (engine : EngineConfig) :
  summarizeTopic env fetch parse stringify textSelection comment engine
  = (let! request := summarizeTopicRequest env comment engine in
     let! response := fetch request in
     let! t := match provider engine with
               | openai => openAIResult parse stringify response
               | gemini => geminiResult parse response
               end in
     onString t (fun s => Js.orElse (Js.trim s) "Thought")).
Proof.
  unfold summarizeTopic, summarizeTopicRequest. rewrite callAI_sends.
  destruct (requestOf _ _ _ _ _) as [request |]; [| reflexivity]. cbn [bind].
  destruct (fetch request); reflexivity.
Qed.

Lemma orElse_truthy (v d : json) :
  Value.truthy (Some v) = true -> Value.orElse (Some v) d = v.
Proof. unfold Value.orElse. now intros ->. Qed.

Lemma orElse_falsy (a : option json) (d : json) :
  Value.truthy a = false -> Value.orElse a d = d.
Proof. unfold Value.orElse. destruct a; [now intros -> | reflexivity]. Qed.

(** What both clients make of a response, by cases. *)
Lemma client_results (response : Response) :
  (* a non-2xx response whose body carries error.message *)
  (forall errData m,
     ok response = false -> parse (bodyText response) = Some errData ->
     readPath ERROR_MESSAGE (Some errData) = Some (JStr m) -> m <> "" ->
     geminiResult parse response = Throw (Error (JStr m))
     /\ openAIResult parse stringify response = Throw (Error (JStr m)))
  (* a non-2xx response whose body does not parse *)
  /\ (ok response = false -> parse (bodyText response) = None ->
      geminiResult parse response
      = Throw (Error (JStr ("Gemini API Error: " ++ Js.ofZ (status response))))
      /\ openAIResult parse stringify response
         = Throw (Error (JStr ("OpenAI API Error: " ++ Js.ofZ (status response) ++ " - "
                               ++ stringify (JObj [])))))
  (* a non-2xx response whose body has no error.message *)
  /\ (forall errData,
      ok response = false -> parse (bodyText response) = Some errData ->
      errData <> JNull -> readPath ERROR_MESSAGE (Some errData) = None ->
      geminiResult parse response
      = Throw (Error (JStr ("Gemini API Error: " ++ Js.ofZ (status response))))
      /\ openAIResult parse stringify response
         = Throw (Error (JStr ("OpenAI API Error: " ++ Js.ofZ (status response) ++ " - "
                               ++ stringify errData))))
  (* a 2xx response whose envelope lacks the text *)
  /\ (forall data,
      ok response = true -> parse (bodyText response) = Some data -> data <> JNull ->
      (readPath GEMINI_TEXT (Some data) = None -> geminiResult parse response = Ok (JStr ""))
      /\ (readPath OPENAI_TEXT (Some data) = None ->
          openAIResult parse stringify response = Ok (JStr "")))
  (* a non-2xx response always ends in an [Error], unless its body is [null] *)
  /\ (ok response = false -> errorData parse response <> JNull ->
      exists v w, geminiResult parse response = Throw (Error v)
                  /\ openAIResult parse stringify response = Throw (Error w)).
Proof.
  unfold geminiResult, openAIResult.
  split; [| split; [| split; [| split]]]; unfold errorData, responseJson.
  - intros errData m Hok Hparse Hmsg Hne. rewrite Hok, Hparse. cbn [negb tryCatch].
    assert (errData <> JNull) as Hnn by (intros ->; discriminate).
    rewrite (dot_nonnull _ _ Hnn). cbn [bind]. cbn [readPath ERROR_MESSAGE] in Hmsg.
    rewrite Hmsg, !(orElse_string _ _ Hne). split; reflexivity.
  - intros Hok Hparse. rewrite Hok, Hparse. split; reflexivity.
  - intros errData Hok Hparse Hnn Hmsg. rewrite Hok, Hparse. cbn [negb tryCatch].
    rewrite (dot_nonnull _ _ Hnn). cbn [bind]. cbn [readPath ERROR_MESSAGE] in Hmsg.
    rewrite Hmsg. split; reflexivity.
  - intros data Hok Hparse Hnn. rewrite Hok, Hparse. cbn [negb bind].
    rewrite !(dot_nonnull _ _ Hnn). cbn [bind].
    split; intros Hpath; cbn [readPath GEMINI_TEXT OPENAI_TEXT] in Hpath;
      rewrite Hpath; reflexivity.
  - intros Hok Hnn. rewrite Hok. cbn [negb].
    rewrite (dot_nonnull _ _ Hnn). cbn [bind]. eauto.
Qed.

(** The cases [client_results] leaves out: the body [null], a 2xx body that
    does not parse, and an [error.message] or a text of any kind, read by its
    truthiness. *)
Lemma client_results_other (response : Response) :
  (* the body [null], whatever the status *)
  (parse (bodyText response) = Some JNull ->
   geminiResult parse response = Throw TypeError
   /\ openAIResult parse stringify response = Throw TypeError)
  (* a 2xx response whose body does not parse *)
  /\ (ok response = true -> parse (bodyText response) = None ->
      geminiResult parse response = Throw SyntaxError
      /\ openAIResult parse stringify response = Throw SyntaxError)
  (* a non-2xx response whose body carries a truthy error.message *)
  /\ (forall errData v,
      ok response = false -> parse (bodyText response) = Some errData ->
      readPath ERROR_MESSAGE (Some errData) = Some v -> Value.truthy (Some v) = true ->
      geminiResult parse response = Throw (Error v)
      /\ openAIResult parse stringify response = Throw (Error v))
  (* a non-2xx response whose body carries no truthy error.message *)
  /\ (forall errData,
      ok response = false -> parse (bodyText response) = Some errData -> errData <> JNull ->
      Value.truthy (readPath ERROR_MESSAGE (Some errData)) = false ->
      geminiResult parse response
      = Throw (Error (JStr ("Gemini API Error: " ++ Js.ofZ (status response))))
      /\ openAIResult parse stringify response
         = Throw (Error (JStr ("OpenAI API Error: " ++ Js.ofZ (status response) ++ " - "
                               ++ stringify errData))))
  (* a 2xx response whose envelope carries no truthy text *)
  /\ (forall data,
      ok response = true -> parse (bodyText response) = Some data -> data <> JNull ->
      (Value.truthy (readPath GEMINI_TEXT (Some data)) = false ->
       geminiResult parse response = Ok (JStr ""))
      /\ (Value.truthy (readPath OPENAI_TEXT (Some data)) = false ->
          openAIResult parse stringify response = Ok (JStr ""))).
Proof.
  unfold geminiResult, openAIResult.
  split; [| split; [| split; [| split]]]; unfold errorData, responseJson.
  - intros Hparse. rewrite Hparse. cbn [tryCatch bind].
    destruct (negb (ok response)); split; reflexivity.
  - intros Hok Hparse. rewrite Hok, Hparse. split; reflexivity.
  - intros errData v Hok Hparse Hmsg Hv. rewrite Hok, Hparse. cbn [negb tryCatch].
    assert (errData <> JNull) as Hnn by (intros ->; discriminate).
    rewrite (dot_nonnull _ _ Hnn). cbn [bind]. cbn [readPath ERROR_MESSAGE] in Hmsg.
    rewrite Hmsg, !(orElse_truthy _ _ Hv). split; reflexivity.
  - intros errData Hok Hparse Hnn Hmsg. rewrite Hok, Hparse. cbn [negb tryCatch].
    rewrite (dot_nonnull _ _ Hnn). cbn [bind]. cbn [readPath ERROR_MESSAGE] in Hmsg.
    rewrite !(orElse_falsy _ _ Hmsg). split; reflexivity.
  - intros data Hok Hparse Hnn. rewrite Hok, Hparse. cbn [negb bind].
    rewrite !(dot_nonnull _ _ Hnn). cbn [bind].
    split; intros Hpath; cbn [readPath GEMINI_TEXT OPENAI_TEXT] in Hpath;
      rewrite (orElse_falsy _ _ Hpath); reflexivity.
Qed.

(** C5 (amended).  For both provider clients and a response body
    other than [null]: a non-2xx response makes the call fail with an error
    that carries the provider's own [error.message] when the body has one (a
    non-empty string, or any other truthy value), and otherwise a generic
    message with the status code (for a body that does not parse, and for a
    parsed body without a truthy [error.message]); a 2xx response whose parsed
    envelope lacks the text ([candidates[0].content.parts[0].text],
    [choices[0].message.content]) yields the empty string and does not throw.
    A body that is the JSON value [null] makes both clients throw a
    [TypeError], whatever the status, and a 2xx body that does not parse a
    [SyntaxError]. *)
Theorem provider_client_failures_and_empty_text
    (contents : list Content) (config : EngineConfig) (sys : option string)
    (override : option (list (string * json))) (request : Request) (response : Response) :
  fetch (geminiRequest env contents config sys override) = Ok response ->
  openAIRequest env contents config sys override = Ok request ->
  fetch request = Ok response ->
  let viaGemini := callGemini env fetch parse contents config sys override in
  let viaOpenAI := callOpenAI env fetch parse stringify contents config sys override in
  (forall errData m,
     ok response = false -> parse (bodyText response) = Some errData ->
     readPath ERROR_MESSAGE (Some errData) = Some (JStr m) -> m <> "" ->
     viaGemini = Throw (Error (JStr m)) /\ viaOpenAI = Throw (Error (JStr m)))
  /\ (ok response = false -> parse (bodyText response) = None ->
      viaGemini = Throw (Error (JStr ("Gemini API Error: " ++ Js.ofZ (status response))))
      /\ viaOpenAI
         = Throw (Error (JStr ("OpenAI API Error: " ++ Js.ofZ (status response) ++ " - "
                               ++ stringify (JObj [])))))
  /\ (forall errData,
      ok response = false -> parse (bodyText response) = Some errData ->
      errData <> JNull -> readPath ERROR_MESSAGE (Some errData) = None ->
      viaGemini = Throw (Error (JStr ("Gemini API Error: " ++ Js.ofZ (status response))))
      /\ viaOpenAI
         = Throw (Error (JStr ("OpenAI API Error: " ++ Js.ofZ (status response) ++ " - "
                               ++ stringify errData))))
  /\ (forall data,
      ok response = true -> parse (bodyText response) = Some data -> data <> JNull ->
      (readPath GEMINI_TEXT (Some data) = None -> viaGemini = Ok (JStr ""))
      /\ (readPath OPENAI_TEXT (Some data) = None -> viaOpenAI = Ok (JStr "")))
  /\ (ok response = false -> errorData parse response <> JNull ->
      exists v w, viaGemini = Throw (Error v) /\ viaOpenAI = Throw (Error w))
  /\ (parse (bodyText response) = Some JNull ->
      viaGemini = Throw TypeError /\ viaOpenAI = Throw TypeError)
  /\ (ok response = true -> parse (bodyText response) = None ->
      viaGemini = Throw SyntaxError /\ viaOpenAI = Throw SyntaxError)
  /\ (forall errData v,
      ok response = false -> parse (bodyText response) = Some errData ->
      readPath ERROR_MESSAGE (Some errData) = Some v -> Value.truthy (Some v) = true ->
      viaGemini = Throw (Error v) /\ viaOpenAI = Throw (Error v))
  /\ (forall errData,
      ok response = false -> parse (bodyText response) = Some errData -> errData <> JNull ->
      Value.truthy (readPath ERROR_MESSAGE (Some errData)) = false ->
      viaGemini = Throw (Error (JStr ("Gemini API Error: " ++ Js.ofZ (status response))))
      /\ viaOpenAI
         = Throw (Error (JStr ("OpenAI API Error: " ++ Js.ofZ (status response) ++ " - "
                               ++ stringify errData))))
  /\ (forall data,
      ok response = true -> parse (bodyText response) = Some data -> data <> JNull ->
      (Value.truthy (readPath GEMINI_TEXT (Some data)) = false -> viaGemini = Ok (JStr ""))
      /\ (Value.truthy (readPath OPENAI_TEXT (Some data)) = false ->
          viaOpenAI = Ok (JStr ""))).
Proof.
  intros Hg Hreq Ho viaGemini viaOpenAI.
  assert (viaGemini = geminiResult parse response) as ->
    by (unfold viaGemini, callGemini; now rewrite Hg).
  assert (viaOpenAI = openAIResult parse stringify response) as ->
    by (unfold viaOpenAI, callOpenAI; rewrite Hreq; cbn [bind]; now rewrite Ho).
  destruct (client_results response) as (H1 & H2 & H3 & H4 & H5).
  destruct (client_results_other response) as (H6 & H7 & H8 & H9 & H10).
  repeat (split; [assumption |]). assumption.
Qed.

End ClientFacts.

(** C5, where the statement of the specification fails: the body [null].
    With the status 500 both clients throw a [TypeError], which carries
    neither the provider's message nor the status code; with the status 200,
    the envelope lacking the text, they throw it instead of returning the
    empty string. *)
Lemma provider_clients_throw_on_null_body :
  let viaGemini r :=
    callGemini None (respondWith r) Sample.parse (userTurn "Hello") (Sample.config gemini "k" "")
      None None in
  let viaOpenAI r :=
    callOpenAI None (respondWith r) Sample.parse Sample.stringify (userTurn "Hello")
      (Sample.config openai "k" "") None None in
  ok Sample.nullError = false
  /\ Sample.parse (bodyText Sample.nullError) = Some JNull
  /\ viaGemini Sample.nullError = Throw TypeError
  /\ viaOpenAI Sample.nullError = Throw TypeError
  /\ ok Sample.nullReply = true
  /\ Sample.parse (bodyText Sample.nullReply) = Some JNull
  /\ readPath GEMINI_TEXT (Some JNull) = None
  /\ readPath OPENAI_TEXT (Some JNull) = None
  /\ viaGemini Sample.nullReply = Throw TypeError
  /\ viaOpenAI Sample.nullReply = Throw TypeError.
Proof. repeat split; vm_compute; reflexivity. Qed.

Lemma provider_client_witness :
  let viaGemini r :=
    callGemini None (respondWith r) Sample.parse (userTurn "Hello") (Sample.config gemini "k" "")
      None None in
  let viaOpenAI r :=
    callOpenAI None (respondWith r) Sample.parse Sample.stringify (userTurn "Hello")
      (Sample.config gemini "k" "") None None in
  (viaGemini Sample.tooManyRequests = Throw (Error (JStr "quota exceeded"))
   /\ viaOpenAI Sample.tooManyRequests = Throw (Error (JStr "quota exceeded")))
  /\ (viaGemini Sample.badGateway = Throw (Error (JStr "Gemini API Error: 502"))
      /\ viaOpenAI Sample.badGateway = Throw (Error (JStr "OpenAI API Error: 502 - {}")))
  /\ (viaGemini Sample.emptyEnvelope = Ok (JStr "")
      /\ viaOpenAI Sample.emptyEnvelope = Ok (JStr ""))
  /\ (viaGemini Sample.nullError = Throw TypeError
      /\ viaOpenAI Sample.nullError = Throw TypeError).
Proof.
  intros viaGemini viaOpenAI.
  assert (forall r, exists request,
            openAIRequest None (userTurn "Hello") (Sample.config gemini "k" "") None None
            = Ok request /\ respondWith r request = Ok r) as Hreq
    by (intros r; eexists; split; reflexivity).
  split; [| split; [| split]].
  - destruct (Hreq Sample.tooManyRequests) as [request [H1 H2]].
    apply (proj1 (provider_client_failures_and_empty_text None
                    (respondWith Sample.tooManyRequests) Sample.parse Sample.stringify
                    (userTurn "Hello") (Sample.config gemini "k" "") None None request
                    Sample.tooManyRequests eq_refl H1 H2) Sample.quotaError "quota exceeded");
      [reflexivity | reflexivity | reflexivity | discriminate].
  - destruct (Hreq Sample.badGateway) as [request [H1 H2]].
    apply (proj1 (proj2 (provider_client_failures_and_empty_text None
                    (respondWith Sample.badGateway) Sample.parse Sample.stringify
                    (userTurn "Hello") (Sample.config gemini "k" "") None None request
                    Sample.badGateway eq_refl H1 H2))); reflexivity.
  - destruct (Hreq Sample.emptyEnvelope) as [request [H1 H2]].
    pose proof (proj1 (proj2 (proj2 (proj2 (provider_client_failures_and_empty_text None
                    (respondWith Sample.emptyEnvelope) Sample.parse Sample.stringify
                    (userTurn "Hello") (Sample.config gemini "k" "") None None request
                    Sample.emptyEnvelope eq_refl H1 H2)))) (JObj [])
                  eq_refl eq_refl ltac:(discriminate)) as [Hg Ho].
    split; [apply Hg | apply Ho]; reflexivity.
  - destruct (Hreq Sample.nullError) as [request [H1 H2]].
    apply (proj1 (proj2 (proj2 (proj2 (proj2 (proj2
                    (provider_client_failures_and_empty_text None
                       (respondWith Sample.nullError) Sample.parse Sample.stringify
                       (userTurn "Hello") (Sample.config gemini "k" "") None None request
                       Sample.nullError eq_refl H1 H2))))))); reflexivity.
Defined.

(** Following every reference of the array [messages] gives back the object
    table. *)
Lemma omap_lookup_seq {A : Type} (h : list A) :
  omap (fun r => h !! r) (seq 0 (length h)) = h.
Proof.
  induction h as [|x h IH]; [reflexivity |].
  cbn [length seq omap list_omap lookup list_lookup].
  rewrite <- seq_shift.
  f_equal. rewrite <- IH at 2.
  generalize (seq 0 (length h)) as l. induction l as [|r l IHl]; [reflexivity |].
  cbn [map omap list_omap]. cbn [lookup list_lookup].
  now rewrite IHl.
Qed.

Lemma derefBody_all (h h' : MessageHeap) (m : string) (t : Q) :
  length h' = length h ->
  derefBody h' {| ref_model := m; ref_messages := seq 0 (length h); ref_temperature := t |}
  = {| oa_model := m; oa_messages := h'; oa_temperature := t |}.
Proof.
  intros Hlen. unfold derefBody. cbn [ref_model ref_messages ref_temperature].
  now rewrite <- Hlen, omap_lookup_seq.
Qed.

Lemma amendForJsonMode_head (m : Message) (rest : list Message) :
  amendForJsonMode (seq 0 (length (m :: rest))) (m :: rest)
  = Ok (if Js.includes "JSON" (msg_content m)
        then m :: rest
        else {| msg_role := msg_role m; msg_content := msg_content m ++ JSON_INSTRUCTION |}
             :: rest).
Proof.
  unfold amendForJsonMode. cbn [length seq lookup list_lookup].
  now destruct (Js.includes "JSON" (msg_content m)).
Qed.

Section RequestFacts.

Variable env : option string.

(** C8.  OpenAI-compatible family, JSON mode (the override has
    [responseMimeType] equal to [application/json]), with a system message:
    when the system message does not mention [JSON], the request that is sent
    carries it with a line feed and the sentence
    [IMPORTANT: Output strictly in JSON format.] appended, and every other
    message as mapped; when it already mentions [JSON], the messages are sent
    as mapped.  Either way the first message sent is the system message and
    mentions [JSON]. *)
Theorem json_mode_amends_system_message
    (contents : list Content) (config : EngineConfig) (sys : string)
    (fields : list (string * json)) :
  Value.getField "responseMimeType" fields = Some (JStr "application/json") ->
  sys <> "" ->
  let mapped := mapGeminiToOpenAI contents (Some sys) in
  exists request body,
    openAIRequest env contents config (Some sys) (Some fields) = Ok request
    /\ req_body request = BodyOpenAI body
    /\ head mapped = Some {| msg_role := "system"; msg_content := sys |}
    /\ (Js.includes "JSON" sys = false ->
        oa_messages body
        = {| msg_role := "system";
             msg_content := sys ++ Js.nl ++ "IMPORTANT: Output strictly in JSON format." |}
          :: tail mapped)
    /\ (Js.includes "JSON" sys = true -> oa_messages body = mapped)
    /\ (exists first,
        head (oa_messages body) = Some first
        /\ msg_role first = "system"
        /\ Js.startsWith sys (msg_content first) = true
        /\ Js.includes "JSON" (msg_content first) = true).
Proof.
  intros Hmode Hsys mapped.
  assert (exists rest, mapped = {| msg_role := "system"; msg_content := sys |} :: rest)
    as [rest Hmapped].
  { unfold mapped, mapGeminiToOpenAI, Js.truthy.
    destruct (String.eqb_spec sys ""); [contradiction |]. cbn [negb app]. eauto. }
  assert (Js.includes "JSON" (sys ++ Js.nl ++ "IMPORTANT: Output strictly in JSON format.")
          = true) as Hmentions.
  { apply JsFacts.includes_spec.
    exists (sys ++ Js.nl ++ "IMPORTANT: Output strictly in "), " format.".
    rewrite !JsFacts.append_assoc. reflexivity. }
  unfold openAIRequest. cbv zeta. fold mapped.
  unfold isJsonMode. rewrite Hmode.
  change (Value.isString "application/json" (Some (JStr "application/json"))) with true.
  cbv iota. rewrite Hmapped, amendForJsonMode_head. cbn [msg_content msg_role bind].
  destruct (Js.includes "JSON" sys) eqn:Einc;
    rewrite derefBody_all by reflexivity;
    eexists _, _; (split; [reflexivity |]); cbn [req_body oa_messages];
    (split; [reflexivity |]); (split; [reflexivity |]);
    (split; [intros; (reflexivity || discriminate) |]);
    (split; [intros; (reflexivity || discriminate) |]);
    eexists; (split; [reflexivity |]); cbn [msg_role msg_content];
    (split; [reflexivity |]).
  - split; [| exact Einc].
    rewrite <- (JsFacts.append_nil_r sys) at 2. apply JsFacts.startsWith_append.
  - split; [apply JsFacts.startsWith_append | exact Hmentions].
Qed.

(** The temperature of the request [summarizeTopic] sends, by family: the
    Gemini body carries the override 0.3, the OpenAI body the configured
    temperature. *)
Lemma summarizeTopic_temperature (comment : string) (engine : EngineConfig) :
  exists request,
    summarizeTopicRequest env comment engine = Ok request
    /\ match provider engine, req_body request with
       | gemini, BodyGemini b =>
           gem_generationConfig b = [ ("temperature", JNum (3 # 10)) ]
       | openai, BodyOpenAI b => oa_temperature b = temperature engine
       | _, _ => False
       end.
Proof.
  unfold summarizeTopicRequest, requestOf.
  destruct (provider engine) eqn:Ep.
  - eexists. split; [reflexivity |]. reflexivity.
  - unfold openAIRequest. cbv zeta. cbn [isJsonMode TOPIC_OVERRIDE Value.getField String.eqb Ascii.eqb Bool.eqb Value.isString bind].
    eexists. split; [reflexivity |]. cbn [req_body]. reflexivity.
Qed.

End RequestFacts.

Lemma json_mode_witness :
  exists request body,
    openAIRequest None (userTurn "Read this page.") (Sample.config openai "k" "")
      (Some "You are Socrates.") JSON_OVERRIDE = Ok request
    /\ req_body request = BodyOpenAI body
    /\ oa_messages body
       = [ {| msg_role := "system";
              msg_content := "You are Socrates." ++ Js.nl
                             ++ "IMPORTANT: Output strictly in JSON format." |};
           {| msg_role := "user"; msg_content := "Read this page." |} ].
Proof.
  destruct (json_mode_amends_system_message None (userTurn "Read this page.")
              (Sample.config openai "k" "") "You are Socrates."
              [ ("responseMimeType", JStr "application/json") ]
              eq_refl ltac:(discriminate))
    as (request & body & Hreq & Hbody & _ & Hamend & _).
  exists request, body. split; [exact Hreq |]. split; [exact Hbody |].
  rewrite Hamend; reflexivity.
Defined.

(** C7, at the failing input: with the OpenAI-compatible family and a
    configured temperature of 0.7, the request of [summarizeTopic] carries
    0.7, not 0.3; with the Gemini family and the same configuration it
    carries 0.3. *)
Theorem summarizeTopic_openai_keeps_configured_temperature :
  (exists request body,
     summarizeTopicRequest None "Noted." (Sample.config openai "k" "") = Ok request
     /\ req_body request = BodyOpenAI body
     /\ oa_temperature body = 7 # 10)
  /\ (exists request body,
      summarizeTopicRequest None "Noted." (Sample.config gemini "k" "") = Ok request
      /\ req_body request = BodyGemini body
      /\ gem_generationConfig body = [ ("temperature", JNum (3 # 10)) ]).
Proof. split; eexists _, _; repeat split; reflexivity. Qed.

(* ================================================================== *)
(** * The controller *)
(* ================================================================== *)

Lemma length_insertByTimestamp (a : Annotation) (l : list Annotation) :
  length (insertByTimestamp a l) = S (length l).
Proof.
  induction l as [|b l IH]; cbn [insertByTimestamp length]; [reflexivity |].
  destruct (timestamp a <? timestamp b)%Z; cbn [length]; [now rewrite IH | reflexivity].
Qed.

Lemma length_sortByTimestampDesc (l : list Annotation) :
  length (sortByTimestampDesc l) = length l.
Proof.
  unfold sortByTimestampDesc. induction l as [|a l IH]; cbn [fold_right length];
    [reflexivity | now rewrite length_insertByTimestamp, IH].
Qed.

Lemma In_insertByTimestamp (x a : Annotation) (l : list Annotation) :
  In x (insertByTimestamp a l) <-> x = a \/ In x l.
Proof.
  induction l as [|b l IH]; cbn [insertByTimestamp In]; [intuition |].
  destruct (timestamp a <? timestamp b)%Z; cbn [In]; rewrite ?IH; intuition.
Qed.

Lemma In_sortByTimestampDesc (x : Annotation) (l : list Annotation) :
  In x (sortByTimestampDesc l) <-> In x l.
Proof.
  unfold sortByTimestampDesc. induction l as [|a l IH]; cbn [fold_right In]; [reflexivity |].
  rewrite In_insertByTimestamp, IH. intuition.
Qed.

Lemma arrayIncludes_In (arr : list string) (x : string) :
  arrayIncludes arr x = true <-> In x arr.
Proof.
  unfold arrayIncludes. rewrite existsb_exists. split.
  - intros [y [Hy E]]. apply String.eqb_eq in E. now subst.
  - intros H. exists x. split; [exact H | apply String.eqb_refl].
Qed.

Section ControllerFacts.

Variable env : option string.

(** ** The consolidation effect *)

Lemma count_bookAnnotations (s : App) :
  Z.of_nat (length (bookAnnotations s)) = countFor s (annotations s).
Proof. unfold bookAnnotations, countFor. now rewrite length_sortByTimestampDesc. Qed.

(** The effect fires exactly when its six conditions hold, and then the ref
    holds the observed count before the consolidation runs. *)
Lemma autoMemoryEffect_spec (s : App) :
  let count := countFor s (annotations s) in
  let fires :=
    (0 <? autoMemoryThreshold (engineConfig s))%Z
    && started (activeBook s)
    && (0 <? count)%Z
    && (count mod autoMemoryThreshold (engineConfig s) =? 0)%Z
    && negb (count =? lastConsolidatedCountRef s)%Z
    && hasApiKey env (engineConfig s) in
  started (snd (autoMemoryEffect env s)) = fires
  /\ (fires = true ->
      fst (autoMemoryEffect env s)
      = showToast "Auto-consolidating memories..." info (writeLastConsolidatedCount count s))
  /\ (fires = false -> fst (autoMemoryEffect env s) = s).
Proof.
  intros count fires. unfold autoMemoryEffect. rewrite count_bookAnnotations. fold count.
  assert (shouldConsolidate (autoMemoryThreshold (engineConfig s)) true count
            (lastConsolidatedCountRef s) (hasApiKey env (engineConfig s))
          = (0 <? autoMemoryThreshold (engineConfig s))%Z && true && (0 <? count)%Z
            && (count mod autoMemoryThreshold (engineConfig s) =? 0)%Z
            && negb (count =? lastConsolidatedCountRef s)%Z
            && hasApiKey env (engineConfig s)) as Hs.
  { unfold shouldConsolidate. rewrite !Z.gtb_ltb.
    destruct (Z.ltb_spec 0 (autoMemoryThreshold (engineConfig s))) as [Ht | _];
      [| reflexivity].
    destruct (Z.ltb_spec 0 count) as [Hc | _]; [| reflexivity].
    rewrite Z.rem_mod_nonneg by lia. reflexivity. }
  subst fires. destruct (activeBook s) as [b |]; cbn [started].
  - rewrite Hs. destruct (_ && _ && _ && _ && _ && _); cbn [fst snd started];
      repeat split; congruence.
  - rewrite andb_false_r. cbn [andb fst snd started]. repeat split; congruence.
Qed.


(** One observation after the annotations changed to [annos], in a state with
    an active book and a key: what fires, and what the next state keeps. *)
Lemma effect_after_change (s s1 : App) (annos : list Annotation) (job : option MemoryJob) :
  started (activeBook s) = true -> hasApiKey env (engineConfig s) = true ->
  autoMemoryEffect env (setAnnotations (fun _ => annos) s) = (s1, job) ->
  let t := autoMemoryThreshold (engineConfig s) in
  let c := countFor s annos in
  let fires := (0 <? t)%Z && (0 <? c)%Z && (c mod t =? 0)%Z
               && negb (c =? lastConsolidatedCountRef s)%Z in
  started job = fires
  /\ started (activeBook s1) = true
  /\ engineConfig s1 = engineConfig s
  /\ activeBookId s1 = activeBookId s
  /\ lastConsolidatedCountRef s1 = (if fires then c else lastConsolidatedCountRef s).
Proof.
  intros Hbook Hkey E t c fires.
  destruct (autoMemoryEffect_spec (setAnnotations (fun _ => annos) s)) as [Hf [Hyes Hno]].
  rewrite E in Hf, Hyes, Hno. cbn [fst snd] in Hf, Hyes, Hno.
  change (activeBook (setAnnotations (fun _ => annos) s)) with (activeBook s) in *.
  cbn [engineConfig setAnnotations lastConsolidatedCountRef annotations] in Hf, Hyes, Hno.
  change (countFor (setAnnotations (fun _ => annos) s) annos) with c in *.
  fold t in Hf, Hyes, Hno.
  rewrite Hbook, Hkey, andb_true_r in Hf, Hyes, Hno.
  replace ((0 <? t)%Z && true) with (0 <? t)%Z in * by now rewrite andb_true_r.
  fold fires in Hf, Hyes, Hno.
  split; [exact Hf |]. destruct fires.
  - rewrite (Hyes eq_refl). repeat split; assumption.
  - rewrite (Hno eq_refl). repeat split; assumption.
Qed.

(** C2 (amended).  The effect starts a consolidation exactly when the threshold
    is positive, the active book's annotation count is positive, divisible by
    the threshold and different from [lastConsolidatedCount], and moreover an
    active book is found and an API key is set.  With a book, a key, threshold
    50 and a ref other than 50: counts 49 then 50 start exactly one
    consolidation, 50 observed again starts none, and 100 starts one more. *)
Theorem consolidation_fires_exactly_when (s : App) :
  let t := autoMemoryThreshold (engineConfig s) in
  let c := countFor s (annotations s) in
  (started (snd (autoMemoryEffect env s)) = true <->
     (0 < t)%Z /\ (0 < c)%Z /\ (c mod t = 0)%Z /\ c <> lastConsolidatedCountRef s
     /\ activeBook s <> None /\ hasApiKey env (engineConfig s) = true)
  /\ (forall a49 a50 a50' a100 : list Annotation,
       t = 50%Z -> activeBook s <> None -> hasApiKey env (engineConfig s) = true ->
       lastConsolidatedCountRef s <> 50%Z ->
       countFor s a49 = 49%Z -> countFor s a50 = 50%Z -> countFor s a50' = 50%Z ->
       countFor s a100 = 100%Z ->
       observe env s [ a49; a50; a50'; a100 ] = [ false; true; false; true ]).
Proof.
  intros t c. split.
  - destruct (autoMemoryEffect_spec s) as [-> _]. fold t c.
    rewrite !andb_true_iff, negb_true_iff, !Z.ltb_lt, !Z.eqb_eq, Z.eqb_neq.
    destruct (activeBook s); cbn [started]; intuition congruence.
  - intros a49 a50 a50' a100 Ht Hbook Hkey Hlast H49 H50 H50' H100.
    assert (started (activeBook s) = true) as Hb by (destruct (activeBook s); [reflexivity | contradiction]).
    cbn [observe].
    destruct (autoMemoryEffect env (setAnnotations (fun _ => a49) s)) as [s1 j1] eqn:E1.
    destruct (effect_after_change _ _ _ _ Hb Hkey E1) as (F1 & B1 & C1 & I1 & L1).
    fold t in F1, L1. rewrite Ht, H49 in F1, L1.
    change ((0 <? 50)%Z && (0 <? 49)%Z && (49 mod 50 =? 0)%Z) with false in F1, L1.
    cbn [andb] in F1, L1.
    assert (hasApiKey env (engineConfig s1) = true) as K1 by now rewrite C1.
    destruct (autoMemoryEffect env (setAnnotations (fun _ => a50) s1)) as [s2 j2] eqn:E2.
    destruct (effect_after_change _ _ _ _ B1 K1 E2) as (F2 & B2 & C2 & I2 & L2).
    unfold countFor in F2, L2. rewrite I1 in F2, L2. fold (countFor s a50) in F2, L2.
    rewrite C1, L1 in F2, L2. fold t in F2, L2. rewrite Ht, H50 in F2, L2.
    change ((0 <? 50)%Z && (0 <? 50)%Z && (50 mod 50 =? 0)%Z) with true in F2, L2.
    replace (50 =? lastConsolidatedCountRef s)%Z with false in F2, L2
      by (symmetry; apply Z.eqb_neq; congruence).
    cbn [andb negb] in F2, L2.
    assert (hasApiKey env (engineConfig s2) = true) as K2 by now rewrite C2, C1.
    destruct (autoMemoryEffect env (setAnnotations (fun _ => a50') s2)) as [s3 j3] eqn:E3.
    destruct (effect_after_change _ _ _ _ B2 K2 E3) as (F3 & B3 & C3 & I3 & L3).
    unfold countFor in F3, L3. rewrite I2, I1 in F3, L3. fold (countFor s a50') in F3, L3.
    rewrite C2, C1, L2 in F3, L3. fold t in F3, L3. rewrite Ht, H50' in F3, L3.
    change (negb (50 =? 50)%Z) with false in F3, L3.
    rewrite andb_false_r in F3, L3.
    assert (hasApiKey env (engineConfig s3) = true) as K3 by now rewrite C3, C2, C1.
    destruct (autoMemoryEffect env (setAnnotations (fun _ => a100) s3)) as [s4 j4] eqn:E4.
    destruct (effect_after_change _ _ _ _ B3 K3 E4) as (F4 & _).
    unfold countFor in F4. rewrite I3, I2, I1 in F4. fold (countFor s a100) in F4.
    rewrite C3, C2, C1, L3 in F4. fold t in F4. rewrite Ht, H100 in F4.
    change ((0 <? 50)%Z && (0 <? 100)%Z && (100 mod 50 =? 0)%Z && negb (100 =? 50)%Z)
      with true in F4.
    destruct j1, j2, j3, j4; cbn [started] in *; try discriminate. reflexivity.
Qed.



(** ** The page scan *)

(** What a started scan captured, and what the start wrote. *)
Lemma handlePageChange_started (content : string) (p : Z) (s s1 : App) (job : ScanJob) :
  handlePageChange env content p s = (s1, Some job) ->
  job_content job = content
  /\ job_existingSelections job = map textSelection (bookAnnotations s)
  /\ activeBookId s = Some (job_bookId job)
  /\ isAutoScanning s = false
  /\ lastScannedPageRef s <> Some content
  /\ lastScannedPageRef s1 = Some content
  /\ isAutoScanning s1 = true
  /\ annotations s1 = annotations s.
Proof.
  unfold handlePageChange, activeId. cbn [activeBookId setProgress].
  destruct (activeBookId s) as [id |] eqn:Eid; [| discriminate].
  destruct (Js.truthy id); [| discriminate].
  cbn [engineConfig isAutoScanning lastScannedPageRef setProgress].
  destruct (autonomousReading (engineConfig s)); [| discriminate]. cbn [negb orb].
  destruct (isAutoScanning s); [discriminate |]. cbn [orb].
  destruct (lastScannedPageRef s) as [last |] eqn:El.
  - destruct (String.eqb_spec last content) as [-> | Hne]; [discriminate |].
    destruct (hasApiKey env (engineConfig s)); [| discriminate]. cbn [negb].
    intros E. injection E as <- <-. cbn. repeat split; try congruence.
  - destruct (hasApiKey env (engineConfig s)); [| discriminate]. cbn [negb].
    intros E. injection E as <- <-. cbn. repeat split; congruence.
Qed.

(** The anchors of the annotations a scan adds: the anchors of the results
    that no earlier annotation of the book has, in order, repeats kept. *)
Lemma collectNew_anchors (job : ScanJob) (id_now ts_now : nat -> Z) (idx : nat)
    (results : list ScanResult) :
  map textSelection (collectNew job id_now ts_now idx results)
  = List.filter (fun x => negb (arrayIncludes (job_existingSelections job) x))
      (map scan_textSelection results).
Proof.
  revert idx; induction results as [|r results IH]; intros idx; [reflexivity |].
  cbn [collectNew map List.filter].
  destruct (arrayIncludes (job_existingSelections job) (scan_textSelection r));
    cbn [negb map]; now rewrite IH.
Qed.

Lemma newAnnos_collect (job : ScanJob) (id_now ts_now : nat -> Z)
    (results : list ScanResult) :
  newAnnos job id_now ts_now results = collectNew job id_now ts_now 0 results.
Proof. unfold newAnnos. now destruct results. Qed.

Lemma pageScanSettled_annotations (job : ScanJob) (results : list ScanResult)
    (id_now ts_now : nat -> Z) (s : App) :
  annotations (pageScanSettled job results id_now ts_now s)
  = (newAnnos job id_now ts_now results ++ annotations s)%list.
Proof.
  unfold pageScanSettled. cbv zeta.
  destruct (newAnnos job id_now ts_now results) as [|a l]; reflexivity.
Qed.

(** C4.  For a scan started over a book whose annotations are anchored at
    exactly [X] and [Y], the results [[X; W]] with [W] a third anchor add
    exactly one annotation, the one built from [W]; and no annotation a scan
    adds is anchored where an annotation of the book was when the scan
    started. *)
Theorem scan_discards_anchored_results
    (content : string) (p : Z) (s s1 s2 : App) (job : ScanJob)
    (X Y W : string) (rX rZ : ScanResult) (id_now ts_now : nat -> Z) :
  handlePageChange env content p s = (s1, Some job) ->
  (forall x, In x (map textSelection (bookAnnotations s)) <-> x = X \/ x = Y) ->
  scan_textSelection rX = X -> scan_textSelection rZ = W -> W <> X -> W <> Y ->
  annotations (pageScanSettled job [ rX; rZ ] id_now ts_now s2)
  = scanAnnotation (job_bookId job) (job_persona job) 1 (id_now 1%nat) (ts_now 1%nat) rZ
    :: annotations s2
  /\ textSelection
       (scanAnnotation (job_bookId job) (job_persona job) 1 (id_now 1%nat) (ts_now 1%nat) rZ)
     = W
  /\ (forall results a,
      In a (newAnnos job id_now ts_now results) ->
      ~ In (textSelection a) (map textSelection (bookAnnotations s))).
Proof.
  intros Hstart Hex HX HZ HZX HZY.
  destruct (handlePageChange_started _ _ _ _ _ Hstart) as (_ & Hsel & _).
  assert (arrayIncludes (job_existingSelections job) X = true) as HinX.
  { apply arrayIncludes_In. rewrite Hsel. apply Hex. now left. }
  assert (arrayIncludes (job_existingSelections job) W = false) as HinZ.
  { destruct (arrayIncludes (job_existingSelections job) W) eqn:E; [| reflexivity].
    apply arrayIncludes_In in E. rewrite Hsel in E. apply Hex in E. intuition. }
  split; [| split].
  - rewrite pageScanSettled_annotations. unfold newAnnos. cbn [length Nat.ltb Nat.leb collectNew].
    rewrite HX, HZ, HinX, HinZ. reflexivity.
  - cbn [textSelection scanAnnotation]. exact HZ.
  - intros results a Ha Hin. rewrite newAnnos_collect in Ha.
    apply (in_map textSelection) in Ha. rewrite collectNew_anchors in Ha.
    apply filter_In in Ha as [_ Hnot]. apply negb_true_iff in Hnot.
    rewrite <- Hsel in Hin. apply arrayIncludes_In in Hin. congruence.
Qed.

Lemma imap_anchors {A : Type} (g : nat -> A -> Annotation) (anchor : A -> string)
    (l : list A) :
  (forall i r, textSelection (g i r) = anchor r) ->
  map textSelection (imap g l) = map anchor l.
Proof.
  revert g; induction l as [|r l IH]; intros g Hg; [reflexivity |].
  cbn [imap map]. rewrite Hg. f_equal. apply IH. intros i r'. apply Hg.
Qed.

Lemma initialAnnos_anchors (init : InitialScanJob) (id_now ts_now : nat -> Z)
    (results : list ScanResult) :
  map textSelection (initialAnnos init id_now ts_now results)
  = map scan_textSelection results.
Proof. unfold initialAnnos. now apply imap_anchors. Qed.

(** C10.  The page scan compares only with the annotations that were there
    when it started: two results with the same anchor, which none of those
    has, are both added, as separate annotations.  The initial scan of a saved
    work adds one annotation per result, whatever the annotations already
    there. *)
Theorem scan_keeps_repeats_within_one_result
    (content : string) (p : Z) (s s1 s2 : App) (job : ScanJob)
    (r1 r2 : ScanResult) (id_now ts_now : nat -> Z)
    (init : InitialScanJob) (results : list ScanResult) :
  handlePageChange env content p s = (s1, Some job) ->
  scan_textSelection r1 = scan_textSelection r2 ->
  ~ In (scan_textSelection r1) (map textSelection (bookAnnotations s)) ->
  annotations (pageScanSettled job [ r1; r2 ] id_now ts_now s2)
  = scanAnnotation (job_bookId job) (job_persona job) 0 (id_now 0%nat) (ts_now 0%nat) r1
    :: scanAnnotation (job_bookId job) (job_persona job) 1 (id_now 1%nat) (ts_now 1%nat) r2
    :: annotations s2
  /\ annotations (initialScanSettled init results id_now ts_now s2)
     = (initialAnnos init id_now ts_now results ++ annotations s2)%list
  /\ map textSelection (initialAnnos init id_now ts_now results)
     = map scan_textSelection results
  /\ length (initialAnnos init id_now ts_now results) = length results.
Proof.
  intros Hstart Hsame Hfresh.
  destruct (handlePageChange_started _ _ _ _ _ Hstart) as (_ & Hsel & _).
  assert (arrayIncludes (job_existingSelections job) (scan_textSelection r1) = false) as Hnew.
  { destruct (arrayIncludes _ _) eqn:E; [| reflexivity].
    apply arrayIncludes_In in E. rewrite Hsel in E. contradiction. }
  split; [| split; [| split]].
  - rewrite pageScanSettled_annotations. unfold newAnnos.
    cbn [length Nat.ltb Nat.leb collectNew]. rewrite <- Hsame, Hnew. reflexivity.
  - unfold initialScanSettled. destruct results; reflexivity.
  - apply initialAnnos_anchors.
  - unfold initialAnnos. apply length_imap.
Qed.


(** ** Sessions *)

Lemma handlePageChange_not_started (content : string) (p : Z) (s s1 : App) :
  handlePageChange env content p s = (s1, None) ->
  lastScannedPageRef s1 = lastScannedPageRef s.
Proof.
  unfold handlePageChange.
  destruct (activeId (setProgress p s)); [| now intros [= <-]].
  destruct (_ || _ || _); [now intros [= <-] |].
  destruct (negb _); [now intros [= <-] | discriminate].
Qed.

Lemma lastScannedPageRef_pageScanSettled (job : ScanJob) (results : list ScanResult)
    (id_now ts_now : nat -> Z) (s : App) :
  lastScannedPageRef (pageScanSettled job results id_now ts_now s) = lastScannedPageRef s.
Proof.
  unfold pageScanSettled. cbv zeta. now destruct (0 <? length _)%nat.
Qed.

(** What one event does to the ref of the last scanned page. *)
Lemma step_lastScannedPageRef (ss ss1 : Session) (e : Event) (c : option string) :
  step env ss e = (ss1, c) ->
  match c with
  | Some content =>
      lastScannedPageRef (app ss) <> Some content
      /\ lastScannedPageRef (app ss1) = Some content
  | None => lastScannedPageRef (app ss1) = lastScannedPageRef (app ss)
  end.
Proof.
  destruct e as [content p | results id_now ts_now | id | cfg | q | a | id]; cbn [step].
  - destruct (handlePageChange env content p (app ss)) as [s1 [job |]] eqn:E;
      intros [= <- <-]; cbn [app].
    + destruct (handlePageChange_started _ _ _ _ _ E) as (_ & _ & _ & _ & Hne & Hnew & _).
      now split.
    + now apply handlePageChange_not_started in E.
  - destruct (inFlight ss) as [job |]; intros [= <- <-]; cbn [app];
      [apply lastScannedPageRef_pageScanSettled | reflexivity].
  - intros [= <- <-]. reflexivity.
  - intros [= <- <-]. cbn [app]. now destruct (negb _).
  - intros [= <- <-]. reflexivity.
  - intros [= <- <-]. reflexivity.
  - intros [= <- <-]. cbn [app]. unfold handleDeleteBook. cbv zeta.
    now destruct (sameId _ _).
Qed.

(** C9 (amended).  The scan guard remembers the last scanned page only: a page
    change whose content is the last scanned page starts no scan, none starts
    while a scan is outstanding, and so over every session no two consecutive
    scans are of the same content (a page scanned earlier can be scanned again
    once another page was scanned in between). *)
Theorem scan_never_repeats_last_page (ss : Session) (events : list Event) :
  noAdjacentRepeat (lastScannedPageRef (app ss)) (snd (run env ss events))
  /\ (forall content p s,
      lastScannedPageRef s = Some content ->
      snd (handlePageChange env content p s) = None)
  /\ (forall content p s,
      isAutoScanning s = true -> snd (handlePageChange env content p s) = None).
Proof.
  split; [| split].
  - revert ss; induction events as [|e events IH]; intros ss; cbn [run]; [exact I |].
    destruct (step env ss e) as [ss1 c] eqn:E.
    specialize (IH ss1). destruct (run env ss1 events) as [ss2 later].
    cbn [snd] in *. apply step_lastScannedPageRef in E.
    destruct c as [content |]; cbn [app noAdjacentRepeat].
    + destruct E as [Hne Hnew]. rewrite Hnew in IH. now split.
    + now rewrite E in IH.
  - intros content p s Hlast.
    destruct (handlePageChange env content p s) as [s1 [job |]] eqn:E; [| reflexivity].
    destruct (handlePageChange_started _ _ _ _ _ E) as (_ & _ & _ & _ & Hne & _).
    congruence.
  - intros content p s Hscan.
    destruct (handlePageChange env content p s) as [s1 [job |]] eqn:E; [| reflexivity].
    destruct (handlePageChange_started _ _ _ _ _ E) as (_ & _ & _ & Hidle & _).
    congruence.
Qed.

End ControllerFacts.



(** C2, where the statement of the specification fails: with threshold 50, a count of 50 and a
    ref of 0 the four conditions hold, and without an API key the effect does
    not fire. *)
Lemma consolidation_needs_api_key :
  let s := Sample.reader "" (Sample.notes 50) in
  autoMemoryThreshold (engineConfig s) = 50%Z
  /\ countFor s (annotations s) = 50%Z
  /\ (50 mod 50 = 0)%Z
  /\ lastConsolidatedCountRef s = 0%Z
  /\ started (activeBook s) = true
  /\ started (snd (autoMemoryEffect None s)) = false.
Proof. repeat split; vm_compute; reflexivity. Qed.

Lemma consolidation_fires_witness :
  observe None (Sample.reader "k" [])
    [ Sample.notes 49; Sample.notes 50; Sample.notes 50; Sample.notes 100 ]
  = [ false; true; false; true ].
Proof.
  apply (proj2 (consolidation_fires_exactly_when None (Sample.reader "k" [])));
    try (vm_compute; reflexivity); vm_compute; discriminate.
Defined.

Lemma scan_discards_witness :
  let s := Sample.reader "k" [ Sample.note "X" 2; Sample.note "Y" 1 ] in
  let s1 := fst (handlePageChange None "A" 1 s) in
  map textSelection
    (annotations
       (pageScanSettled Sample.scanOfA [ Sample.found "X"; Sample.found "Z" ]
          Sample.clock Sample.clock s1))
  = [ "Z"; "X"; "Y" ].
Proof.
  intros s s1.
  assert (handlePageChange None "A" 1 s = (s1, Some Sample.scanOfA)) as E
    by (vm_compute; reflexivity).
  assert (forall x, In x (map textSelection (bookAnnotations s)) <-> x = "X" \/ x = "Y") as Hex.
  { intros x. change (map textSelection (bookAnnotations s)) with [ "X"; "Y" ].
    cbn [In]. intuition. }
  destruct (scan_discards_anchored_results None "A" 1 s s1 s1 Sample.scanOfA "X" "Y" "Z"
              (Sample.found "X") (Sample.found "Z") Sample.clock Sample.clock
              E Hex eq_refl eq_refl ltac:(discriminate) ltac:(discriminate)) as [H _].
  rewrite H. vm_compute. reflexivity.
Defined.

(** C9, where the statement of the specification fails: page A is scanned, then page B, then
    page A again. *)
Lemma page_scanned_twice :
  snd (run None {| app := Sample.reader "k" []; inFlight := None |}
         [ PageChanged "A" 1; ScanSettled [] Sample.clock Sample.clock;
           PageChanged "B" 2; ScanSettled [] Sample.clock Sample.clock;
           PageChanged "A" 3 ])
  = [ "A"; "B"; "A" ].
Proof. vm_compute. reflexivity. Qed.

Lemma scan_keeps_repeats_witness :
  let s := Sample.reader "k" [ Sample.note "X" 2; Sample.note "Y" 1 ] in
  let s1 := fst (handlePageChange None "A" 1 s) in
  map textSelection
    (annotations
       (pageScanSettled Sample.scanOfA [ Sample.found "Z"; Sample.found "Z" ]
          Sample.clock Sample.clock s1))
  = [ "Z"; "Z"; "X"; "Y" ]
  /\ map textSelection
       (annotations
          (initialScanSettled Sample.initialScan [ Sample.found "X"; Sample.found "X" ]
             Sample.clock Sample.clock s1))
     = [ "X"; "X"; "X"; "Y" ].
Proof.
  intros s s1.
  assert (handlePageChange None "A" 1 s = (s1, Some Sample.scanOfA)) as E
    by (vm_compute; reflexivity).
  assert (~ In "Z" (map textSelection (bookAnnotations s))) as Hfresh.
  { change (map textSelection (bookAnnotations s)) with [ "X"; "Y" ].
    cbn [In]. intros [H | [H | H]]; [discriminate | discriminate | exact H]. }
  destruct (scan_keeps_repeats_within_one_result None "A" 1 s s1 s1 Sample.scanOfA
              (Sample.found "Z") (Sample.found "Z") Sample.clock Sample.clock
              Sample.initialScan [ Sample.found "X"; Sample.found "X" ]
              E eq_refl Hfresh) as (H1 & H2 & _).
  split; [rewrite H1 | rewrite H2]; vm_compute; reflexivity.
Defined.

(* ================================================================== *)
(** * More facts about JavaScript strings *)
(* ================================================================== *)

Lemma length_take (n : nat) (s : string) :
  String.length (Js.take n s) = Nat.min n (String.length s).
Proof.
  revert s; induction n as [|n IH]; intros s; [now destruct s |].
  destruct s as [|c s]; cbn [Js.take String.length]; [reflexivity |].
  now rewrite IH.
Qed.

Lemma take_all (n : nat) (s : string) : String.length s <= n -> Js.take n s = s.
Proof.
  revert s; induction n as [|n IH]; intros s Hlen.
  - destruct s; [reflexivity | cbn [String.length] in Hlen; lia].
  - destruct s as [|c s]; cbn [Js.take]; [reflexivity |].
    cbn [String.length] in Hlen. rewrite IH by lia. reflexivity.
Qed.

Lemma take_prefix (n : nat) (s : string) : exists rest, s = Js.take n s ++ rest.
Proof.
  revert s; induction n as [|n IH]; intros s.
  - exists s. now destruct s.
  - destruct s as [|c s]; cbn [Js.take]; [now exists "" |].
    destruct (IH s) as [rest Hrest]. exists rest. cbn [append]. now rewrite <- Hrest.
Qed.

Lemma take_nonempty (n : nat) (s : string) : 0 < n -> s <> "" -> Js.take n s <> "".
Proof. destruct n, s; cbn [Js.take]; intros; (lia || congruence || discriminate). Qed.

Lemma orElse_empty (d : string) : Js.orElse "" d = d.
Proof. reflexivity. Qed.

Lemma trimEnd_cons (c : ascii) (u : string) :
  Js.trimEnd u <> "" -> Js.trimEnd (String c u) = String c (Js.trimEnd u).
Proof. intros H. cbn [Js.trimEnd]. now destruct (Js.trimEnd u). Qed.

Lemma trimEnd_idempotent (s : string) : Js.trimEnd (Js.trimEnd s) = Js.trimEnd s.
Proof.
  induction s as [|c s IH]; [reflexivity |].
  cbn [Js.trimEnd]. destruct (Js.trimEnd s) as [|d t] eqn:E.
  - destruct (Js.isWhiteSpace c) eqn:Ec; [reflexivity |].
    cbn [Js.trimEnd]. now rewrite Ec.
  - rewrite trimEnd_cons; rewrite IH; [reflexivity | discriminate].
Qed.

Lemma trim_idempotent (s : string) : Js.trim (Js.trim s) = Js.trim s.
Proof.
  unfold Js.trim at 1. rewrite trimStart_fixed by apply noLeadingSpace_trim.
  unfold Js.trim. apply trimEnd_idempotent.
Qed.

(** [trimEnd] keeps a prefix, [trimStart] a suffix. *)
Lemma trimEnd_prefix (s : string) : exists rest, s = Js.trimEnd s ++ rest.
Proof.
  induction s as [|c s [rest IH]]; [now exists "" |].
  cbn [Js.trimEnd]. destruct (Js.trimEnd s) as [|d t] eqn:E.
  - destruct (Js.isWhiteSpace c).
    + now exists (String c s).
    + exists s. reflexivity.
  - exists rest. rewrite IH at 1. reflexivity.
Qed.

Lemma trimStart_suffix (s : string) : exists pre, s = pre ++ Js.trimStart s.
Proof.
  induction s as [|c s [pre IH]]; [now exists "" |].
  cbn [Js.trimStart]. destruct (Js.isWhiteSpace c).
  - exists (String c pre). cbn [append]. now rewrite <- IH.
  - now exists "".
Qed.

Lemma includes_trim (p s : string) :
  Js.includes p s = false -> Js.includes p (Js.trim s) = false.
Proof.
  intros H. destruct (Js.includes p (Js.trim s)) eqn:E; [| reflexivity].
  apply includes_spec in E as [a [b E]].
  destruct (trimEnd_prefix (Js.trimStart s)) as [rest Hr].
  destruct (trimStart_suffix s) as [pre Hp].
  assert (Js.includes p s = true) as Habs; [| congruence].
  apply includes_spec. exists (pre ++ a), (b ++ rest).
  rewrite Hp at 1. rewrite Hr at 1. fold (Js.trim s). rewrite E.
  now rewrite !append_assoc.
Qed.

Lemma includes_app_l (p a s : string) :
  Js.includes p s = true -> Js.includes p (a ++ s) = true.
Proof.
  intros H. apply includes_spec in H as [x [y ->]]. apply includes_spec.
  exists (a ++ x), y. now rewrite append_assoc.
Qed.

Lemma includes_app_r (p s b : string) :
  Js.includes p s = true -> Js.includes p (s ++ b) = true.
Proof.
  intros H. apply includes_spec in H as [x [y ->]]. apply includes_spec.
  exists x, (y ++ b). now rewrite !append_assoc.
Qed.

Lemma includes_prefix (p rest : string) : Js.includes p (p ++ rest) = true.
Proof. apply includes_spec. now exists "", rest. Qed.

Lemma includes_refl (p : string) : Js.includes p p = true.
Proof. apply includes_spec. exists "", "". now rewrite append_nil_r. Qed.

(** ** What [removeAll] leaves of the fence marker *)

Lemma removeAll_keep (p : string) (x : ascii) (t : string) :
  Js.startsWith p (String x t) = false ->
  Js.removeAll p (String x t) = String x (Js.removeAll p t).
Proof. intros H. unfold Js.removeAll. cbn [Js.removeAllFrom]. now rewrite H. Qed.

Lemma removeAll_ticks_head1 (s : string) :
  Js.startsWith "`" (Js.removeAll "```" s) = true -> Js.startsWith "`" s = true.
Proof.
  destruct s as [|x t]; [discriminate |].
  destruct (Js.startsWith "```" (String x t)) eqn:E.
  - intros _. apply startsWith_spec in E as [u ->]. reflexivity.
  - rewrite (removeAll_keep _ _ _ E). cbn [Js.startsWith]. now rewrite !andb_true_r.
Qed.

Lemma removeAll_ticks_head2 (s : string) :
  Js.startsWith "``" (Js.removeAll "```" s) = true -> Js.startsWith "``" s = true.
Proof.
  destruct s as [|x t]; [discriminate |].
  destruct (Js.startsWith "```" (String x t)) eqn:E.
  - intros _. apply startsWith_spec in E as [u ->]. reflexivity.
  - rewrite (removeAll_keep _ _ _ E).
    change (Js.startsWith "``" (String x (Js.removeAll "```" t)))
      with (Ascii.eqb "`" x && Js.startsWith "`" (Js.removeAll "```" t)).
    change (Js.startsWith "``" (String x t)) with (Ascii.eqb "`" x && Js.startsWith "`" t).
    intros H. apply andb_true_iff in H as [Hx Ht].
    now rewrite Hx, (removeAll_ticks_head1 _ Ht).
Qed.

Lemma removeAll_ticks_bounded (n : nat) (s : string) :
  String.length s <= n -> Js.includes "```" (Js.removeAll "```" s) = false.
Proof.
  revert s; induction n as [|n IH]; intros s Hlen.
  - destruct s; [reflexivity | cbn [String.length] in Hlen; lia].
  - destruct s as [|x t]; [reflexivity |].
    destruct (Js.startsWith "```" (String x t)) eqn:E.
    + apply startsWith_spec in E as [u E]. rewrite E, removeAll_head by discriminate.
      apply IH. apply (f_equal String.length) in E. rewrite length_append in E.
      cbn [String.length] in E, Hlen. lia.
    + rewrite (removeAll_keep _ _ _ E). cbn [Js.includes].
      rewrite (IH t) by (cbn [String.length] in Hlen; lia). rewrite orb_false_r.
      destruct (Js.startsWith "```" (String x (Js.removeAll "```" t))) eqn:E2; [| reflexivity].
      change (Js.startsWith "```" (String x (Js.removeAll "```" t)))
        with (Ascii.eqb "`" x && Js.startsWith "``" (Js.removeAll "```" t)) in E2.
      change (Js.startsWith "```" (String x t))
        with (Ascii.eqb "`" x && Js.startsWith "``" t) in E.
      apply andb_true_iff in E2 as [Hx Ht].
      rewrite Hx, (removeAll_ticks_head2 _ Ht) in E. discriminate.
Qed.

(** No fence marker is left once the fence markers are removed. *)
Lemma removeAll_ticks_clean (s : string) :
  Js.includes "```" (Js.removeAll "```" s) = false.
Proof. apply (removeAll_ticks_bounded (String.length s)). lia. Qed.

(* ================================================================== *)
(** * More on the response extractor and the prompt builder *)
(* ================================================================== *)

(** X1.  What [cleanJSON] returns holds no triple backtick and no white space
    at either end, and cleaning it again changes nothing. *)
Theorem cleanJSON_is_clean_and_idempotent (t : string) :
  Js.includes "```" (cleanJSON t) = false
  /\ Js.trim (cleanJSON t) = cleanJSON t
  /\ cleanJSON (cleanJSON t) = cleanJSON t.
Proof.
  assert (Js.includes "```" (cleanJSON t) = false) as H
    by (unfold cleanJSON; apply includes_trim, removeAll_ticks_clean).
  split; [exact H |]. split.
  - unfold cleanJSON. apply trim_idempotent.
  - rewrite (cleanJSON_plain _ H). unfold cleanJSON. apply trim_idempotent.
Qed.

(** X2.  The number of passages [autonomousScan] asks for is always between 1
    and 5: a configured count from 1 to 5 is used as it is, 0 is read as
    unset and becomes 2, a larger count becomes 5 and a negative one 1. *)
Theorem scanCount_clamped (engine : EngineConfig) :
  let c := autoAnnotationCount engine in
  (1 <= scanCount engine <= 5)%Z
  /\ ((1 <= c <= 5)%Z -> scanCount engine = c)
  /\ (c = 0%Z -> scanCount engine = 2%Z)
  /\ ((5 < c)%Z -> scanCount engine = 5%Z)
  /\ ((c < 0)%Z -> scanCount engine = 1%Z).
Proof.
  intros c. unfold scanCount. fold c.
  destruct (Z.eqb_spec c 0) as [E | E]; repeat split; intros; lia.
Qed.

(** The three parts of the system prompt. *)
Lemma buildSystemPrompt_shape (persona : Persona) :
  exists memoryBlock,
    buildSystemPrompt persona
    = systemInstruction persona ++ memoryBlock ++ Js.nl ++ THOUGHT_ONLY_CONSTRAINT
    /\ match longTermMemory persona with
       | Some m =>
           if Js.truthy m
           then memoryBlock
                = Js.nl ++ Js.nl ++ "[LONG-TERM MEMORY & SHARED HISTORY]" ++ Js.nl
                  ++ "The following is a summary of our past conversations and your evolved understanding. Use this context to deepen our bond, but do not explicitly recite it:"
                  ++ Js.nl ++ Js.dq ++ m ++ Js.dq
           else memoryBlock = ""
       | None => memoryBlock = ""
       end.
Proof.
  unfold buildSystemPrompt. destruct (longTermMemory persona) as [m |].
  - destruct (Js.truthy m).
    + eexists. split; [| reflexivity]. rewrite !append_assoc. reflexivity.
    + exists "". split; reflexivity.
  - exists "". split; reflexivity.
Qed.

Lemma buildSystemPrompt_nonempty (persona : Persona) : buildSystemPrompt persona <> "".
Proof.
  destruct (buildSystemPrompt_shape persona) as [b [-> _]].
  rewrite <- !append_assoc. apply append_nonempty_r. discriminate.
Qed.

Lemma buildSystemPrompt_no_memory (persona : Persona) :
  longTermMemory persona = None \/ longTermMemory persona = Some "" ->
  buildSystemPrompt persona = systemInstruction persona ++ Js.nl ++ THOUGHT_ONLY_CONSTRAINT.
Proof. unfold buildSystemPrompt. now intros [H | H]; rewrite H. Qed.

Lemma buildSystemPrompt_quotes_memory (persona : Persona) (m : string) :
  longTermMemory persona = Some m -> m <> "" ->
  Js.includes (Js.dq ++ m ++ Js.dq) (buildSystemPrompt persona) = true
  /\ Js.includes "[LONG-TERM MEMORY & SHARED HISTORY]" (buildSystemPrompt persona) = true.
Proof.
  intros Hm Hne. destruct (buildSystemPrompt_shape persona) as [b [Hshape Hb]].
  rewrite Hm in Hb.
  assert (Js.truthy m = true) as Ht
    by (unfold Js.truthy; now destruct (String.eqb_spec m "")).
  rewrite Ht in Hb. rewrite Hshape, Hb. split.
  - apply includes_app_l, includes_app_r. do 6 apply includes_app_l.
    apply includes_refl.
  - apply includes_app_l, includes_app_r. do 2 apply includes_app_l.
    apply includes_prefix.
Qed.

(** X3.  The system prompt always starts with the persona's voice and ends
    with the constraint block, so it is never empty; an empty memory is
    treated as no memory, and a non-empty memory is quoted in the prompt. *)
Theorem buildSystemPrompt_voice_memory_constraints (persona : Persona) :
  Js.startsWith (systemInstruction persona) (buildSystemPrompt persona) = true
  /\ Js.endsWith (Js.nl ++ THOUGHT_ONLY_CONSTRAINT) (buildSystemPrompt persona) = true
  /\ buildSystemPrompt persona <> ""
  /\ (longTermMemory persona = None \/ longTermMemory persona = Some "" ->
      buildSystemPrompt persona
      = systemInstruction persona ++ Js.nl ++ THOUGHT_ONLY_CONSTRAINT)
  /\ (forall m, longTermMemory persona = Some m -> m <> "" ->
      Js.includes (Js.dq ++ m ++ Js.dq) (buildSystemPrompt persona) = true
      /\ Js.includes "[LONG-TERM MEMORY & SHARED HISTORY]" (buildSystemPrompt persona) = true).
Proof.
  destruct (buildSystemPrompt_shape persona) as [b [Hshape Hb]].
  split; [rewrite Hshape; apply startsWith_append |].
  split; [rewrite Hshape, <- !append_assoc, append_assoc; apply endsWith_append |].
  split; [apply buildSystemPrompt_nonempty |].
  split; [apply buildSystemPrompt_no_memory | apply buildSystemPrompt_quotes_memory].
Qed.

(* ================================================================== *)
(** * More on the format adapter and the requests *)
(* ================================================================== *)

(** The role [mapGeminiToOpenAI] gives a turn. *)
Lemma mapGeminiToOpenAI_turns (contents : list Content) :
  mapGeminiToOpenAI contents None
  = map (fun item =>
           {| msg_role := if String.eqb (role item) "model" then "assistant" else "user";
              msg_content := lines (map text (parts item)) |})
        contents.
Proof. reflexivity. Qed.

Lemma mapGeminiToOpenAI_system (contents : list Content) (sys : string) :
  sys <> "" ->
  mapGeminiToOpenAI contents (Some sys)
  = {| msg_role := "system"; msg_content := sys |} :: mapGeminiToOpenAI contents None.
Proof.
  intros H. unfold mapGeminiToOpenAI, Js.truthy.
  now destruct (String.eqb_spec sys "").
Qed.

Lemma mapGeminiToOpenAI_no_system (contents : list Content) (sys : option string) :
  sys = None \/ sys = Some "" ->
  mapGeminiToOpenAI contents sys = mapGeminiToOpenAI contents None.
Proof. intros [-> | ->]; reflexivity. Qed.

Lemma length_mapGeminiToOpenAI_turns (contents : list Content) :
  length (mapGeminiToOpenAI contents None) = length contents.
Proof. rewrite mapGeminiToOpenAI_turns. apply List.length_map. Qed.

(** X4.  The OpenAI messages of a conversation: one message per turn, in
    order, after the system message when there is a non-empty system
    instruction; every role is [system], [user] or [assistant], and [system]
    is the role of the first message only, and only of the system
    instruction (a turn whose role is not [model], [system] included, is sent
    as [user]). *)
Theorem mapGeminiToOpenAI_roles_and_order
    (contents : list Content) (sys : option string) :
  let messages := mapGeminiToOpenAI contents sys in
  let hasSystem := match sys with Some s => Js.truthy s | None => false end in
  length messages = ((if hasSystem then 1 else 0) + length contents)%nat
  /\ Forall (fun m => msg_role m = "system" \/ msg_role m = "user"
                      \/ msg_role m = "assistant") messages
  /\ (forall i m, messages !! i = Some m -> msg_role m = "system" ->
      i = 0%nat /\ sys = Some (msg_content m) /\ hasSystem = true)
  /\ (forall i item, contents !! i = Some item ->
      messages !! ((if hasSystem then 1 else 0) + i)%nat
      = Some {| msg_role := if String.eqb (role item) "model" then "assistant" else "user";
                msg_content := lines (map text (parts item)) |}).
Proof.
  intros messages hasSystem.
  assert (Forall (fun m => msg_role m = "user" \/ msg_role m = "assistant")
            (mapGeminiToOpenAI contents None)) as Hturns.
  { rewrite mapGeminiToOpenAI_turns. apply List.Forall_forall. intros m Hm.
    apply in_map_iff in Hm as [item [<- _]]. cbn [msg_role].
    destruct (String.eqb (role item) "model"); auto. }
  assert (forall i item, contents !! i = Some item ->
            mapGeminiToOpenAI contents None !! i
            = Some {| msg_role := if String.eqb (role item) "model" then "assistant" else "user";
                      msg_content := lines (map text (parts item)) |}) as Hith.
  { intros i item Hi. rewrite mapGeminiToOpenAI_turns.
    change (map ?f contents) with (f <$> contents).
    rewrite list_lookup_fmap, Hi. reflexivity. }
  assert (messages = (if hasSystem
                      then match sys with
                           | Some s => [ {| msg_role := "system"; msg_content := s |} ]
                           | None => []
                           end
                      else []) ++ mapGeminiToOpenAI contents None)%list as Hm.
  { subst messages hasSystem. unfold mapGeminiToOpenAI.
    destruct sys as [s |]; [destruct (Js.truthy s) |]; reflexivity. }
  rewrite Hm. destruct hasSystem eqn:Hs.
  - destruct sys as [s |]; [| discriminate]. cbn [List.app]. split; [| split; [| split]].
    + cbn [length]. now rewrite length_mapGeminiToOpenAI_turns.
    + constructor; [now left |].
      eapply List.Forall_impl; [| exact Hturns]. cbn beta. intuition.
    + intros i m Hi Hrole. destruct i as [|i].
      * injection Hi as <-. auto.
      * cbn [lookup list_lookup] in Hi. exfalso.
        apply list_elem_of_lookup_2, list_elem_of_In in Hi.
        rewrite List.Forall_forall in Hturns. destruct (Hturns _ Hi) as [H | H]; congruence.
    + intros i item Hi. cbn [Nat.add lookup list_lookup]. now apply Hith.
  - cbn [List.app]. split; [| split; [| split]].
    + apply length_mapGeminiToOpenAI_turns.
    + eapply List.Forall_impl; [| exact Hturns]. cbn beta. intuition.
    + intros i m Hi Hrole. exfalso.
      apply list_elem_of_lookup_2, list_elem_of_In in Hi.
      rewrite List.Forall_forall in Hturns. destruct (Hturns _ Hi) as [H | H]; congruence.
    + intros i item Hi. now apply Hith.
Qed.

Section MoreRequestFacts.

Variable env : option string.

(** The request of the OpenAI-compatible family outside JSON mode. *)
Lemma openAIRequest_plain (contents : list Content) (config : EngineConfig)
    (sys : option string) (override : option (list (string * json))) :
  isJsonMode override = false ->
  openAIRequest env contents config sys override
  = Ok {| req_url := url (getOpenAIEndpoint env config);
          req_headers := headers (getOpenAIEndpoint env config);
          req_body :=
            BodyOpenAI
              {| oa_model := Js.orElse (model config) "deepseek-ai/DeepSeek-V3";
                 oa_messages := mapGeminiToOpenAI contents sys;
                 oa_temperature := temperature config |} |}.
Proof.
  intros H. unfold openAIRequest. cbv zeta. rewrite H. cbn [bind].
  now rewrite derefBody_all.
Qed.

(** X5.  The conversation [chatWithPersona] sends ends with the new message
    as a user turn, after the thread so far in its order, every earlier turn
    being a user turn or a model turn.  For the OpenAI-compatible family the
    messages are the system prompt, then the thread with [assistant] for
    every turn that is not the user's, then the new message as [user]. *)
Theorem chat_request_ends_with_user_message
    (message : string) (persona : Persona) (chatHistory : list ChatTurn)
    (engine : EngineConfig) :
  let contents := chatContents message persona chatHistory in
  last contents = Some {| role := "user"; parts := [ {| text := chatPrompt message persona |} ] |}
  /\ length contents = S (length chatHistory)
  /\ (forall i h, chatHistory !! i = Some h ->
      contents !! i
      = Some {| role := if String.eqb (turn_role h) "user" then "user" else "model";
                parts := [ {| text := turn_text h |} ] |})
  /\ exists request,
      chatRequest env message persona chatHistory engine = Ok request
      /\ match provider engine, req_body request with
         | gemini, BodyGemini b =>
             gem_contents b = contents
             /\ gem_systemInstruction b = Some (buildSystemPrompt persona)
             /\ gem_generationConfig b = [ ("temperature", JNum (temperature engine)) ]
         | openai, BodyOpenAI b =>
             oa_messages b
             = ({| msg_role := "system"; msg_content := buildSystemPrompt persona |}
                :: map (fun h =>
                          {| msg_role := if String.eqb (turn_role h) "user"
                                         then "user" else "assistant";
                             msg_content := turn_text h |})
                       chatHistory
                ++ [ {| msg_role := "user"; msg_content := chatPrompt message persona |} ])%list
         | _, _ => False
         end.
Proof.
  intros contents. subst contents. unfold chatContents.
  split; [apply last_snoc |].
  split; [rewrite length_app, length_map; cbn; lia |].
  split.
  - intros i h Hi. rewrite lookup_app_l
      by (rewrite length_map; now apply lookup_lt_Some in Hi).
    change (map ?f chatHistory) with (f <$> chatHistory).
    now rewrite list_lookup_fmap, Hi.
  - unfold chatRequest, requestOf. destruct (provider engine).
    + eexists. split; [reflexivity |]. cbn [req_body geminiRequest gem_contents
        gem_systemInstruction gem_generationConfig Value.spread].
      split; [reflexivity |]. split; [| reflexivity].
      unfold Js.truthy. now destruct (String.eqb_spec (buildSystemPrompt persona) "");
        [exfalso; eapply buildSystemPrompt_nonempty; eauto |].
    + rewrite openAIRequest_plain by reflexivity. eexists. split; [reflexivity |].
      cbn [req_body oa_messages].
      rewrite mapGeminiToOpenAI_system by apply buildSystemPrompt_nonempty.
      f_equal. unfold chatContents, userTurn.
      rewrite mapGeminiToOpenAI_turns, List.map_app, List.map_map. f_equal.
      apply map_ext. intros h. cbn [role parts map text].
      destruct (String.eqb (turn_role h) "user"); reflexivity.
Qed.

End MoreRequestFacts.

(* ================================================================== *)
(** * The free-text operations *)
(* ================================================================== *)

Lemma capReply_spec (t : string) :
  (1 <= String.length (capReply t) <= 100)%nat
  /\ (t = "" -> capReply t = "...")
  /\ (t <> "" -> capReply t = Js.take 100 t)
  /\ ((String.length t <= 100)%nat -> t <> "" -> capReply t = t).
Proof.
  unfold capReply, Js.substring0.
  destruct t as [|c t].
  - repeat split; try reflexivity; try (cbn; lia); congruence.
  - assert (Js.take 100 (String c t) <> "") as Hne by (apply take_nonempty; [lia | discriminate]).
    rewrite (orElse_nonempty _ _ Hne).
    split; [| split; [| split]].
    + rewrite length_take. cbn [String.length]. lia.
    + discriminate.
    + reflexivity.
    + intros Hlen _. now apply take_all.
Qed.

Section FreeTextFacts.

Variable env : option string.
Variable fetch : Request -> result Response.
Variable parse : string -> option json.
Variable stringify : json -> string.

(** What the three short-reply operations make of what the router returned. *)
Lemma capped_reply (r : result json) :
  let reply := let! t := r in onString t capReply in
  (forall s, reply = Ok s -> (1 <= String.length s <= 100)%nat)
  /\ (forall t, r = Ok (JStr t) -> reply = Ok (capReply t))
  /\ (forall v, r = Ok v -> (forall t, v <> JStr t) -> reply = Throw TypeError)
  /\ (forall e, r = Throw e -> reply = Throw e).
Proof.
  intros reply. subst reply. split; [| split; [| split]].
  - intros s. destruct r as [[] |]; cbn [bind onString]; try discriminate.
    intros [= <-]. apply capReply_spec.
  - now intros t ->.
  - intros v -> Hv. destruct v; try reflexivity. now destruct (Hv s).
  - now intros e ->.
Qed.

(** X6.  The three short-reply operations ([generateAIAnnotation],
    [generateAIResponseToUserNote], [chatWithPersona]): a reply they return
    has between 1 and 100 characters; a text of the provider is cut to its
    first 100 characters, and the empty text becomes three dots; what the
    provider client returned that is not a string makes them fail with a
    [TypeError]; a failure of the client is passed on as it is. *)
Theorem short_replies_are_capped
    (textSegment fullContext textSelection userNote message : string)
    (persona : Persona) (chatHistory : list ChatTurn) (engine : EngineConfig)
    (isOriginal : bool) :
  let sys := Some (buildSystemPrompt persona) in
  let call contents := callAI env fetch parse stringify contents engine sys None in
  let capped (r : result json) (reply : result string) :=
    (forall s, reply = Ok s -> (1 <= String.length s <= 100)%nat)
    /\ (forall t, r = Ok (JStr t) ->
        reply = Ok (if String.eqb t "" then "..." else Js.take 100 t))
    /\ (forall v, r = Ok v -> (forall t, v <> JStr t) -> reply = Throw TypeError)
    /\ (forall e, r = Throw e -> reply = Throw e) in
  capped (call (userTurn (annotationPrompt textSegment persona)))
         (generateAIAnnotation env fetch parse stringify textSegment fullContext persona
            engine isOriginal)
  /\ capped (call (userTurn (notePrompt textSelection userNote persona)))
            (generateAIResponseToUserNote env fetch parse stringify textSelection userNote
               persona engine isOriginal)
  /\ capped (call (chatContents message persona chatHistory))
            (chatWithPersona env fetch parse stringify message textSelection persona
               chatHistory engine isOriginal).
Proof.
  intros sys call capped.
  assert (forall r, capped r (let! t := r in onString t capReply)) as H.
  { intros r. destruct (capped_reply r) as (H1 & H2 & H3 & H4).
    split; [exact H1 |]. split; [| split; [exact H3 | exact H4]].
    intros t Ht. rewrite (H2 t Ht). f_equal.
    destruct (String.eqb_spec t "") as [-> | Hne]; [reflexivity |].
    now apply capReply_spec. }
  split; [| split]; apply H.
Qed.

(** A response outside the range 200-299 never becomes a result. *)
Lemma clients_reject_failed_response (response : Response) :
  ok response = false ->
  (exists e, geminiResult parse response = Throw e)
  /\ (exists e, openAIResult parse stringify response = Throw e).
Proof.
  intros Hok. unfold geminiResult, openAIResult. rewrite Hok. cbn [negb].
  destruct (errorData parse response); cbn [Value.dot bind]; eauto.
Qed.

Lemma callAI_unavailable (contents : list Content) (config : EngineConfig)
    (sys : option string) (override : option (list (string * json))) :
  unavailable fetch ->
  exists e, callAI env fetch parse stringify contents config sys override = Throw e.
Proof.
  intros Hdown. rewrite callAI_sends.
  destruct (requestOf env contents config sys override) as [request | e]; [| eauto].
  cbn [bind]. specialize (Hdown request).
  destruct (fetch request) as [response | e]; [| eauto]. cbn [bind].
  destruct (clients_reject_failed_response response Hdown) as [[e1 H1] [e2 H2]].
  destruct (provider config); eauto.
Qed.

(** X7.  When the provider cannot be reached or answers every request with
    a failure status, the two background operations do not fail:
    [autonomousScan] resolves to the empty array and [generateSoulReport] to
    its fixed report; every other operation of the service fails. *)
Theorem unavailable_provider_degrades_background_operations
    (pageContent bookTitle textSegment fullContext textSelection userNote message
       comment userReview : string)
    (userRating : Z) (persona : Persona) (annotations : list Annotation)
    (chatHistory : list ChatTurn) (engine : EngineConfig) (isOriginal : bool) :
  unavailable fetch ->
  autonomousScan env fetch parse stringify pageContent persona engine isOriginal = []
  /\ generateSoulReport env fetch parse stringify bookTitle annotations
       (persona_name persona) engine = DEFAULT_SOUL_REPORT
  /\ (exists e, generateAIAnnotation env fetch parse stringify textSegment fullContext
                  persona engine isOriginal = Throw e)
  /\ (exists e, generateAIResponseToUserNote env fetch parse stringify textSelection
                  userNote persona engine isOriginal = Throw e)
  /\ (exists e, chatWithPersona env fetch parse stringify message textSelection persona
                  chatHistory engine isOriginal = Throw e)
  /\ (exists e, summarizeTopic env fetch parse stringify textSelection comment engine
                = Throw e)
  /\ (exists e, generateLongFormAIReview env fetch parse stringify bookTitle pageContent
                  annotations persona engine isOriginal = Throw e)
  /\ (exists e, respondToUserBookReview env fetch parse stringify bookTitle userReview
                  userRating persona engine = Throw e)
  /\ (exists e, consolidateMemory env fetch parse stringify persona bookTitle annotations
                  engine = Throw e).
Proof.
  intros Hdown.
  unfold autonomousScan, generateSoulReport, generateAIAnnotation,
    generateAIResponseToUserNote, chatWithPersona, summarizeTopic,
    generateLongFormAIReview, respondToUserBookReview, consolidateMemory.
  repeat match goal with
         | |- context [callAI env fetch parse stringify ?c ?g ?s ?o] =>
             let e := fresh "e" in
             let H := fresh "H" in
             destruct (callAI_unavailable c g s o Hdown) as [e H]; rewrite H; clear H
         end.
  cbn [bind tryCatch]. repeat split; eauto.
Qed.

End FreeTextFacts.

Lemma unavailable_provider_witness :
  unavailable (respondWith Sample.badGateway)
  /\ autonomousScan None (respondWith Sample.badGateway) Sample.parse Sample.stringify
       "I went to the woods." Sample.socrates (Sample.config openai "k" "") false = []
  /\ generateSoulReport None (respondWith Sample.badGateway) Sample.parse Sample.stringify
       "Walden" [] (persona_name Sample.socrates) (Sample.config openai "k" "")
     = DEFAULT_SOUL_REPORT.
Proof.
  assert (unavailable (respondWith Sample.badGateway)) as H by (intros request; reflexivity).
  split; [exact H |].
  destruct (unavailable_provider_degrades_background_operations None
              (respondWith Sample.badGateway) Sample.parse Sample.stringify
              "I went to the woods." "Walden" "" "" "" "" "" "" "" 0 Sample.socrates [] []
              (Sample.config openai "k" "") false H) as (H1 & H2 & _).
  split; [exact H1 | exact H2].
Defined.

(* ================================================================== *)
(** * The requests of the operations *)
(* ================================================================== *)

Section OperationRequests.

Variable env : option string.

Lemma orElse_orElse (m d d' : string) :
  d <> "" -> Js.orElse (Js.orElse m d) d' = Js.orElse m d.
Proof.
  intros Hd. unfold Js.orElse at 2 3. destruct (Js.truthy m) eqn:E.
  - unfold Js.orElse. now rewrite E.
  - now apply orElse_nonempty.
Qed.

(** The request of a call outside JSON mode, by family. *)
Lemma requestOf_plain (contents : list Content) (config : EngineConfig) (sys : string)
    (override : option (list (string * json))) :
  isJsonMode override = false -> sys <> "" ->
  exists request,
    requestOf env contents config (Some sys) override = Ok request
    /\ match provider config, req_body request with
       | gemini, BodyGemini b =>
           req_url request
           = geminiBase config ++ "/v1beta/models/"
             ++ Js.orElse (model config) "gemini-3-flash-preview"
             ++ ":generateContent?key=" ++ Js.trim (apiKeyOrEnv env config)
           /\ gem_contents b = contents
           /\ gem_systemInstruction b = Some sys
           /\ gem_generationConfig b
              = Value.spread [ ("temperature", JNum (temperature config)) ] override
       | openai, BodyOpenAI b =>
           req_url request = url (getOpenAIEndpoint env config)
           /\ oa_model b = Js.orElse (model config) "deepseek-ai/DeepSeek-V3"
           /\ oa_messages b
              = {| msg_role := "system"; msg_content := sys |}
                :: mapGeminiToOpenAI contents None
           /\ oa_temperature b = temperature config
       | _, _ => False
       end.
Proof.
  intros Hmode Hsys. unfold requestOf. destruct (provider config).
  - eexists. split; [reflexivity |].
    cbn [req_body req_url geminiRequest getGeminiEndpoint url gem_contents
         gem_systemInstruction gem_generationConfig].
    split; [reflexivity |]. split; [reflexivity |]. split; [| reflexivity].
    unfold Js.truthy. now destruct (String.eqb_spec sys "").
  - rewrite openAIRequest_plain by exact Hmode. eexists. split; [reflexivity |].
    cbn [req_body req_url oa_model oa_messages oa_temperature].
    rewrite mapGeminiToOpenAI_system by exact Hsys. auto.
Qed.

(** X8.  The model a request names.  The chat request names the configured
    model and, with none configured, the default of its family
    ([gemini-3-flash-preview], [deepseek-ai/DeepSeek-V3]).  The long-form
    review and the memory consolidation name the configured model and, with
    none configured, [gemini-3-pro-preview] in both families: the
    OpenAI-compatible endpoint is then asked for a Gemini model, and the
    family default is never used. *)
Theorem long_form_requests_name_the_pro_model
    (bookTitle message : string) (persona : Persona) (annotations : list Annotation)
    (chatHistory : list ChatTurn) (engine : EngineConfig) :
  let names (r : result Request) (m : string) :=
    exists request,
      r = Ok request
      /\ match provider engine, req_body request with
         | gemini, BodyGemini _ =>
             req_url request
             = geminiBase engine ++ "/v1beta/models/" ++ m
               ++ ":generateContent?key=" ++ Js.trim (apiKeyOrEnv env engine)
         | openai, BodyOpenAI b =>
             oa_model b = m /\ req_url request = url (getOpenAIEndpoint env engine)
         | _, _ => False
         end in
  let configured (d : string) := if String.eqb (model engine) "" then d else model engine in
  names (chatRequest env message persona chatHistory engine)
        (configured match provider engine with
                    | gemini => "gemini-3-flash-preview"
                    | openai => "deepseek-ai/DeepSeek-V3"
                    end)
  /\ names (longFormRequest env bookTitle persona engine)
           (configured "gemini-3-pro-preview")
  /\ names (consolidateMemoryRequest env persona bookTitle annotations engine)
           (configured "gemini-3-pro-preview").
Proof.
  intros names configured.
  assert (forall d, Js.orElse (model engine) d = configured d) as Hconf.
  { intros d. unfold configured, Js.orElse, Js.truthy.
    now destruct (String.eqb (model engine) ""). }
  set (family := match provider engine with
                 | gemini => "gemini-3-flash-preview"
                 | openai => "deepseek-ai/DeepSeek-V3"
                 end).
  assert (family <> "") as Hfamily by (unfold family; destruct (provider engine); discriminate).
  assert (forall contents config sys m,
            sys <> "" -> provider config = provider engine ->
            baseUrl config = baseUrl engine -> apiKey config = apiKey engine ->
            Js.orElse (model config) family = m ->
            names (requestOf env contents config (Some sys) None) m) as Hnames.
  { intros contents config sys m Hsys Hp Hb Hk Hm.
    destruct (requestOf_plain contents config sys None eq_refl Hsys) as [request [Hr Hshape]].
    exists request. split; [exact Hr |]. rewrite Hp in Hshape. unfold family in Hm.
    destruct (provider engine), (req_body request); try contradiction.
    - destruct Hshape as [-> _]. rewrite Hm.
      unfold geminiBase, apiKeyOrEnv. now rewrite Hb, Hk.
    - destruct Hshape as (-> & -> & _). rewrite Hm.
      split; [reflexivity |]. unfold getOpenAIEndpoint, openAIBase, apiKeyOrEnv.
      now rewrite Hb, Hk. }
  split; [| split].
  - apply Hnames; try reflexivity; [apply buildSystemPrompt_nonempty | apply Hconf].
  - apply Hnames; try reflexivity; [apply buildSystemPrompt_nonempty |].
    cbn [longFormConfig withModel model].
    rewrite orElse_orElse by discriminate. apply Hconf.
  - apply Hnames; try reflexivity; [discriminate |].
    cbn [memoryConfig longFormConfig withModel withTemperature model].
    rewrite orElse_orElse by discriminate. apply Hconf.
Qed.

End OperationRequests.

Section MemoryRequestFacts.

Variable env : option string.

(** X9.  The request of [consolidateMemory] carries the temperature 0.5 in
    both families, whatever temperature is configured (the temperature is
    set in the configuration handed to the client, not in the override),
    with the archivist instruction as its system instruction; the
    conversations quoted in its prompt are at most 8000 characters, an
    annotation without a comment is not quoted, and a persona without
    memory, or with an empty one, is given the memory of a first meeting. *)
Theorem consolidateMemory_request_and_prompt
    (persona : Persona) (bookTitle : string) (annotations : list Annotation)
    (engine : EngineConfig) :
  (exists request,
     consolidateMemoryRequest env persona bookTitle annotations engine = Ok request
     /\ match provider engine, req_body request with
        | gemini, BodyGemini b =>
            gem_generationConfig b = [ ("temperature", JNum (1 # 2)) ]
            /\ gem_systemInstruction b = Some ARCHIVIST
            /\ gem_contents b = userTurn (memoryPrompt persona bookTitle annotations)
        | openai, BodyOpenAI b =>
            oa_temperature b = 1 # 2
            /\ oa_messages b
               = [ {| msg_role := "system"; msg_content := ARCHIVIST |};
                   {| msg_role := "user";
                      msg_content := memoryPrompt persona bookTitle annotations |} ]
        | _, _ => False
        end)
  /\ (String.length (recentConversations persona annotations) <= 8000)%nat
  /\ (forall before a after,
      annotations = (before ++ a :: after)%list -> comment a = "" ->
      memoryPrompt persona bookTitle annotations
      = memoryPrompt persona bookTitle (before ++ after))
  /\ (longTermMemory persona = None \/ longTermMemory persona = Some "" ->
      existingMemory persona = "We have just met.")
  /\ (forall m, longTermMemory persona = Some m -> m <> "" -> existingMemory persona = m).
Proof.
  split; [| split; [| split; [| split]]].
  - unfold consolidateMemoryRequest.
    destruct (requestOf_plain env (userTurn (memoryPrompt persona bookTitle annotations))
                (memoryConfig engine) ARCHIVIST None eq_refl ltac:(discriminate))
      as [request [Hr Hshape]].
    exists request. split; [exact Hr |].
    change (provider (memoryConfig engine)) with (provider engine) in Hshape.
    destruct (provider engine), (req_body request); try contradiction.
    + destruct Hshape as (_ & -> & -> & ->). auto.
    + destruct Hshape as (_ & _ & -> & ->). auto.
  - unfold recentConversations, Js.substring0. rewrite length_take. lia.
  - intros before a after -> Ha. unfold memoryPrompt, recentConversations.
    rewrite !List.filter_app. cbn [List.filter]. rewrite Ha. reflexivity.
  - unfold existingMemory. now intros [Hmem | Hmem]; rewrite Hmem.
  - intros m Hmem Hm. unfold existingMemory. rewrite Hmem. now apply orElse_nonempty.
Qed.

(** Building the request of the OpenAI-compatible family fails in one case
    only. *)
Lemma mapGeminiToOpenAI_nil (contents : list Content) (sys : option string) :
  mapGeminiToOpenAI contents sys = [] <->
  contents = [] /\ (sys = None \/ sys = Some "").
Proof.
  unfold mapGeminiToOpenAI, Js.truthy. split.
  - destruct sys as [s |]; [destruct (String.eqb_spec s "") as [-> | Hs] |];
      cbn [negb List.app]; try discriminate;
      (destruct contents; [auto | discriminate]).
  - intros [-> [-> | ->]]; reflexivity.
Qed.

(** X10.  Building the request of the OpenAI-compatible family fails exactly
    when JSON mode is asked for a conversation with no message at all (no
    turn and no system instruction, or an empty one): reading the content of
    the first message is then a [TypeError], and [callOpenAI] fails with it
    before anything is sent.  It is not reachable from the operations of the
    service, which all send at least one user turn. *)
Theorem openAIRequest_fails_only_without_messages
    (fetch : Request -> result Response) (parse : string -> option json)
    (stringify : json -> string)
    (contents : list Content) (config : EngineConfig) (sys : option string)
    (override : option (list (string * json))) :
  let empty := isJsonMode override = true /\ contents = []
               /\ (sys = None \/ sys = Some "") in
  (forall e, openAIRequest env contents config sys override = Throw e <->
             empty /\ e = TypeError)
  /\ (empty -> callOpenAI env fetch parse stringify contents config sys override
               = Throw TypeError)
  /\ (forall prompt, exists request,
        openAIRequest env (userTurn prompt) config sys override = Ok request).
Proof.
  intros empty. subst empty.
  assert (forall cs, match mapGeminiToOpenAI cs sys with
                     | [] => isJsonMode override = true ->
                             openAIRequest env cs config sys override = Throw TypeError
                     | _ :: _ => exists request,
                                   openAIRequest env cs config sys override = Ok request
                     end
                     /\ (isJsonMode override = false ->
                         exists request,
                           openAIRequest env cs config sys override = Ok request)) as Hcases.
  { intros cs. split.
    - unfold openAIRequest. cbv zeta. destruct (mapGeminiToOpenAI cs sys) as [|m rest] eqn:E.
      + now intros ->.
      + destruct (isJsonMode override).
        * rewrite amendForJsonMode_head. cbn [bind]. eauto.
        * cbn [bind]. eauto.
    - intros Hmode. unfold openAIRequest. cbv zeta. rewrite Hmode. cbn [bind]. eauto. }
  split; [| split].
  - intros e. destruct (Hcases contents) as [H1 H2]. split.
    + intros He. destruct (isJsonMode override) eqn:Hmode.
      * destruct (mapGeminiToOpenAI contents sys) eqn:E.
        -- apply mapGeminiToOpenAI_nil in E. rewrite H1 in He by reflexivity.
           injection He as <-. tauto.
        -- destruct H1 as [request H1]. congruence.
      * destruct (H2 eq_refl) as [request Hr]. congruence.
    + intros [(Hmode & Hc & Hs) ->].
      assert (mapGeminiToOpenAI contents sys = []) as E by (apply mapGeminiToOpenAI_nil; auto).
      rewrite E in H1. now apply H1.
  - intros (Hmode & Hc & Hs). destruct (Hcases contents) as [H1 _].
    assert (mapGeminiToOpenAI contents sys = []) as E by (apply mapGeminiToOpenAI_nil; auto).
    rewrite E in H1. unfold callOpenAI. now rewrite (H1 Hmode).
  - intros prompt. destruct (Hcases (userTurn prompt)) as [H1 _].
    destruct (mapGeminiToOpenAI (userTurn prompt) sys) eqn:E; [| exact H1].
    apply mapGeminiToOpenAI_nil in E as [E _]. discriminate.
Qed.

End MemoryRequestFacts.

Lemma soulReportPrompt_mentions_JSON (bookTitle : string) (annotations : list Annotation) :
  Js.includes "JSON" (soulReportPrompt bookTitle annotations) = true.
Proof.
  unfold soulReportPrompt, lines. cbn [String.concat].
  do 10 apply includes_app_l. apply includes_app_r. reflexivity.
Qed.

Lemma JSON_INSTRUCTION_mentions_JSON (s : string) :
  Js.includes "JSON" (s ++ JSON_INSTRUCTION) = true.
Proof. apply includes_app_l. reflexivity. Qed.

Section JsonModeFacts.

Variable env : option string.

(** X11.  The requests of the two JSON-mode operations.  For the Gemini
    family both carry [responseMimeType] next to the configured temperature.
    For the OpenAI-compatible family the request of [autonomousScan] starts
    with a system message that mentions JSON: the system prompt as it is when
    it mentions JSON already, and otherwise with the JSON instruction
    appended; [generateSoulReport] sends no system instruction, so the first
    message is its user prompt, which asks for a JSON report and is sent as
    it is. *)
Theorem json_mode_requests_by_operation
    (pageContent bookTitle : string) (persona : Persona) (annotations : list Annotation)
    (engine : EngineConfig) :
  let jsonConfig := [ ("temperature", JNum (temperature engine));
                      ("responseMimeType", JStr "application/json") ] in
  let prompt := buildSystemPrompt persona in
  (exists request,
     scanRequest env pageContent persona engine = Ok request
     /\ match provider engine, req_body request with
        | gemini, BodyGemini b =>
            gem_generationConfig b = jsonConfig /\ gem_systemInstruction b = Some prompt
        | openai, BodyOpenAI b =>
            exists first,
              oa_messages b
              = [ {| msg_role := "system"; msg_content := first |};
                  {| msg_role := "user";
                     msg_content := scanPrompt pageContent persona engine |} ]
              /\ Js.includes "JSON" first = true
              /\ first = (if Js.includes "JSON" prompt then prompt
                          else prompt ++ JSON_INSTRUCTION)
        | _, _ => False
        end)
  /\ (exists request,
      soulReportRequest env bookTitle annotations engine = Ok request
      /\ match provider engine, req_body request with
         | gemini, BodyGemini b =>
             gem_generationConfig b = jsonConfig /\ gem_systemInstruction b = None
         | openai, BodyOpenAI b =>
             oa_messages b
             = [ {| msg_role := "user";
                    msg_content := soulReportPrompt bookTitle annotations |} ]
         | _, _ => False
         end).
Proof.
  intros jsonConfig prompt. split.
  - unfold scanRequest, requestOf. destruct (provider engine).
    + eexists. split; [reflexivity |].
      cbn [req_body geminiRequest gem_generationConfig gem_systemInstruction].
      split; [reflexivity |]. fold prompt. unfold Js.truthy.
      destruct (String.eqb_spec prompt "") as [E | _]; [| reflexivity].
      now apply buildSystemPrompt_nonempty in E.
    + unfold openAIRequest. cbv zeta. fold prompt.
      rewrite mapGeminiToOpenAI_system by apply buildSystemPrompt_nonempty.
      change (isJsonMode JSON_OVERRIDE) with true. cbv iota.
      rewrite amendForJsonMode_head. cbn [bind msg_content msg_role].
      rewrite derefBody_all by (now destruct (Js.includes "JSON" prompt)).
      eexists. split; [reflexivity |]. cbn [req_body oa_messages].
      exists (if Js.includes "JSON" prompt then prompt else prompt ++ JSON_INSTRUCTION).
      split; [| split; [| reflexivity]].
      * now destruct (Js.includes "JSON" prompt).
      * destruct (Js.includes "JSON" prompt) eqn:E; [exact E |].
        apply JSON_INSTRUCTION_mentions_JSON.
  - unfold soulReportRequest, requestOf. destruct (provider engine).
    + eexists. split; [reflexivity |]. split; reflexivity.
    + unfold openAIRequest. cbv zeta.
      change (isJsonMode JSON_OVERRIDE) with true. cbv iota.
      change (mapGeminiToOpenAI (userTurn (soulReportPrompt bookTitle annotations)) None)
        with [ {| msg_role := "user";
                  msg_content := lines [ soulReportPrompt bookTitle annotations ] |} ].
      rewrite amendForJsonMode_head. cbn [msg_content lines String.concat].
      rewrite soulReportPrompt_mentions_JSON. cbn [bind].
      rewrite derefBody_all by reflexivity.
      eexists. split; reflexivity.
Qed.

End JsonModeFacts.

(** ** Object spread *)

Lemma getField_append (k k' : string) (v : json) (l : list (string * json)) :
  Value.getField k (l ++ [(k', v)])
  = match Value.getField k l with
    | Some w => Some w
    | None => if String.eqb k k' then Some v else None
    end.
Proof.
  induction l as [|[k1 v1] l IHl]; cbn [List.app Value.getField]; [reflexivity |].
  now destruct (String.eqb k k1).
Qed.

Lemma replaceField_keys (k : string) (v : json) (fields fields' : list (string * json)) :
  Value.replaceField k v fields = Some fields' -> map fst fields' = map fst fields.
Proof.
  revert fields'. induction fields as [|[k0 v0] rest IH]; intros fields'; cbn [Value.replaceField].
  - discriminate.
  - destruct (String.eqb_spec k k0) as [-> | Hne].
    + intros [= <-]. reflexivity.
    + destruct (Value.replaceField k v rest) as [rest' |]; [| discriminate].
      intros [= <-]. cbn [map fst]. now rewrite (IH rest').
Qed.

Lemma replaceField_lookup (k k' : string) (v : json) (fields fields' : list (string * json)) :
  Value.replaceField k' v fields = Some fields' ->
  Value.getField k fields' = if String.eqb k k' then Some v else Value.getField k fields.
Proof.
  revert fields'. induction fields as [|[k0 v0] rest IH]; intros fields'; cbn [Value.replaceField].
  - discriminate.
  - destruct (String.eqb_spec k' k0) as [-> | Hne].
    + intros [= <-]. cbn [Value.getField]. now destruct (String.eqb k k0).
    + destruct (Value.replaceField k' v rest) as [rest' |]; [| discriminate].
      intros [= <-]. cbn [Value.getField]. rewrite (IH rest' eq_refl).
      destruct (String.eqb_spec k k0) as [-> | Hk]; [| reflexivity].
      destruct (String.eqb_spec k0 k'); congruence.
Qed.

Lemma replaceField_absent (k : string) (v : json) (fields : list (string * json)) :
  Value.replaceField k v fields = None -> Value.getField k fields = None.
Proof.
  induction fields as [|[k0 v0] rest IH]; cbn [Value.replaceField Value.getField]; [reflexivity |].
  destruct (String.eqb k k0); [discriminate |].
  destruct (Value.replaceField k v rest); [discriminate | exact IH].
Qed.

Lemma insertIndexed_lookup (n : N) (k k' : string) (v : json) (fields : list (string * json)) :
  Value.getField k' fields = None ->
  Value.getField k (Value.insertIndexed n k' v fields)
  = if String.eqb k k' then Some v else Value.getField k fields.
Proof.
  induction fields as [|[k0 v0] rest IH]; cbn [Value.insertIndexed Value.getField].
  - reflexivity.
  - destruct (String.eqb_spec k' k0) as [-> | Hne]; [discriminate |]. intros Habs.
    destruct (Value.arrayIndex k0) as [n' |]; [destruct (n <? n')%N |]; cbn [Value.getField];
      try reflexivity.
    rewrite (IH Habs). destruct (String.eqb_spec k k0) as [-> | Hk]; [| reflexivity].
    destruct (String.eqb_spec k0 k'); congruence.
Qed.

Lemma insertIndexed_length (n : N) (k : string) (v : json) (fields : list (string * json)) :
  length (Value.insertIndexed n k v fields) = S (length fields).
Proof.
  induction fields as [|[k0 v0] rest IH]; cbn [Value.insertIndexed length]; [reflexivity |].
  destruct (Value.arrayIndex k0) as [n' |]; [destruct (n <? n')%N |]; cbn [length];
    try reflexivity.
  now rewrite IH.
Qed.

(** Setting a key changes what the object holds under that key, and under
    no other. *)
Lemma getField_setField (k k' : string) (v : json) (fields : list (string * json)) :
  Value.getField k (Value.setField k' v fields)
  = if String.eqb k k' then Some v else Value.getField k fields.
Proof.
  unfold Value.setField.
  destruct (Value.replaceField k' v fields) as [fields' |] eqn:Hrep.
  - exact (replaceField_lookup k k' v fields fields' Hrep).
  - apply replaceField_absent in Hrep.
    destruct (Value.arrayIndex k') as [n |].
    + now apply insertIndexed_lookup.
    + rewrite getField_append. destruct (String.eqb_spec k k') as [-> | Hne].
      * now rewrite Hrep.
      * now destruct (Value.getField k fields).
Qed.

Lemma length_setField (k : string) (v : json) (fields : list (string * json)) :
  (length (Value.setField k v fields) <= S (length fields))%nat.
Proof.
  unfold Value.setField.
  destruct (Value.replaceField k v fields) as [fields' |] eqn:Hrep.
  - apply replaceField_keys in Hrep.
    rewrite <- (List.length_map fst fields'), Hrep, List.length_map. lia.
  - destruct (Value.arrayIndex k) as [n |].
    + rewrite insertIndexed_length. lia.
    + rewrite List.length_app. cbn [length]. lia.
Qed.

(** A key that is no array index leaves the first key of a non-empty object
    where it is. *)
Lemma head_setField_plain (k h : string) (v : json) (fields : list (string * json)) :
  Value.arrayIndex k = None ->
  head (map fst fields) = Some h ->
  head (map fst (Value.setField k v fields)) = Some h.
Proof.
  intros Hk Hh. unfold Value.setField.
  destruct (Value.replaceField k v fields) as [fields' |] eqn:Hrep.
  - now rewrite (replaceField_keys _ _ _ _ Hrep).
  - rewrite Hk. destruct fields as [|[k0 v0] rest]; [discriminate | exact Hh].
Qed.

Lemma indexFirst_insertIndexed (n : N) (k : string) (v : json) (fields : list (string * json)) :
  Value.arrayIndex k = Some n ->
  Value.indexFirst (map fst fields) = true ->
  Value.indexFirst (map fst (Value.insertIndexed n k v fields)) = true.
Proof.
  intros Hk. assert (Value.isIndex k = true) as Hi by (unfold Value.isIndex; now rewrite Hk).
  induction fields as [|[k0 v0] rest IH]; cbn [Value.insertIndexed map fst Value.indexFirst].
  - now rewrite Hi.
  - unfold Value.isIndex at 1. destruct (Value.arrayIndex k0) as [n' |] eqn:H0.
    + intros Hrest. destruct (n <? n')%N; cbn [map fst Value.indexFirst].
      * rewrite Hi. unfold Value.isIndex at 1. now rewrite H0.
      * unfold Value.isIndex at 1. rewrite H0. now apply IH.
    + intros Hrest. cbn [map fst Value.indexFirst]. rewrite Hi. unfold Value.isIndex at 1. now rewrite H0.
Qed.

Lemma indexFirst_append_plain (k : string) (keys : list string) :
  Value.isIndex k = false -> Value.indexFirst keys = true -> Value.indexFirst (keys ++ [k]) = true.
Proof.
  intros Hk. induction keys as [|k0 rest IH]; cbn [List.app Value.indexFirst].
  - now rewrite Hk.
  - destruct (Value.isIndex k0); [exact IH |].
    intros Hall. rewrite forallb_app, Hall. cbn [forallb]. now rewrite Hk.
Qed.

Lemma indexFirst_setField (k : string) (v : json) (fields : list (string * json)) :
  Value.indexFirst (map fst fields) = true ->
  Value.indexFirst (map fst (Value.setField k v fields)) = true.
Proof.
  intros Hord. unfold Value.setField.
  destruct (Value.replaceField k v fields) as [fields' |] eqn:Hrep.
  - now rewrite (replaceField_keys _ _ _ _ Hrep).
  - destruct (Value.arrayIndex k) as [n |] eqn:Hk.
    + now apply indexFirst_insertIndexed.
    + rewrite List.map_app. cbn [map fst]. apply indexFirst_append_plain; [| exact Hord].
      unfold Value.isIndex. now rewrite Hk.
Qed.

Lemma indexFirst_head (k : string) (keys : list string) :
  Value.indexFirst keys = true -> In k keys -> Value.isIndex k = true ->
  exists k0, head keys = Some k0 /\ Value.isIndex k0 = true.
Proof.
  destruct keys as [|k0 rest]; [intros _ [] |]. cbn [Value.indexFirst head].
  destruct (Value.isIndex k0) eqn:H0; [now exists k0 |].
  intros Hall [-> | Hin] Hk; [congruence |].
  rewrite forallb_forall in Hall. specialize (Hall k Hin). rewrite Hk in Hall. discriminate.
Qed.

Lemma getField_In (k : string) (v : json) (fields : list (string * json)) :
  Value.getField k fields = Some v -> In k (map fst fields).
Proof.
  induction fields as [|[k0 v0] rest IH]; cbn [Value.getField map fst]; [discriminate |].
  destruct (String.eqb_spec k k0) as [-> | Hne]; [now left | right; now apply IH].
Qed.

Lemma In_getField (k : string) (fields : list (string * json)) :
  In k (map fst fields) -> exists v, Value.getField k fields = Some v.
Proof.
  induction fields as [|[k0 v0] rest IH]; cbn [Value.getField map fst]; [intros [] |].
  destruct (String.eqb_spec k k0) as [-> | Hne]; [now exists v0 |].
  intros [E | Hin]; [congruence | now apply IH].
Qed.

Lemma getField_spread (k : string) (extra base : list (string * json)) :
  Value.getField k (Value.spread base (Some extra))
  = match Value.getField k (rev extra) with
    | Some v => Some v
    | None => Value.getField k base
    end.
Proof.
  unfold Value.spread. revert base.
  induction extra as [|[k0 v0] extra IH]; intros base; cbn [fold_left rev fst snd].
  - reflexivity.
  - rewrite IH, getField_setField.
    rewrite getField_append. destruct (Value.getField k (rev extra)); [reflexivity |].
    now destruct (String.eqb k k0).
Qed.

Lemma getField_rev_unique (k : string) (fields : list (string * json)) :
  List.NoDup (map fst fields) -> Value.getField k (rev fields) = Value.getField k fields.
Proof.
  induction fields as [|[k0 v0] rest IH]; [reflexivity |].
  cbn [map fst rev Value.getField]. intros Hnd. apply List.NoDup_cons_iff in Hnd as [Hnotin Hnd].
  rewrite getField_append, (IH Hnd). destruct (String.eqb_spec k k0) as [-> | Hne]; [| now destruct (Value.getField k rest)].
  assert (Value.getField k0 rest = None) as ->; [| reflexivity].
  clear -Hnotin. induction rest as [|[k1 v1] rest IH]; [reflexivity |].
  cbn [Value.getField]. cbn [map fst] in Hnotin.
  destruct (String.eqb_spec k0 k1) as [-> | Hne].
  - exfalso. apply Hnotin. now left.
  - apply IH. intros H. apply Hnotin. now right.
Qed.

(* ================================================================== *)
(** * More of the controller *)
(* ================================================================== *)

(** ** The annotations of the active book *)

Lemma insertByTimestamp_Permutation (a : Annotation) (l : list Annotation) :
  Permutation (insertByTimestamp a l) (a :: l).
Proof.
  induction l as [|b l IH]; cbn [insertByTimestamp]; [reflexivity |].
  destruct (timestamp a <? timestamp b)%Z; [| reflexivity].
  rewrite IH. apply perm_swap.
Qed.

Lemma insertByTimestamp_sorted (a : Annotation) (l : list Annotation) :
  StronglySorted (fun x y => (timestamp y <= timestamp x)%Z) l ->
  StronglySorted (fun x y => (timestamp y <= timestamp x)%Z) (insertByTimestamp a l).
Proof.
  induction 1 as [|b l Hsorted IH Hall]; cbn [insertByTimestamp].
  - constructor; constructor.
  - destruct (Z.ltb_spec (timestamp a) (timestamp b)) as [Hlt | Hge].
    + constructor; [exact IH |].
      apply List.Forall_forall. intros x Hx. apply In_insertByTimestamp in Hx as [-> | Hx].
      * lia.
      * rewrite List.Forall_forall in Hall. now apply Hall.
    + constructor; [now constructor |].
      constructor; [exact Hge |].
      eapply List.Forall_impl; [| exact Hall]. cbn beta. intros x Hx. lia.
Qed.

(** Inserting keeps the order among the annotations of one timestamp, the
    inserted one coming first. *)
Lemma insertByTimestamp_stable (t : Z) (a : Annotation) (l : list Annotation) :
  List.filter (fun x => (timestamp x =? t)%Z) (insertByTimestamp a l)
  = List.filter (fun x => (timestamp x =? t)%Z) (a :: l).
Proof.
  induction l as [|b l IH]; cbn [insertByTimestamp]; [reflexivity |].
  destruct (Z.ltb_spec (timestamp a) (timestamp b)) as [Hlt | Hge]; [| reflexivity].
  cbn [List.filter] in *. rewrite IH.
  destruct (Z.eqb_spec (timestamp a) t) as [Ha | Ha]; [| reflexivity].
  destruct (Z.eqb_spec (timestamp b) t) as [Hb | Hb]; [lia | reflexivity].
Qed.

(** X12.  The annotations shown for the active book are exactly the
    annotations of that book, each as often as it is stored, ordered from the
    newest to the oldest; annotations of one timestamp keep the order they
    are stored in. *)
Theorem bookAnnotations_newest_first (s : App) :
  let ofBook := List.filter (fun a => sameId (bookId a) (activeBookId s)) (annotations s) in
  Permutation (bookAnnotations s) ofBook
  /\ StronglySorted (fun x y => (timestamp y <= timestamp x)%Z) (bookAnnotations s)
  /\ (forall t, List.filter (fun x => (timestamp x =? t)%Z) (bookAnnotations s)
                = List.filter (fun x => (timestamp x =? t)%Z) ofBook)
  /\ (forall a, In a (bookAnnotations s) <->
                In a (annotations s) /\ activeBookId s = Some (bookId a)).
Proof.
  intros ofBook. unfold bookAnnotations. fold ofBook.
  assert (Permutation (sortByTimestampDesc ofBook) ofBook) as Hperm.
  { unfold sortByTimestampDesc. induction ofBook as [|a l IH]; cbn [fold_right];
      [reflexivity |]. now rewrite insertByTimestamp_Permutation, IH. }
  split; [exact Hperm |]. split; [| split].
  - unfold sortByTimestampDesc. induction ofBook as [|a l IH]; cbn [fold_right].
    + constructor.
    + apply insertByTimestamp_sorted, IH.
      unfold sortByTimestampDesc. clear. induction l as [|b l IH]; cbn [fold_right];
        [reflexivity |]. now rewrite insertByTimestamp_Permutation, IH.
  - intros t. unfold sortByTimestampDesc. clear Hperm.
    induction ofBook as [|a l IH]; cbn [fold_right]; [reflexivity |].
    rewrite insertByTimestamp_stable. cbn [List.filter]. now rewrite IH.
  - intros a. rewrite In_sortByTimestampDesc. unfold ofBook. rewrite filter_In.
    unfold sameId. destruct (activeBookId s) as [id |].
    + rewrite String.eqb_eq. intuition congruence.
    + intuition discriminate.
Qed.

(** ** What a page scan adds *)

Lemma collectNew_built (job : ScanJob) (id_now ts_now : nat -> Z) (idx : nat)
    (results : list ScanResult) :
  Forall (fun a => exists i r,
                     results !! i = Some r
                     /\ a = scanAnnotation (job_bookId job) (job_persona job) (idx + i)
                              (id_now (idx + i)%nat) (ts_now (idx + i)%nat) r
                     /\ arrayIncludes (job_existingSelections job) (scan_textSelection r)
                        = false)
         (collectNew job id_now ts_now idx results).
Proof.
  revert idx; induction results as [|r results IH]; intros idx; cbn [collectNew];
    [constructor |].
  assert (Forall (fun a => exists i r0,
                     (r :: results) !! i = Some r0
                     /\ a = scanAnnotation (job_bookId job) (job_persona job) (idx + i)
                              (id_now (idx + i)%nat) (ts_now (idx + i)%nat) r0
                     /\ arrayIncludes (job_existingSelections job) (scan_textSelection r0)
                        = false)
                 (collectNew job id_now ts_now (S idx) results)) as Hrest.
  { eapply List.Forall_impl; [| exact (IH (S idx))]. cbn beta.
    intros a (i & r0 & Hi & -> & Hnew). exists (S i), r0.
    replace (idx + S i)%nat with (S idx + i)%nat by lia. auto. }
  destruct (arrayIncludes (job_existingSelections job) (scan_textSelection r)) eqn:E;
    cbn [negb]; [exact Hrest |].
  constructor; [| exact Hrest].
  exists 0%nat, r. rewrite Nat.add_0_r. auto.
Qed.

Section MoreControllerFacts.

Variable env : option string.

(** X13.  What a page scan leaves when it settles, in whatever state it
    settles: scanning is over, the annotations it adds stand before the ones
    there, at most one per result, and each of them belongs to the book that
    was open when the scan started and to the persona of that moment, is
    marked as the companion's own and autonomous, and carries no
    conversation; with nothing to add, only the scanning flag changes. *)
Theorem page_scan_adds_annotations_of_the_scanned_book
    (content : string) (p : Z) (s s1 s2 : App) (job : ScanJob)
    (results : list ScanResult) (id_now ts_now : nat -> Z) :
  handlePageChange env content p s = (s1, Some job) ->
  let s3 := pageScanSettled job results id_now ts_now s2 in
  exists added,
    annotations s3 = (added ++ annotations s2)%list
    /\ (length added <= length results)%nat
    /\ Forall (fun a => activeBookId s = Some (bookId a)
                        /\ personaId a = Some (persona_id (persona s))
                        /\ author a = ai /\ isAutonomous a = Some true
                        /\ chatHistory a = None
                        /\ ~ In (textSelection a) (map textSelection (bookAnnotations s)))
              added
    /\ isAutoScanning s3 = false
    /\ library s3 = library s2 /\ activeBookId s3 = activeBookId s2
    /\ persona s3 = persona s2
    /\ (added = [] -> s3 = setIsAutoScanning false s2).
Proof.
  intros Hstart s3.
  destruct (handlePageChange_started env _ _ _ _ _ Hstart) as (_ & Hsel & Hid & _).
  assert (job_persona job = persona s) as Hp.
  { revert Hstart. unfold handlePageChange.
    destruct (activeId (setProgress p s)); [| discriminate].
    destruct (_ || _ || _); [discriminate |].
    destruct (negb _); [discriminate |]. now intros [= _ <-]. }
  exists (newAnnos job id_now ts_now results).
  split; [apply pageScanSettled_annotations |].
  rewrite newAnnos_collect.
  split; [| split].
  - rewrite <- (length_map textSelection), collectNew_anchors.
    rewrite <- (length_map scan_textSelection results). apply filter_length_le.
  - eapply List.Forall_impl; [| apply collectNew_built]. cbn beta.
    intros a (i & r & _ & -> & Hnew). cbn [scanAnnotation bookId personaId author
      isAutonomous chatHistory textSelection].
    rewrite Hid, Hp. repeat (split; [reflexivity |]).
    intros Hin. rewrite <- Hsel in Hin. apply arrayIncludes_In in Hin. congruence.
  - subst s3. unfold pageScanSettled. cbv zeta. rewrite newAnnos_collect.
    destruct (collectNew job id_now ts_now 0 results) as [|a l]; cbn [length Nat.ltb Nat.leb];
      repeat split; try reflexivity. discriminate.
Qed.

End MoreControllerFacts.

Lemma page_scan_adds_witness :
  let s := Sample.reader "k" [ Sample.note "X" 2; Sample.note "Y" 1 ] in
  let s1 := fst (handlePageChange None "A" 1 s) in
  let s3 := pageScanSettled Sample.scanOfA [ Sample.found "X"; Sample.found "Z" ]
              Sample.clock Sample.clock s1 in
  handlePageChange None "A" 1 s = (s1, Some Sample.scanOfA)
  /\ isAutoScanning s1 = true /\ isAutoScanning s3 = false
  /\ exists added,
       annotations s3 = (added ++ annotations s1)%list
       /\ Forall (fun a => bookId a = "walden" /\ author a = ai) added.
Proof.
  intros s s1 s3.
  assert (handlePageChange None "A" 1 s = (s1, Some Sample.scanOfA)) as E
    by (vm_compute; reflexivity).
  split; [exact E |]. split; [reflexivity |].
  destruct (page_scan_adds_annotations_of_the_scanned_book None "A" 1 s s1 s1
              Sample.scanOfA [ Sample.found "X"; Sample.found "Z" ] Sample.clock
              Sample.clock E) as (added & Hann & _ & Hall & Hflag & _).
  split; [exact Hflag |]. exists added. split; [exact Hann |].
  eapply List.Forall_impl; [| exact Hall]. cbn beta.
  intros a (Hb & _ & Ha & _). split; [| exact Ha].
  change (activeBookId s) with (Some "walden") in Hb. congruence.
Defined.

(** ** One scan at a time *)

Section SessionFacts.

Variable env : option string.

Lemma isAutoScanning_handlePageChange (content : string) (p : Z) (s s1 : App) :
  handlePageChange env content p s = (s1, None) -> isAutoScanning s1 = isAutoScanning s.
Proof.
  unfold handlePageChange.
  destruct (activeId (setProgress p s)); [| now intros [= <-]].
  destruct (_ || _ || _); [now intros [= <-] |].
  destruct (negb _); [now intros [= <-] | discriminate].
Qed.

Lemma isAutoScanning_handleDeleteBook (id : string) (s : App) :
  isAutoScanning (handleDeleteBook id s) = isAutoScanning s.
Proof. unfold handleDeleteBook. cbv zeta. now destruct (sameId _ _). Qed.

(** What one event does to the scan in flight. *)
Lemma step_flagged (ss ss1 : Session) (e : Event) (c : option string) :
  flagged ss -> step env ss e = (ss1, c) ->
  flagged ss1
  /\ match c with
     | Some _ => inFlight ss = None /\ started (inFlight ss1) = true
     | None =>
         if isSettle e then inFlight ss1 = None else inFlight ss1 = inFlight ss
     end.
Proof.
  unfold flagged. intros Hflag.
  destruct e as [content p | results id_now ts_now | id | cfg | q | a | id]; cbn [step isSettle].
  - destruct (handlePageChange env content p (app ss)) as [s1 [job |]] eqn:E;
      intros [= <- <-]; cbn [app inFlight started].
    + destruct (handlePageChange_started env _ _ _ _ _ E) as (_ & _ & _ & Hidle & _ & _ & Hbusy & _).
      rewrite Hidle in Hflag. split; [exact Hbusy |].
      split; [| reflexivity]. destruct (inFlight ss); [discriminate | reflexivity].
    + apply isAutoScanning_handlePageChange in E. rewrite E. auto.
  - destruct (inFlight ss) as [job |] eqn:Ej; intros [= <- <-]; cbn [app inFlight started].
    + split; [| reflexivity]. unfold pageScanSettled. cbv zeta. reflexivity.
    + rewrite Ej. auto.
  - intros [= <- <-]. auto.
  - intros [= <- <-]. cbn [app inFlight]. split; [| reflexivity]. now destruct (negb _).
  - intros [= <- <-]. auto.
  - intros [= <- <-]. auto.
  - intros [= <- <-]. cbn [app inFlight]. now rewrite isAutoScanning_handleDeleteBook.
Qed.

(** X14.  One scan at a time.  In a session whose scanning flag says whether
    a scan is in flight, it keeps saying so after every sequence of events,
    a page change during a scan starts none, and the scans started are at
    most one more than the scans settled (no more than them when a scan was
    in flight at the start). *)
Theorem one_scan_at_a_time (ss : Session) (events : list Event) :
  flagged ss ->
  flagged (fst (run env ss events))
  /\ (length (snd (run env ss events))
      <= length (List.filter isSettle events)
         + (if started (inFlight ss) then 0 else 1))%nat
  /\ (forall content p,
      started (inFlight ss) = true -> snd (step env ss (PageChanged content p)) = None).
Proof.
  intros Hflag. split; [| split].
  - revert ss Hflag; induction events as [|e events IH]; intros ss Hflag; cbn [run];
      [exact Hflag |].
    destruct (step env ss e) as [ss1 c] eqn:E.
    destruct (step_flagged _ _ _ _ Hflag E) as [Hflag1 _].
    specialize (IH ss1 Hflag1). now destruct (run env ss1 events).
  - revert ss Hflag; induction events as [|e events IH]; intros ss Hflag; cbn [run];
      [cbn; lia |].
    destruct (step env ss e) as [ss1 c] eqn:E.
    destruct (step_flagged _ _ _ _ Hflag E) as [Hflag1 Hc].
    specialize (IH ss1 Hflag1). destruct (run env ss1 events) as [ss2 later].
    cbn [snd] in *. cbn [List.filter]. destruct c as [content |].
    + destruct Hc as [Hidle Hbusy]. rewrite Hidle, Hbusy in *. cbn [started].
      cbn [List.app length]. destruct (isSettle e); cbn [length]; lia.
    + cbn [List.app]. destruct (isSettle e); cbn [length].
      * rewrite Hc in IH. cbn [started] in IH. destruct (started (inFlight ss)); lia.
      * now rewrite Hc in IH.
  - intros content p Hbusy. unfold flagged in Hflag. rewrite Hbusy in Hflag.
    cbn [step]. destruct (handlePageChange env content p (app ss)) as [s1 [job |]] eqn:E;
      [| reflexivity].
    destruct (handlePageChange_started env _ _ _ _ _ E) as (_ & _ & _ & Hidle & _).
    congruence.
Qed.

End SessionFacts.

Lemma one_scan_at_a_time_witness :
  let ss := {| app := Sample.reader "k" []; inFlight := None |} in
  let events := [ PageChanged "A" 1; PageChanged "B" 2;
                  ScanSettled [] Sample.clock Sample.clock; PageChanged "B" 3 ] in
  flagged ss
  /\ snd (run None ss events) = [ "A"; "B" ]
  /\ (length (snd (run None ss events)) <= 1 + 1)%nat.
Proof.
  intros ss events.
  assert (flagged ss) as H by reflexivity.
  split; [exact H |]. split; [vm_compute; reflexivity |].
  exact (proj1 (proj2 (one_scan_at_a_time None ss events H))).
Defined.

(** ** Deleting a book *)

Lemma filter_filter_same {A : Type} (p : A -> bool) (l : list A) :
  List.filter p (List.filter p l) = List.filter p l.
Proof.
  induction l as [|x l IH]; [reflexivity |]. cbn [List.filter].
  destruct (p x) eqn:E; cbn [List.filter]; [rewrite E; now f_equal | exact IH].
Qed.

Lemma filter_filter_implied {A : Type} (p q : A -> bool) (l : list A) :
  (forall x, p x = true -> q x = true) ->
  List.filter p (List.filter q l) = List.filter p l.
Proof.
  intros Himp. induction l as [|x l IH]; [reflexivity |]. cbn [List.filter].
  destruct (q x) eqn:Eq; cbn [List.filter].
  - now rewrite IH.
  - destruct (p x) eqn:Ep; [| exact IH]. apply Himp in Ep. congruence.
Qed.

Lemma find_filter_implied {A : Type} (p q : A -> bool) (l : list A) :
  (forall x, p x = true -> q x = true) ->
  find p (List.filter q l) = find p l.
Proof.
  intros Himp. induction l as [|x l IH]; [reflexivity |]. cbn [List.filter find].
  destruct (q x) eqn:Eq; cbn [find].
  - now rewrite IH.
  - destruct (p x) eqn:Ep; [| exact IH]. apply Himp in Ep. congruence.
Qed.

Lemma handleDeleteBook_parts (id : string) (s : App) :
  (forall b, In b (library (handleDeleteBook id s)) -> book_id b <> id)
  /\ (forall a, In a (annotations (handleDeleteBook id s)) -> bookId a <> id).
Proof.
  unfold handleDeleteBook. cbv zeta. cbn [activeBookId setLibrary setAnnotations].
  split.
  - intros b. destruct (sameId id (activeBookId s)); cbn [library showToast setAppState
      setActiveBookId setAnnotations setLibrary]; rewrite filter_In, negb_true_iff;
      now destruct (String.eqb_spec (book_id b) id).
  - intros a. destruct (sameId id (activeBookId s)); cbn [annotations showToast setAppState
      setActiveBookId setAnnotations setLibrary]; rewrite filter_In, negb_true_iff;
      now destruct (String.eqb_spec (bookId a) id).
Qed.

(** The state [handleDeleteBook] leaves, field by field. *)
Lemma handleDeleteBook_record (id : string) (s : App) :
  handleDeleteBook id s
  = {| appState := if sameId id (activeBookId s) then library_view else appState s;
       activeBookId := if sameId id (activeBookId s) then None else activeBookId s;
       library := List.filter (fun b => negb (String.eqb (book_id b) id)) (library s);
       customPersonas := customPersonas s; persona := persona s;
       engineConfig := engineConfig s;
       annotations := List.filter (fun a => negb (String.eqb (bookId a) id)) (annotations s);
       isAutoScanning := isAutoScanning s; isWritingStudioOpen := isWritingStudioOpen s;
       progress := progress s; toast := Some ("Book deleted", info);
       lastScannedPageRef := lastScannedPageRef s;
       lastConsolidatedCountRef := lastConsolidatedCountRef s |}.
Proof.
  unfold handleDeleteBook. cbv zeta. cbn [activeBookId setLibrary setAnnotations].
  now destruct (sameId id (activeBookId s)).
Qed.

Lemma handleDeleteBook_again (id : string) (s : App) :
  handleDeleteBook id (handleDeleteBook id s) = handleDeleteBook id s.
Proof.
  rewrite (handleDeleteBook_record id (handleDeleteBook id s)).
  rewrite !handleDeleteBook_record.
  cbn [appState activeBookId library customPersonas persona engineConfig annotations
       isAutoScanning isWritingStudioOpen progress toast lastScannedPageRef
       lastConsolidatedCountRef].
  rewrite !filter_filter_same.
  assert (sameId id (if sameId id (activeBookId s) then None else activeBookId s) = false)
    as -> by (destruct (sameId id (activeBookId s)) eqn:E; [reflexivity | exact E]).
  reflexivity.
Qed.

(** X15.  Deleting a book removes it from the library together with exactly
    its annotations; the book that is open stays open with its annotations
    unless it is the deleted one, in which case the reader returns to the
    library with no book open; deleting the same book again changes
    nothing. *)
Theorem handleDeleteBook_removes_book_and_annotations (id : string) (s : App) :
  let s1 := handleDeleteBook id s in
  (forall b, In b (library s1) <-> In b (library s) /\ book_id b <> id)
  /\ (forall a, In a (annotations s1) <-> In a (annotations s) /\ bookId a <> id)
  /\ (activeBookId s = Some id ->
      activeBookId s1 = None /\ appState s1 = library_view
      /\ activeBook s1 = None /\ bookAnnotations s1 = [])
  /\ (activeBookId s <> Some id ->
      activeBookId s1 = activeBookId s /\ appState s1 = appState s
      /\ activeBook s1 = activeBook s /\ bookAnnotations s1 = bookAnnotations s)
  /\ handleDeleteBook id s1 = s1.
Proof.
  intros s1. subst s1.
  split; [| split; [| split; [| split; [| apply handleDeleteBook_again]]]];
    unfold handleDeleteBook; cbv zeta; cbn [activeBookId setLibrary setAnnotations].
  - intros b. destruct (sameId id (activeBookId s)); cbn [library showToast setAppState
      setActiveBookId setAnnotations setLibrary]; rewrite filter_In, negb_true_iff;
      now destruct (String.eqb_spec (book_id b) id).
  - intros a. destruct (sameId id (activeBookId s)); cbn [annotations showToast setAppState
      setActiveBookId setAnnotations setLibrary]; rewrite filter_In, negb_true_iff;
      now destruct (String.eqb_spec (bookId a) id).
  - intros Hid. rewrite Hid. cbn [sameId]. rewrite String.eqb_refl.
    repeat split; try reflexivity.
    + unfold activeBook. cbn [activeBookId showToast setAppState setActiveBookId library
        setAnnotations setLibrary sameId]. now induction (List.filter _ _).
    + unfold bookAnnotations. cbn [activeBookId showToast setAppState setActiveBookId
        annotations setAnnotations setLibrary sameId].
      now induction (List.filter (fun a => negb _) _).
  - intros Hid.
    assert (sameId id (activeBookId s) = false) as Hsame.
    { unfold sameId. destruct (activeBookId s) as [x |]; [| reflexivity].
      destruct (String.eqb_spec id x); congruence. }
    rewrite Hsame. repeat split; try reflexivity.
    + unfold activeBook. cbn [activeBookId showToast library setAnnotations setLibrary].
      apply find_filter_implied. intros b Hb. apply negb_true_iff.
      destruct (String.eqb_spec (book_id b) id) as [E | _]; [| reflexivity].
      rewrite E in Hb. congruence.
    + unfold bookAnnotations. cbn [activeBookId showToast annotations setAnnotations
        setLibrary]. f_equal.
      apply filter_filter_implied. intros a Ha. apply negb_true_iff.
      destruct (String.eqb_spec (bookId a) id) as [E | _]; [| reflexivity].
      rewrite E in Ha. congruence.
Qed.

(** ** A scan outlives its book *)

Section OrphanFacts.

Variable env : option string.

(** X16.  Deleting a book does not stop the scan of one of its pages: when
    the scan settles with a result anchored at a new place, an annotation of
    the deleted book is stored again, for a book the library no longer
    has. *)
Theorem scan_of_a_deleted_book_still_adds_annotations
    (ss : Session) (job : ScanJob) (r : ScanResult) (id_now ts_now : nat -> Z) :
  inFlight ss = Some job ->
  arrayIncludes (job_existingSelections job) (scan_textSelection r) = false ->
  let deleted := fst (step env ss (BookDeleted (job_bookId job))) in
  let settled := fst (step env deleted (ScanSettled [ r ] id_now ts_now)) in
  (forall a, In a (annotations (app deleted)) -> bookId a <> job_bookId job)
  /\ (forall b, In b (library (app settled)) -> book_id b <> job_bookId job)
  /\ annotations (app settled)
     = scanAnnotation (job_bookId job) (job_persona job) 0 (id_now 0%nat) (ts_now 0%nat) r
       :: annotations (app deleted)
  /\ inFlight settled = None.
Proof.
  intros Hjob Hnew deleted settled.
  assert (app deleted = handleDeleteBook (job_bookId job) (app ss)) as Hd by reflexivity.
  assert (inFlight deleted = Some job) as Hdj by exact Hjob.
  assert (settled = {| app := pageScanSettled job [ r ] id_now ts_now (app deleted);
                       inFlight := None |}) as Hs.
  { subst settled. cbn [step]. now rewrite Hdj. }
  pose proof (handleDeleteBook_parts (job_bookId job) (app ss)) as [Hlib Hann].
  split; [| split; [| split]].
  - intros a Ha. rewrite Hd in Ha. now apply Hann in Ha.
  - intros b Hb. rewrite Hs in Hb. cbn [app] in Hb.
    assert (library (pageScanSettled job [ r ] id_now ts_now (app deleted))
            = library (app deleted)) as E
      by (unfold pageScanSettled; cbv zeta; now destruct (0 <? length _)%nat).
    rewrite E, Hd in Hb. now apply Hlib in Hb.
  - rewrite Hs. cbn [app]. rewrite pageScanSettled_annotations. unfold newAnnos.
    cbn [length Nat.ltb Nat.leb collectNew]. now rewrite Hnew.
  - now rewrite Hs.
Qed.

End OrphanFacts.

Lemma scan_of_a_deleted_book_witness :
  let ss := {| app := setIsAutoScanning true (Sample.reader "k" [ Sample.note "X" 2 ]);
               inFlight := Some Sample.scanOfA |} in
  let settled :=
    fst (run None ss [ BookDeleted "walden";
                       ScanSettled [ Sample.found "Z" ] Sample.clock Sample.clock ]) in
  library (app settled) = []
  /\ map bookId (annotations (app settled)) = [ "walden" ].
Proof.
  intros ss settled. split; [reflexivity |].
  pose proof (scan_of_a_deleted_book_still_adds_annotations None ss Sample.scanOfA
                (Sample.found "Z") Sample.clock Sample.clock eq_refl eq_refl)
    as (_ & _ & H & _).
  change (app settled)
    with (app (fst (step None (fst (step None ss (BookDeleted (job_bookId Sample.scanOfA))))
                      (ScanSettled [ Sample.found "Z" ] Sample.clock Sample.clock)))).
  rewrite H. reflexivity.
Defined.

(** ** Saving a work from the writing studio *)

Lemma firstLine_prefix (s : string) : Js.startsWith (Js.firstLine s) s = true.
Proof.
  induction s as [|c s IH]; [reflexivity |]. cbn [Js.firstLine].
  destruct (Ascii.eqb c (ascii_of_nat 10)); [reflexivity |].
  cbn [Js.startsWith]. now rewrite Ascii.eqb_refl.
Qed.

Lemma firstLine_one_line (s : string) : Js.includes Js.nl (Js.firstLine s) = false.
Proof.
  induction s as [|c s IH]; [reflexivity |]. cbn [Js.firstLine].
  destruct (Ascii.eqb c (ascii_of_nat 10)) eqn:E; [reflexivity |].
  cbn [Js.includes Js.startsWith Js.nl]. rewrite Ascii.eqb_sym, E. exact IH.
Qed.

Lemma startsWith_refl (s : string) : Js.startsWith s s = true.
Proof. rewrite <- (append_nil_r s) at 2. apply startsWith_append. Qed.

Section SaveFacts.

Variable env : option string.

(** X17.  Saving a work opens it in the reader and closes the studio, and
    leaves the annotations alone.  A work without an id (none, or the empty
    one) is added at the head of the library as an original work with no
    reading time, its id read from the clock.  A work with an id is synced in
    place: the library keeps its books, their ids and their order, the books
    of that id take the new title, text, author, category and writing data
    and keep everything else, and when no book has that id nothing is stored
    and the reader opens on a book the library does not have.  With an API
    key, and only then, either way an initial scan is scheduled, of the first
    line of the text, or of the whole text when the first line is empty. *)
Theorem handleSaveCreatedBook_new_and_synced_works
    (title content author category : string) (existingId : option string)
    (metadata : option WritingMetadata) (now added_now : Z) (pick : nat) (s : App) :
  let saved := handleSaveCreatedBook env title content author category existingId metadata
                 now added_now pick s in
  let s1 := fst saved in
  (exists id, activeBookId s1 = Some id
              /\ (forall job, snd saved = Some job -> init_bookId job = id)
              /\ match existingId with
                 | Some i => if String.eqb i "" then id = Js.ofZ now else id = i
                 | None => id = Js.ofZ now
                 end)
  /\ appState s1 = reading /\ isWritingStudioOpen s1 = false
  /\ annotations s1 = annotations s
  /\ started (snd saved) = hasApiKey env (engineConfig s)
  /\ (forall job, snd saved = Some job ->
      init_persona job = persona s /\ init_config job = engineConfig s
      /\ Js.startsWith (init_firstPara job) content = true
      /\ (Js.firstLine content <> "" -> init_firstPara job = Js.firstLine content)
      /\ (Js.firstLine content = "" -> init_firstPara job = content))
  /\ (existingId = None \/ existingId = Some "" ->
      exists book,
        library s1 = book :: library s
        /\ book_id book = Js.ofZ now /\ isOriginal book = Some true
        /\ timeSpent book = 0%Z /\ rating book = None
        /\ book_title book = title /\ book_content book = content)
  /\ (forall i, existingId = Some i -> i <> "" ->
      map book_id (library s1) = map book_id (library s)
      /\ (forall n b, library s !! n = Some b -> book_id b <> i -> library s1 !! n = Some b)
      /\ (forall n b, library s !! n = Some b -> book_id b = i ->
          exists b1,
            library s1 !! n = Some b1
            /\ book_title b1 = title /\ book_content b1 = content
            /\ book_author b1 = Some author /\ book_category b1 = category
            /\ writingMetadata b1 = metadata
            /\ coverColor b1 = coverColor b /\ addedAt b1 = addedAt b
            /\ timeSpent b1 = timeSpent b /\ rating b1 = rating b
            /\ userReview b1 = userReview b /\ aiReview b1 = aiReview b
            /\ isOriginal b1 = isOriginal b)
      /\ (~ In i (map book_id (library s)) -> library s1 = library s /\ activeBook s1 = None)).
Proof.
  intros saved s1.
  assert (forall i, i <> "" -> Js.truthy i = true) as Htruthy
    by (intros i Hi; unfold Js.truthy; now destruct (String.eqb_spec i "")).
  split; [| split; [| split; [| split; [| split; [| split; [| split]]]]]].
  - subst s1 saved. unfold handleSaveCreatedBook. cbv zeta. cbn [fst snd activeBookId
      setAppState setActiveBookId]. eexists. split; [reflexivity |]. split.
    + intros job. destruct (hasApiKey env (engineConfig s)); [| discriminate].
      now intros [= <-].
    + destruct existingId as [i |]; [| reflexivity]. unfold Js.truthy.
      now destruct (String.eqb i "").
  - reflexivity.
  - reflexivity.
  - subst s1 saved. unfold handleSaveCreatedBook. cbv zeta. cbn [fst].
    destruct existingId as [i |]; [destruct (Js.truthy i) |]; reflexivity.
  - subst saved. unfold handleSaveCreatedBook. cbv zeta. cbn [snd].
    now destruct (hasApiKey env (engineConfig s)).
  - intros job. subst saved. unfold handleSaveCreatedBook. cbv zeta. cbn [snd].
    destruct (hasApiKey env (engineConfig s)); [| discriminate]. intros [= <-].
    cbn [init_persona init_config init_firstPara]. split; [reflexivity |].
    split; [reflexivity |]. unfold Js.orElse, Js.truthy.
    destruct (String.eqb_spec (Js.firstLine content) "") as [E | E]; cbn [negb].
    + split; [apply startsWith_refl |]. split; [contradiction | reflexivity].
    + split; [apply firstLine_prefix |]. split; [reflexivity | contradiction].
  - intros Hnew. subst s1 saved. unfold handleSaveCreatedBook. cbv zeta. cbn [fst].
    destruct Hnew as [-> | ->]; cbn [Js.truthy String.eqb negb library setAppState
      setActiveBookId setIsWritingStudioOpen showToast setLibrary];
      eexists; (split; [reflexivity |]); repeat split; reflexivity.
  - intros i -> Hi. subst s1 saved. unfold handleSaveCreatedBook. cbv zeta. cbn [fst].
    rewrite (Htruthy i Hi). cbn [library setAppState setActiveBookId
      setIsWritingStudioOpen showToast setLibrary].
    set (sync := fun b : Book => if String.eqb (book_id b) i then _ else b).
    assert (forall b, book_id (sync b) = book_id b) as Hid
      by (intros b; unfold sync; now destruct (String.eqb (book_id b) i)).
    split; [| split; [| split]].
    + rewrite List.map_map. apply map_ext. exact Hid.
    + intros n b Hn Hb. change (map sync (library s)) with (sync <$> library s).
      rewrite list_lookup_fmap, Hn. cbn [fmap option_fmap option_map]. f_equal.
      unfold sync. now destruct (String.eqb_spec (book_id b) i).
    + intros n b Hn Hb. change (map sync (library s)) with (sync <$> library s).
      rewrite list_lookup_fmap, Hn. cbn [fmap option_fmap option_map].
      eexists. split; [reflexivity |]. unfold sync. rewrite Hb, String.eqb_refl.
      repeat split; reflexivity.
    + intros Hnot.
      assert (map sync (library s) = library s) as Hsame.
      { clear -Hnot. induction (library s) as [|b l IH]; [reflexivity |].
        cbn [map book_id In] in *. rewrite IH by tauto. f_equal. unfold sync.
        destruct (String.eqb_spec (book_id b) i); [tauto | reflexivity]. }
      split; [exact Hsame |].
      unfold activeBook. cbn [library activeBookId setAppState setActiveBookId
        setIsWritingStudioOpen showToast setLibrary sameId]. rewrite Hsame.
      clear -Hnot. induction (library s) as [|b l IH]; [reflexivity |].
      cbn [map In find] in *. destruct (String.eqb_spec (book_id b) i); [tauto |].
      apply IH. tauto.
Qed.

End SaveFacts.

(** ** What a consolidation leaves *)

Section ConsolidationFacts.

Variable env : option string.
Variable fetch : Request -> result Response.
Variable parse : string -> option json.
Variable stringify : json -> string.

(** X18.  The memory a consolidation leaves.  When the provider answers the
    consolidation with a text, the trimmed text becomes the long-term memory
    of the persona the consolidation started with, which is then the active
    persona whatever persona was active in between, and of the custom
    personas of that id, the others staying as they are.  A text that is
    blank therefore erases the memory: the next system prompt has no memory
    block.  A text that is not blank is quoted in the next system prompt.
    When the consolidation fails nothing changes. *)
Theorem consolidation_reply_becomes_the_memory (job : MemoryJob) (s : App) :
  let reply :=
    callAI env fetch parse stringify
      (userTurn (memoryPrompt (mem_persona job) (mem_bookTitle job) (mem_annotations job)))
      (memoryConfig (mem_config job)) (Some ARCHIVIST) None in
  let outcome :=
    consolidateMemory env fetch parse stringify (mem_persona job) (mem_bookTitle job)
      (mem_annotations job) (mem_config job) in
  let s1 := autoMemorySettled job outcome s in
  (forall t, reply = Ok (JStr t) ->
     outcome = Ok (Js.trim t)
     /\ longTermMemory (persona s1) = Some (Js.trim t)
     /\ persona_id (persona s1) = persona_id (mem_persona job)
     /\ systemInstruction (persona s1) = systemInstruction (mem_persona job)
     /\ (Js.trim t = "" ->
         buildSystemPrompt (persona s1)
         = systemInstruction (mem_persona job) ++ Js.nl ++ THOUGHT_ONLY_CONSTRAINT)
     /\ (Js.trim t <> "" ->
         Js.includes (Js.dq ++ Js.trim t ++ Js.dq) (buildSystemPrompt (persona s1)) = true)
     /\ map persona_id (customPersonas s1) = map persona_id (customPersonas s)
     /\ (forall n q, customPersonas s !! n = Some q ->
         if String.eqb (persona_id q) (persona_id (mem_persona job))
         then customPersonas s1 !! n = Some (persona s1)
         else customPersonas s1 !! n = Some q)
     /\ annotations s1 = annotations s
     /\ lastConsolidatedCountRef s1 = lastConsolidatedCountRef s)
  /\ (forall e, reply = Throw e -> outcome = Throw e /\ s1 = s)
  /\ (forall v, reply = Ok v -> (forall t, v <> JStr t) ->
      outcome = Throw TypeError /\ s1 = s).
Proof.
  intros reply outcome s1.
  assert (outcome = let! t := reply in onString t Js.trim) as Hout by reflexivity.
  split; [| split].
  - intros t Ht. rewrite Ht in Hout. cbn [bind onString] in Hout.
    subst s1. rewrite Hout. clear Hout. cbn [autoMemorySettled]. cbv zeta.
    cbn [persona_id]. rewrite String.eqb_refl.
    cbn [persona customPersonas annotations lastConsolidatedCountRef showToast
         setCustomPersonas setPersona longTermMemory persona_id systemInstruction].
    split; [reflexivity |]. split; [reflexivity |]. split; [reflexivity |].
    split; [reflexivity |]. split; [| split; [| split; [| split; [| split]]]].
    + intros E. rewrite buildSystemPrompt_no_memory; [reflexivity |].
      cbn [longTermMemory]. right. now rewrite E.
    + intros Hne. now apply buildSystemPrompt_quotes_memory.
    + rewrite List.map_map. apply map_ext. intros q.
      destruct (String.eqb_spec (persona_id q) (persona_id (mem_persona job)));
        [symmetry; assumption | reflexivity].
    + intros n q Hn.
      match goal with
      | |- context [map ?f (customPersonas s)] =>
          change (map f (customPersonas s)) with (f <$> customPersonas s)
      end.
      rewrite list_lookup_fmap, Hn. cbn [fmap option_fmap option_map].
      now destruct (String.eqb (persona_id q) (persona_id (mem_persona job))).
    + reflexivity.
    + reflexivity.
  - intros e He. rewrite He in Hout. cbn [bind] in Hout. subst s1. now rewrite Hout.
  - intros v Hv Hnot. rewrite Hv in Hout. cbn [bind] in Hout.
    assert (outcome = Throw TypeError) as E.
    { rewrite Hout. destruct v; try reflexivity. now destruct (Hnot s0). }
    subst s1. now rewrite E.
Qed.

End ConsolidationFacts.

(** ** The generation configuration of a Gemini request *)

(** X19.  A Gemini request carries the configured temperature and every
    entry of the override; an entry of the override named [temperature]
    replaces the configured one, so that what the request holds under a name
    is what the override holds under it and, for names the override has not,
    the configured temperature under [temperature] and nothing else.  The
    configuration has at most one entry more than the override.  Its first
    key is [temperature] when no key of the override is an array index, and
    an array index as soon as the override has one. *)
Theorem gemini_override_replaces_configured_values
    (env : option string) (contents : list Content) (config : EngineConfig)
    (sys : option string) (fields : list (string * json)) :
  List.NoDup (map fst fields) ->
  exists b,
    req_body (geminiRequest env contents config sys (Some fields)) = BodyGemini b
    /\ (forall k,
        Value.getField k (gem_generationConfig b)
        = match Value.getField k fields with
          | Some v => Some v
          | None => if String.eqb k "temperature"
                    then Some (JNum (temperature config)) else None
          end)
    /\ (List.Forall (fun k => Value.arrayIndex k = None) (map fst fields) ->
        head (map fst (gem_generationConfig b)) = Some "temperature")
    /\ (forall k, In k (map fst fields) -> Value.arrayIndex k <> None ->
        exists k0, head (map fst (gem_generationConfig b)) = Some k0
                   /\ Value.arrayIndex k0 <> None)
    /\ (length (gem_generationConfig b) <= 1 + length fields)%nat.
Proof.
  intros Hnd. eexists. split; [reflexivity |].
  cbn [gem_generationConfig].
  assert (forall k,
            Value.getField k
              (Value.spread [ ("temperature", JNum (temperature config)) ] (Some fields))
            = match Value.getField k fields with
              | Some v => Some v
              | None => if String.eqb k "temperature"
                        then Some (JNum (temperature config)) else None
              end) as Hget.
  { intros k. rewrite getField_spread, getField_rev_unique by exact Hnd. reflexivity. }
  split; [exact Hget | split; [| split]].
  - unfold Value.spread.
    assert (forall base, head (map fst base) = Some "temperature" ->
              List.Forall (fun k => Value.arrayIndex k = None) (map fst fields) ->
              head (map fst (fold_left (fun acc kv => Value.setField (fst kv) (snd kv) acc)
                               fields base)) = Some "temperature") as H.
    { clear. induction fields as [|[k v] fields IH]; intros base Hb Hall; [exact Hb |].
      cbn [map fst] in Hall. apply List.Forall_cons_iff in Hall as [Hk Hall].
      cbn [fold_left fst snd]. apply IH; [| exact Hall].
      now apply head_setField_plain. }
    now apply H.
  - intros k Hin Hk.
    assert (Value.indexFirst
              (map fst (Value.spread [ ("temperature", JNum (temperature config)) ]
                          (Some fields))) = true) as Hord.
    { unfold Value.spread.
      assert (forall base, Value.indexFirst (map fst base) = true ->
                Value.indexFirst
                  (map fst (fold_left (fun acc kv => Value.setField (fst kv) (snd kv) acc)
                              fields base)) = true) as H.
      { clear. induction fields as [|[k v] fields IH]; intros base Hb; [exact Hb |].
        cbn [fold_left fst snd]. apply IH. now apply indexFirst_setField. }
      apply H. reflexivity. }
    destruct (In_getField k fields Hin) as [v Hv].
    assert (In k (map fst (Value.spread [ ("temperature", JNum (temperature config)) ]
                              (Some fields)))) as Hin'.
    { apply (getField_In k v). now rewrite Hget, Hv. }
    assert (Value.isIndex k = true) as Hi.
    { unfold Value.isIndex. now destruct (Value.arrayIndex k). }
    destruct (indexFirst_head k _ Hord Hin' Hi) as (k0 & Hhead & H0).
    exists k0. split; [exact Hhead |].
    unfold Value.isIndex in H0. now destruct (Value.arrayIndex k0).
  - unfold Value.spread.
    assert (forall base,
              (length (fold_left (fun acc kv => Value.setField (fst kv) (snd kv) acc)
                         fields base) <= length base + length fields)%nat) as H.
    { clear. induction fields as [|[k v] fields IH]; intros base; cbn [fold_left fst snd length];
        [lia |].
      specialize (IH (Value.setField k v base)).
      pose proof (length_setField k v base). lia. }
    apply H.
Qed.

Lemma gemini_override_witness :
  (exists b,
    req_body (geminiRequest None (userTurn "Topic for: x") (Sample.config gemini "k" "") None
                TOPIC_OVERRIDE) = BodyGemini b
    /\ Value.getField "temperature" (gem_generationConfig b) = Some (JNum (3 # 10))
    /\ map fst (gem_generationConfig b) = [ "temperature" ])
  /\ (exists b,
    req_body (geminiRequest None (userTurn "Topic for: x") (Sample.config gemini "k" "") None
                (Some [ ("0", JNum 0); ("1", JNum 1); ("topK", JNum 40) ])) = BodyGemini b
    /\ Value.getField "0" (gem_generationConfig b) = Some (JNum 0)
    /\ map fst (gem_generationConfig b) = [ "0"; "1"; "temperature"; "topK" ]).
Proof.
  split.
  - assert (List.NoDup (map fst [ ("temperature", JNum (3 # 10)) ])) as Hnd
      by (repeat constructor; intros []).
    destruct (gemini_override_replaces_configured_values None (userTurn "Topic for: x")
                (Sample.config gemini "k" "") None [ ("temperature", JNum (3 # 10)) ] Hnd)
      as (b & Hb & Hget & _).
    exists b. split; [exact Hb |]. split; [rewrite Hget; reflexivity |].
    injection Hb as <-. reflexivity.
  - assert (List.NoDup (map fst [ ("0", JNum 0); ("1", JNum 1); ("topK", JNum 40) ])) as Hnd.
    { repeat constructor; cbn; intuition discriminate. }
    destruct (gemini_override_replaces_configured_values None (userTurn "Topic for: x")
                (Sample.config gemini "k" "") None
                [ ("0", JNum 0); ("1", JNum 1); ("topK", JNum 40) ] Hnd)
      as (b & Hb & Hget & _).
    exists b. split; [exact Hb |]. split; [rewrite Hget; reflexivity |].
    injection Hb as <-. vm_compute. reflexivity.
Defined.

(* ================================================================== *)
(** * Annotating a selection *)
(* ================================================================== *)

Section AnnotatingFacts.

Variable env : option string.
Variable fetch : Request -> result Response.
Variable parse : string -> option json.
Variable stringify : json -> string.
Variable wording : exn -> string.

Lemma validateAPI_spec (w : Workspace) :
  snd (validateAPI env w) = hasApiKey env (engineConfig (core w))
  /\ (hasApiKey env (engineConfig (core w)) = true -> fst (validateAPI env w) = w)
  /\ (hasApiKey env (engineConfig (core w)) = false ->
      fst (validateAPI env w)
      = setIsSettingsModalOpen true
          (onCore (showToast "Please set your API Key in Settings first." error) w)).
Proof.
  unfold validateAPI, hasApiKey.
  destruct (Js.truthy (apiKey (engineConfig (core w)))); cbn [negb andb orb fst snd];
    [repeat split; congruence |].
  destruct env as [k |]; [destruct (Js.truthy k) |]; cbn [negb fst snd];
    repeat split; congruence.
Qed.

(** What a handler that starts captured. *)
Lemma annotation_by_hand_parts (note : string) (w : Workspace) :
  (forall selection job,
     snd (executeAIAnnotation env selection w) = Some job ->
     fst (executeAIAnnotation env selection w) = setIsProcessing true w
     /\ an_selection job = selection /\ activeBook (core w) = Some (an_book job)
     /\ an_persona job = persona (core w) /\ an_config job = engineConfig (core w))
  /\ (forall job,
      snd (handleUserAnnotate env note w) = Some job ->
      fst (handleUserAnnotate env note w) = setIsProcessing true (setPendingSelection None w)
      /\ pendingSelection w = Some (note_selection job) /\ note_text job = note
      /\ activeBook (core w) = Some (note_book job)
      /\ note_config job = engineConfig (core w)).
Proof.
  destruct (validateAPI_spec w) as (Hv & Hyes & _).
  unfold executeAIAnnotation, handleUserAnnotate.
  destruct (validateAPI env w) as [w1 valid]. cbn [fst snd] in Hv, Hyes. subst valid.
  split.
  - intros selection job. destruct (activeBook (core w)) as [book |]; [| discriminate].
    destruct (isProcessing w); [discriminate |].
    destruct (hasApiKey env (engineConfig (core w))); [| discriminate].
    rewrite (Hyes eq_refl). cbn [negb fst snd]. intros [= <-]. repeat split; reflexivity.
  - intros job. destruct (pendingSelection w) as [p |]; [| discriminate].
    destruct (activeBook (core w)) as [book |]; [| discriminate].
    destruct (negb (Js.truthy p) || isProcessing w); [discriminate |].
    destruct (hasApiKey env (engineConfig (core w))); [| discriminate].
    rewrite (Hyes eq_refl). cbn [negb fst snd]. intros [= <-]. repeat split; reflexivity.
Qed.

(** X20.  When an annotation by hand starts.  [executeAIAnnotation] starts
    its work exactly when a book is open, no other annotation is being made
    and an API key is set; [handleUserAnnotate] moreover needs a pending
    selection that is not empty.  Without a book, or while another
    annotation is being made, the handlers change nothing.  Without a key
    they start nothing, show an error and open the settings.  A handler that
    starts marks the workspace as processing, and [handleUserAnnotate] clears
    the pending selection.  [handleAIAnnotate], which starts
    [executeAIAnnotation] on the pending selection, clears that selection
    whether or not anything starts. *)
Theorem annotation_by_hand_starts_exactly_when (selection note : string) (w : Workspace) :
  let ready := started (activeBook (core w)) && negb (isProcessing w) in
  let key := hasApiKey env (engineConfig (core w)) in
  let pending := match pendingSelection w with
                 | Some p => Js.truthy p
                 | None => false
                 end in
  let byAI := executeAIAnnotation env selection w in
  let byUser := handleUserAnnotate env note w in
  let byMenu := handleAIAnnotate env w in
  (started (snd byMenu) = ready && pending && key
   /\ (pending = true -> pendingSelection (fst byMenu) = None)
   /\ (pending = false -> fst byMenu = w))
  /\ started (snd byAI) = ready && key
  /\ started (snd byUser) = ready && pending && key
  /\ (ready = false -> fst byAI = w /\ fst byUser = w)
  /\ (pending = false -> fst byUser = w)
  /\ (key = false ->
      let refused :=
        setIsSettingsModalOpen true
          (onCore (showToast "Please set your API Key in Settings first." error) w) in
      (ready = true -> fst byAI = refused)
      /\ (ready = true -> pending = true -> fst byUser = refused))
  /\ (forall job, snd byAI = Some job ->
      fst byAI = setIsProcessing true w
      /\ an_selection job = selection /\ activeBook (core w) = Some (an_book job)
      /\ an_persona job = persona (core w) /\ an_config job = engineConfig (core w))
  /\ (forall job, snd byUser = Some job ->
      fst byUser = setIsProcessing true (setPendingSelection None w)
      /\ pendingSelection w = Some (note_selection job) /\ note_text job = note
      /\ activeBook (core w) = Some (note_book job)
      /\ note_config job = engineConfig (core w)).
Proof.
  intros ready key pending byAI byUser byMenu.
  assert (started (snd byMenu) = ready && pending && key
          /\ (pending = true -> pendingSelection (fst byMenu) = None)
          /\ (pending = false -> fst byMenu = w)) as Hmenu.
  { subst ready key pending byMenu. unfold handleAIAnnotate.
    destruct (pendingSelection w) as [p |] eqn:Ep;
      [destruct (Js.truthy p) |];
      try (rewrite andb_false_r; cbn [andb fst snd started];
           repeat split; intros; try discriminate; reflexivity).
    rewrite andb_true_r. unfold executeAIAnnotation.
    destruct (validateAPI_spec (setPendingSelection None w)) as (Hv & Hyes & Hno).
    cbn [core setPendingSelection isProcessing] in *.
    destruct (validateAPI env (setPendingSelection None w)) as [w1 valid].
    cbn [fst snd] in Hv, Hyes, Hno. subst valid.
    destruct (activeBook (core w)); cbn [started andb];
      [| repeat split; intros; try discriminate; reflexivity].
    destruct (isProcessing w); cbn [negb andb];
      [repeat split; intros; try discriminate; reflexivity |].
    destruct (hasApiKey env (engineConfig (core w))).
    - rewrite (Hyes eq_refl). cbn [negb fst snd started].
      repeat split; intros; try discriminate; reflexivity.
    - rewrite (Hno eq_refl). cbn [negb fst snd started].
      repeat split; intros; try discriminate; reflexivity. }
  split; [exact Hmenu |]. clear Hmenu byMenu.
  destruct (validateAPI_spec w) as (Hv & Hyes & Hno). fold key in Hv, Hyes, Hno.
  subst byAI byUser ready pending. unfold executeAIAnnotation, handleUserAnnotate.
  destruct (validateAPI env w) as [w1 valid]. cbn [fst snd] in Hv, Hyes, Hno. subst valid.
  destruct (activeBook (core w)) as [book |]; cbn [started andb];
    [| destruct (pendingSelection w); repeat split; intros; try discriminate; reflexivity].
  destruct (isProcessing w); cbn [negb andb orb];
    [destruct (pendingSelection w) as [p |]; [rewrite orb_true_r |];
     repeat split; intros; try discriminate; reflexivity |].
  destruct key.
  - rewrite (Hyes eq_refl). cbn [negb fst snd started].
    destruct (pendingSelection w) as [p |]; [destruct (Js.truthy p) |];
      cbn [negb orb fst snd started andb];
      repeat split; intros; try discriminate; try reflexivity;
      match goal with
      | H : Some _ = Some _ |- _ => injection H as <-; reflexivity
      end.
  - rewrite (Hno eq_refl). cbn [negb fst snd started].
    destruct (pendingSelection w) as [p |]; [destruct (Js.truthy p) |];
      cbn [negb orb fst snd started andb];
      repeat split; intros; try discriminate; reflexivity.
Qed.

(** What the two calls return when they return. *)
Lemma generateAIAnnotation_nonempty (textSegment fullContext : string) (persona : Persona)
    (engine : EngineConfig) (isOriginal : bool) (comment : string) :
  generateAIAnnotation env fetch parse stringify textSegment fullContext persona engine
    isOriginal = Ok comment ->
  (1 <= String.length comment <= 100)%nat.
Proof.
  unfold generateAIAnnotation. intros H.
  exact (proj1 (capped_reply _) comment H).
Qed.

Lemma summarizeTopic_nonempty (textSelection comment : string) (engine : EngineConfig)
    (topic : string) :
  summarizeTopic env fetch parse stringify textSelection comment engine = Ok topic ->
  topic <> "" /\ Js.trim topic = topic.
Proof.
  unfold summarizeTopic.
  destruct (callAI _ _ _ _ _ _ _ _) as [[] |]; cbn [bind onString]; try discriminate.
  intros [= <-]. unfold Js.orElse, Js.truthy.
  destruct (String.eqb_spec (Js.trim s) "") as [E | E]; cbn [negb].
  - split; [discriminate | reflexivity].
  - split; [exact E | apply trim_idempotent].
Qed.

(** X21.  What [executeAIAnnotation] leaves.  The annotation is stored only
    when both calls succeed: the comment first, then its topic; when the
    topic cannot be had the comment is dropped.  A stored annotation stands
    first, is the one opened, carries a comment of 1 to 100 characters, a
    topic that is not empty and the comment as the first turn of its
    conversation.  The test for an empty comment never fails, since the
    comment call returns no empty text.  On any failure the annotations stay
    as they are and an error is shown.  Either way processing is over. *)
Theorem ai_annotation_needs_comment_and_topic
    (job : AnnotateJob) (tempId ts : Z) (w : Workspace) :
  let commentCall :=
    generateAIAnnotation env fetch parse stringify (an_selection job)
      (book_content (an_book job)) (an_persona job) (an_config job)
      (orFalse (isOriginal (an_book job))) in
  let topicCall comment :=
    summarizeTopic env fetch parse stringify (an_selection job) comment (an_config job) in
  let outcome := aiAnnotation env fetch parse stringify job tempId ts in
  let w1 := aiAnnotationSettled wording outcome w in
  isProcessing w1 = false
  /\ (forall c t,
      commentCall = Ok c -> topicCall c = Ok t ->
      exists a,
        outcome = Ok a
        /\ annotations (core w1) = a :: annotations (core w)
        /\ activeAnnotation w1 = Some a
        /\ toast (core w1) = Some ("AI Annotation created", success)
        /\ comment a = c /\ (1 <= String.length c <= 100)%nat
        /\ topic a = Some t /\ t <> ""
        /\ chatHistory a = Some [ {| turn_role := "model"; turn_text := c |} ]
        /\ author a = ai /\ bookId a = book_id (an_book job)
        /\ textSelection a = an_selection job
        /\ personaId a = Some (persona_id (an_persona job)))
  /\ (forall c e, commentCall = Ok c -> topicCall c = Throw e -> outcome = Throw e)
  /\ (forall e, commentCall = Throw e -> outcome = Throw e)
  /\ (forall e, outcome = Throw e ->
      annotations (core w1) = annotations (core w)
      /\ activeAnnotationId w1 = activeAnnotationId w
      /\ toast (core w1)
         = Some ("AI Error: " ++ Js.orElse (messageOf wording e) "Unknown error", error)).
Proof.
  intros commentCall topicCall outcome w1.
  assert (outcome = let! comment := commentCall in
                    let! topic := topicCall comment in
                    Ok {| anno_id := Js.ofZ tempId; bookId := book_id (an_book job);
                          textSelection := an_selection job; comment := comment;
                          author := ai; timestamp := ts;
                          personaId := Some (persona_id (an_persona job));
                          topic := Some topic; isAutonomous := None; position := (0, 0)%Z;
                          chatHistory :=
                            Some [ {| turn_role := "model"; turn_text := comment |} ] |})
    as Hout.
  { subst outcome. unfold aiAnnotation. fold commentCall.
    destruct commentCall as [comment |] eqn:E; [| reflexivity]. cbn [bind].
    apply generateAIAnnotation_nonempty in E.
    destruct comment; [cbn [String.length] in E; lia | reflexivity]. }
  split; [reflexivity |]. split; [| split; [| split]].
  - intros c t Hc Ht. rewrite Hc in Hout. cbn [bind] in Hout.
    rewrite Ht in Hout. cbn [bind] in Hout.
    eexists. split; [exact Hout |]. subst w1. rewrite Hout.
    cbn [aiAnnotationSettled]. split; [reflexivity |]. split.
    + unfold activeAnnotation. cbn. now rewrite String.eqb_refl.
    + split; [reflexivity |]. cbn [comment topic chatHistory author bookId textSelection
        personaId].
      split; [reflexivity |].
      split; [exact (generateAIAnnotation_nonempty (an_selection job) (book_content (an_book job))
                      (an_persona job) (an_config job)
                      (orFalse (isOriginal (an_book job))) c Hc) |].
      split; [reflexivity |].
      split; [exact (proj1 (summarizeTopic_nonempty (an_selection job) c (an_config job) t
                              Ht)) |].
      repeat split; reflexivity.
  - intros c e Hc Ht. rewrite Hout, Hc. cbn [bind]. now rewrite Ht.
  - intros e Hc. now rewrite Hout, Hc.
  - intros e He. subst w1. rewrite He. repeat split; reflexivity.
Qed.

(** X22.  What [handleUserAnnotate] leaves.  The note is stored, word for
    word, only when its topic could be had from the provider; otherwise
    nothing is stored and an error is shown, and since the pending selection
    was cleared when the handler started, the note and its selection are
    gone.  When the provider cannot be reached no note is stored. *)
Theorem user_note_is_lost_without_topic
    (note : string) (w w1 : Workspace) (job : NoteJob) (userAnnoId ts : Z) :
  handleUserAnnotate env note w = (w1, Some job) ->
  let topicCall :=
    summarizeTopic env fetch parse stringify (note_selection job) note (note_config job) in
  let outcome := userAnnotation env fetch parse stringify job userAnnoId ts in
  let w2 := userAnnotationSettled wording outcome w1 in
  isProcessing w2 = false /\ pendingSelection w2 = None
  /\ (forall t,
      topicCall = Ok t ->
      exists a,
        outcome = Ok a
        /\ annotations (core w2) = a :: annotations (core w)
        /\ activeAnnotation w2 = Some a
        /\ comment a = note /\ author a = user /\ personaId a = None
        /\ topic a = Some t /\ t <> ""
        /\ textSelection a = note_selection job
        /\ pendingSelection w = Some (textSelection a)
        /\ activeBook (core w) = Some (note_book job) /\ bookId a = book_id (note_book job)
        /\ chatHistory a = Some [ {| turn_role := "user"; turn_text := note |} ])
  /\ (forall e,
      topicCall = Throw e ->
      annotations (core w2) = annotations (core w)
      /\ activeAnnotationId w2 = activeAnnotationId w
      /\ toast (core w2) = Some ("Error saving note: " ++ messageOf wording e, error))
  /\ (unavailable fetch -> annotations (core w2) = annotations (core w)).
Proof.
  intros Hstart topicCall outcome w2.
  destruct (annotation_by_hand_parts note w) as [_ Huser].
  rewrite Hstart in Huser. cbn [fst snd] in Huser.
  destruct (Huser job eq_refl) as (-> & Hpending & Hnote & Hbook & Hconfig).
  assert (outcome = let! topic := topicCall in
                    Ok {| anno_id := Js.ofZ userAnnoId; bookId := book_id (note_book job);
                          textSelection := note_selection job; comment := note;
                          author := user; timestamp := ts; personaId := None;
                          topic := Some topic; isAutonomous := None; position := (0, 0)%Z;
                          chatHistory :=
                            Some [ {| turn_role := "user"; turn_text := note |} ] |})
    as Hout by (subst outcome topicCall; unfold userAnnotation; now rewrite Hnote).
  assert (forall e, topicCall = Throw e -> annotations (core w2) = annotations (core w)
            /\ activeAnnotationId w2 = activeAnnotationId w
            /\ toast (core w2) = Some ("Error saving note: " ++ messageOf wording e, error))
    as Hfail.
  { intros e He. rewrite He in Hout. cbn [bind] in Hout. subst w2. rewrite Hout.
    repeat split; reflexivity. }
  split; [subst w2; now destruct outcome |].
  split; [subst w2; now destruct outcome |].
  split; [| split; [exact Hfail |]].
  - intros t Ht. rewrite Ht in Hout. cbn [bind] in Hout.
    eexists. split; [exact Hout |]. subst w2. rewrite Hout.
    cbn [userAnnotationSettled]. split; [reflexivity |]. split.
    + unfold activeAnnotation. cbn. now rewrite String.eqb_refl.
    + cbn [comment topic chatHistory author bookId textSelection personaId].
      repeat split; try reflexivity; try assumption.
      exact (proj1 (summarizeTopic_nonempty (note_selection job) note (note_config job) t Ht)).
  - intros Hdown.
    destruct (callAI_unavailable env fetch parse stringify
                (userTurn (topicPrompt note)) (note_config job) None TOPIC_OVERRIDE Hdown)
      as [e He].
    apply (Hfail e). subst topicCall. unfold summarizeTopic. now rewrite He.
Qed.

End AnnotatingFacts.

Lemma user_note_witness :
  let w := Desk.selecting "k" [] in
  let w1 := setIsProcessing true (setPendingSelection None w) in
  let w2 :=
    userAnnotationSettled Desk.wording
      (userAnnotation None (respondWith Sample.badGateway) Sample.parse Sample.stringify
         Desk.noteJob 1 2) w1 in
  handleUserAnnotate None "Why the woods?" w = (w1, Some Desk.noteJob)
  /\ annotations (core w2) = [] /\ pendingSelection w2 = None.
Proof.
  intros w w1 w2.
  assert (handleUserAnnotate None "Why the woods?" w = (w1, Some Desk.noteJob)) as E
    by (vm_compute; reflexivity).
  split; [exact E |].
  pose proof (user_note_is_lost_without_topic None (respondWith Sample.badGateway)
                Sample.parse Sample.stringify Desk.wording "Why the woods?" w w1
                Desk.noteJob 1 2 E) as (_ & Hp & _ & _ & Hdown).
  split; [apply Hdown; intros request; reflexivity | exact Hp].
Defined.

(* ================================================================== *)
(** * The conversation on an annotation *)
(* ================================================================== *)

(** Storing a thread for [id] stores it when an annotation of that id is
    there, and stores nothing otherwise. *)
Lemma storedThread_update (id : string) (h : list ChatTurn) (s : App) :
  storedThread id (handleUpdateAnnotation id (chatHistoryUpdate h) s)
  = match find (fun a => String.eqb (anno_id a) id) (annotations s) with
    | Some _ => Some h
    | None => None
    end.
Proof.
  unfold storedThread, handleUpdateAnnotation. cbn [annotations setAnnotations].
  induction (annotations s) as [|a l IH]; [reflexivity |].
  cbn [map find]. destruct (String.eqb (anno_id a) id) eqn:E.
  - cbn [applyUpdates chatHistoryUpdate upd_id anno_id]. rewrite E. reflexivity.
  - rewrite E. exact IH.
Qed.

Lemma storedThread_found (id : string) (h : list ChatTurn) (s : App) :
  storedThread id s = Some h ->
  find (fun a => String.eqb (anno_id a) id) (annotations s) <> None.
Proof. unfold storedThread. now destruct (find _ _). Qed.

Lemma storedThread_update_found (id : string) (h h' : list ChatTurn) (s : App) :
  storedThread id s = Some h' ->
  storedThread id (handleUpdateAnnotation id (chatHistoryUpdate h) s) = Some h.
Proof.
  intros H. apply storedThread_found in H. rewrite storedThread_update.
  now destruct (find _ _).
Qed.

Lemma trim_truthy (t : string) : Js.trim t <> "" -> Js.truthy (Js.trim t) = true.
Proof. intros H. unfold Js.truthy. now destruct (String.eqb_spec (Js.trim t) ""). Qed.

Section ChatFacts.

Variable env : option string.
Variable fetch : Request -> result Response.
Variable parse : string -> option json.
Variable stringify : json -> string.

(** X23.  Opening the conversation.  An annotation made by hand, by
    [executeAIAnnotation] or by [handleUserAnnotate], is stored with its
    first turn, so the modal shows that turn, stores nothing and requests
    nothing: the companion's reply to a note of the reader
    ([generateAIResponseToUserNote]) is requested only for a note stored
    without any thread.  For an annotation of the companion without a
    thread, such as those of a scan, the comment becomes the first turn and
    is stored.  The effect runs once.  When the reply to a note was
    requested, the thread is the note and then the reply, of 1 to 100
    characters, or a fixed line of the companion when the request failed,
    and either is stored. *)
Theorem conversation_opens_with_the_stored_thread
    (props : ChatProps) (m : ChatModal) (s : App) :
  let annotation := chat_annotation props in
  let opened := chatInit props m s in
  (initialized m = true -> opened = (m, s, None))
  /\ (initialized m = false ->
      (forall (job : AnnotateJob) tempId ts,
         aiAnnotation env fetch parse stringify job tempId ts = Ok annotation ->
         opened
         = (setMessages
              (fun _ => [ {| turn_role := "model"; turn_text := comment annotation |} ])
              (writeInitialized true m), s, None))
      /\ (forall (job : NoteJob) userAnnoId ts,
          userAnnotation env fetch parse stringify job userAnnoId ts = Ok annotation ->
          opened
          = (setMessages
               (fun _ => [ {| turn_role := "user"; turn_text := comment annotation |} ])
               (writeInitialized true m), s, None))
      /\ (forall bookId p idx id_now ts_now r,
          annotation = scanAnnotation bookId p idx id_now ts_now r ->
          let thread := [ {| turn_role := "model"; turn_text := scan_comment r |} ] in
          opened
          = (setMessages (fun _ => thread) (writeInitialized true m),
             handleUpdateAnnotation (anno_id annotation) (chatHistoryUpdate thread) s, None)
          /\ (In annotation (annotations s) ->
              storedThread (anno_id annotation) (snd (fst opened)) = Some thread))
      /\ (started (snd opened) = true <->
          author annotation = user
          /\ (chatHistory annotation = None \/ chatHistory annotation = Some []))
      /\ (forall job outcome,
          snd opened = Some job ->
          let note := {| turn_role := "user"; turn_text := comment annotation |} in
          let last := match outcome with
                      | Ok reply => {| turn_role := "model"; turn_text := reply |}
                      | Throw _ => FALLBACK_REPLY
                      end in
          let settled := chatInitSettled job outcome (fst (fst opened)) s in
          messages (fst (fst opened)) = [ note ] /\ isTyping (fst (fst opened)) = true
          /\ snd (fst opened) = s
          /\ messages (fst settled) = [ note; last ] /\ isTyping (fst settled) = false
          /\ (In annotation (annotations s) ->
              storedThread (anno_id annotation) (snd settled) = Some [ note; last ])
          /\ (forall reply,
              outcome = noteReply env fetch parse stringify props -> outcome = Ok reply ->
              (1 <= String.length reply <= 100)%nat))).
Proof.
  intros annotation opened. subst opened. unfold chatInit. fold annotation. split.
  - now intros ->.
  - intros ->. split; [| split; [| split; [| split]]].
    + intros job tempId ts. unfold aiAnnotation.
      destruct (generateAIAnnotation _ _ _ _ _ _ _ _ _) as [c |]; [| discriminate].
      cbn [bind]. destruct (negb (Js.truthy c)); [discriminate |].
      destruct (summarizeTopic _ _ _ _ _ _ _) as [t |]; [| discriminate].
      cbn [bind]. intros [= <-]. reflexivity.
    + intros job userAnnoId ts. unfold userAnnotation.
      destruct (summarizeTopic _ _ _ _ _ _ _) as [t |]; [| discriminate].
      cbn [bind]. intros [= <-]. reflexivity.
    + intros bookId p idx id_now ts_now r E. rewrite E.
      cbn [scanAnnotation chatHistory author comment anno_id]. split; [reflexivity |].
      intros Hin. cbn [fst snd]. rewrite storedThread_update.
      destruct (find _ _) eqn:Ef; [reflexivity |].
      eapply find_none in Ef; [| exact Hin]. cbn beta in Ef.
      cbn [scanAnnotation anno_id] in Ef. now rewrite String.eqb_refl in Ef.
    + destruct (chatHistory annotation) as [[|h rest] |], (author annotation);
        cbn [snd started];
        (split; [intros H; first [discriminate H | auto]
                | intros [H1 [H2 | H2]]; first [reflexivity | congruence]]).
    + intros job outcome.
      assert (In annotation (annotations s) ->
              forall h, storedThread (anno_id annotation)
                          (handleUpdateAnnotation (anno_id annotation) (chatHistoryUpdate h) s)
                        = Some h) as Hstore.
      { intros Hin h. rewrite storedThread_update.
        destruct (find _ _) eqn:Ef; [reflexivity |].
        eapply find_none in Ef; [| exact Hin]. cbn beta in Ef.
        now rewrite String.eqb_refl in Ef. }
      destruct (chatHistory annotation) as [[|h rest] |], (author annotation);
        cbn [snd fst]; try discriminate;
        intros [= <-]; cbn [chatInitSettled reply_thread reply_id messages isTyping
                             setIsTyping setMessages writeInitialized];
        (assert (forall reply,
                   outcome = noteReply env fetch parse stringify props -> outcome = Ok reply ->
                   (1 <= String.length reply <= 100)%nat) as Hreply
           by (intros reply -> Hr; unfold noteReply, generateAIResponseToUserNote in Hr;
               exact (proj1 (capped_reply _) reply Hr)));
        destruct outcome; cbn [fst snd messages isTyping setIsTyping setMessages List.app];
        repeat (split; [first [reflexivity | intros Hin; apply Hstore; exact Hin] |]);
        exact Hreply.
Qed.

(** X24.  Sending a message.  With the shown thread stored, nothing being
    typed and an input that is not blank, [handleSend] stores the thread with
    the message before the reply is asked for, sends the thread as it was and
    the message as typed, and accepts no second message while it waits.  A
    reply, of 1 to 100 characters, is added and stored.  On a failure an apology is shown and not
    stored, so what is shown and what is stored differ; the next message is
    then sent with the apology in its thread as a turn of the companion, and
    the apology is stored with it. *)
Theorem sent_messages_are_stored_and_apologies_later
    (props : ChatProps) (m : ChatModal) (s : App) :
  let id := anno_id (chat_annotation props) in
  storedThread id s = Some (messages m) ->
  isTyping m = false -> Js.trim (input m) <> "" ->
  let message := {| turn_role := "user"; turn_text := input m |} in
  exists job m1 s1,
    handleSend props m s = (m1, s1, Some job)
    /\ send_message job = input m /\ send_thread job = messages m
    /\ messages m1 = (messages m ++ [ message ])%list
    /\ storedThread id s1 = Some (messages m1)
    /\ input m1 = "" /\ isTyping m1 = true
    /\ sendReply env fetch parse stringify props job
       = chatWithPersona env fetch parse stringify (input m)
           (textSelection (chat_annotation props)) (chat_persona props) (messages m)
           (chat_config props) (chat_isOriginal props)
    /\ (forall reply,
        sendReply env fetch parse stringify props job = Ok reply ->
        (1 <= String.length reply <= 100)%nat)
    /\ (forall typed, handleSend props (setInput typed m1) s1 = (setInput typed m1, s1, None))
    /\ (forall reply,
        let settled := handleSendSettled job (Ok reply) m1 s1 in
        messages (fst settled)
        = (messages m1 ++ [ {| turn_role := "model"; turn_text := reply |} ])%list
        /\ storedThread id (snd settled) = Some (messages (fst settled))
        /\ isTyping (fst settled) = false)
    /\ (forall e,
        let settled := handleSendSettled job (Throw e) m1 s1 in
        messages (fst settled) = (messages m1 ++ [ CLOUDED_REPLY ])%list
        /\ storedThread id (snd settled) = Some (messages m1)
        /\ isTyping (fst settled) = false
        /\ forall next,
             Js.trim next <> "" ->
             exists job3 m3 s3,
               handleSend props (setInput next (fst settled)) (snd settled)
               = (m3, s3, Some job3)
               /\ send_thread job3 = (messages m1 ++ [ CLOUDED_REPLY ])%list
               /\ In {| role := "model"; parts := [ {| text := turn_text CLOUDED_REPLY |} ] |}
                     (chatContents next (chat_persona props) (send_thread job3))
               /\ storedThread id s3
                  = Some (messages m1
                          ++ [ CLOUDED_REPLY; {| turn_role := "user"; turn_text := next |} ])%list).
Proof.
  intros id Hstored Hidle Hinput message.
  unfold handleSend. rewrite Hidle, (trim_truthy _ Hinput). cbn [negb orb].
  eexists _, _, _. split; [reflexivity |].
  cbn [send_message send_thread send_id send_newHistory messages input isTyping
       setIsTyping setMessages setInput].
  fold id. fold message.
  assert (storedThread id
            (handleUpdateAnnotation id (chatHistoryUpdate (messages m ++ [ message ])%list) s)
          = Some (messages m ++ [ message ])%list) as Hs1
    by (eapply storedThread_update_found; exact Hstored).
  split; [reflexivity |]. split; [reflexivity |]. split; [reflexivity |].
  split; [exact Hs1 |]. split; [reflexivity |]. split; [reflexivity |].
  split; [reflexivity |].
  split; [intros reply Hr; unfold sendReply, chatWithPersona in Hr;
          exact (proj1 (capped_reply _) reply Hr) |].
  split; [| split].
  - intros typed. cbn [input isTyping setInput setIsTyping setMessages].
    now rewrite orb_true_r.
  - intros reply. cbn [handleSendSettled fst snd messages isTyping setIsTyping setMessages
      send_newHistory send_id].
    split; [reflexivity |]. split; [| reflexivity].
    eapply storedThread_update_found; exact Hs1.
  - intros e. cbn [handleSendSettled fst snd messages isTyping setIsTyping setMessages].
    split; [reflexivity |]. split; [exact Hs1 |]. split; [reflexivity |].
    intros next Hnext. cbn [input isTyping setInput]. rewrite (trim_truthy _ Hnext).
    cbn [negb orb]. eexists _, _, _. split; [reflexivity |].
    cbn [send_thread messages]. split; [reflexivity |].
    split.
    { unfold chatContents. apply in_or_app. left. apply in_map_iff.
      exists CLOUDED_REPLY. split; [reflexivity |]. apply in_or_app. right. now left. }
    fold id.
    rewrite <- app_assoc. cbn [List.app].
    eapply storedThread_update_found; exact Hs1.
Qed.

End ChatFacts.

Lemma sent_messages_witness :
  exists job m1 s1,
    handleSend Desk.props Desk.chat (Sample.reader "k" [ Desk.noted ]) = (m1, s1, Some job)
    /\ messages m1
       = [ {| turn_role := "user"; turn_text := "Why the woods?" |};
           {| turn_role := "user"; turn_text := "Go on." |} ]
    /\ storedThread "7" s1 = Some (messages m1).
Proof.
  destruct (sent_messages_are_stored_and_apologies_later None
              (respondWith Sample.badGateway) Sample.parse Sample.stringify Desk.props
              Desk.chat (Sample.reader "k" [ Desk.noted ]) eq_refl eq_refl
              ltac:(discriminate))
    as (job & m1 & s1 & E & _ & _ & Hm & Hs & _).
  exists job, m1, s1. split; [exact E |]. split; [exact Hm | exact Hs].
Defined.

(* ================================================================== *)
(** * The connection test and the endpoints of the service *)
(* ================================================================== *)

Lemma bases_of_a_set_base (config : EngineConfig) :
  baseUrl config <> "" ->
  openAIBase config = normalBase (baseUrl config)
  /\ geminiBase config
     = (if Js.endsWith "v1beta" (normalBase (baseUrl config))
        then Js.sliceFromEnd 7 (normalBase (baseUrl config))
        else normalBase (baseUrl config)).
Proof.
  intros H. unfold openAIBase, geminiBase, normalBase. cbv zeta.
  rewrite !orElse_nonempty by exact H. split; reflexivity.
Qed.

Lemma trimmed_key (env : option string) (config : EngineConfig) :
  Js.trim (apiKey config) <> "" ->
  Js.trim (apiKeyOrEnv env config) = Js.trim (apiKey config).
Proof.
  intros H. unfold apiKeyOrEnv. rewrite orElse_nonempty; [reflexivity |].
  intros E. rewrite E in H. now apply H.
Qed.

(** X25.  The connection test of the settings and the service.  The test
    sends nothing when the key or the base URL is blank.  Otherwise, for the
    OpenAI-compatible family it asks for the model list with the
    authorization header of the generation requests and, when the base does
    not name the chat path, under the same root as they are sent to; for the
    Gemini family it asks under the base followed by the version segment,
    which is where generation goes when the base does not end in that
    segment.  A Gemini base that ends in the version segment is accepted by
    the service, which drops it, and doubled by the test. *)
Theorem connection_test_and_generation_endpoints
    (env : option string) (formData : EngineConfig) :
  let key := Js.trim (apiKey formData) in
  let base := normalBase (baseUrl formData) in
  (key = "" \/ Js.trim (baseUrl formData) = "" -> modelsProbe formData = None)
  /\ (key <> "" -> Js.trim (baseUrl formData) <> "" ->
      exists probe,
        modelsProbe formData = Some probe
        /\ match provider formData with
           | openai =>
               headers (getOpenAIEndpoint env formData)
               = ("Content-Type", "application/json") :: probe_headers probe
               /\ (Js.includes "/chat/completions" base = false ->
                   exists root,
                     url (getOpenAIEndpoint env formData) = root ++ "/chat/completions"
                     /\ probe_url probe = root ++ "/models")
               /\ (Js.includes "/chat/completions" base = true ->
                   url (getOpenAIEndpoint env formData) = base
                   /\ Js.startsWith base (probe_url probe) = true)
           | gemini =>
               let generation := url (getGeminiEndpoint env formData "generateContent") in
               let model := Js.orElse (model formData) "gemini-3-flash-preview" in
               (Js.endsWith "v1beta" base = false ->
                generation = base ++ "/v1beta/models/" ++ model ++ ":generateContent?key=" ++ key
                /\ probe_url probe = base ++ "/v1beta/models?key=" ++ key)
               /\ (forall root,
                   base = root ++ "/v1beta" ->
                   generation
                   = root ++ "/v1beta/models/" ++ model ++ ":generateContent?key=" ++ key
                   /\ probe_url probe = root ++ "/v1beta/v1beta/models?key=" ++ key)
           end).
Proof.
  intros key base. subst key. split.
  - intros H. unfold modelsProbe. cbv zeta.
    destruct H as [H | H]; rewrite H; [reflexivity | now rewrite orb_true_r].
  - intros Hkey Hbase.
    assert (baseUrl formData <> "") as Hb by (intros E; rewrite E in Hbase; now apply Hbase).
    destruct (bases_of_a_set_base formData Hb) as [Ho Hg]. fold base in Ho, Hg.
    pose proof (trimmed_key env formData Hkey) as Hk.
    unfold modelsProbe. cbv zeta.
    rewrite (trim_truthy _ Hkey), (trim_truthy _ Hbase). cbn [negb orb].
    change (if Js.endsWith "/" (Js.trim (baseUrl formData))
            then Js.sliceFromEnd 1 (Js.trim (baseUrl formData))
            else Js.trim (baseUrl formData)) with base.
    destruct (provider formData); eexists; (split; [reflexivity |]);
      cbn [probe_url probe_headers].
    + cbv zeta. unfold getGeminiEndpoint. cbn [url]. rewrite Hg, Hk. split.
      * intros ->. split; reflexivity.
      * intros root Hroot. rewrite Hroot.
        rewrite (endsWith_append_long "v1beta" root "/v1beta") by (cbn; lia).
        change (Js.endsWith "v1beta" "/v1beta") with true. cbv iota.
        change 7%nat with (String.length "/v1beta"). rewrite sliceFromEnd_append.
        split; [reflexivity |]. now rewrite append_assoc.
    + unfold getOpenAIEndpoint. cbn [url headers]. rewrite Ho, Hk.
      split; [reflexivity |]. split.
      * intros ->. cbn [negb]. eexists. split; reflexivity.
      * intros ->. cbn [negb]. split; [reflexivity |].
        destruct (Js.endsWith "/v1" base); cbn [negb];
          rewrite ?append_assoc; apply startsWith_append.
Qed.

(** X26.  Choosing a family in the settings fills in its base URL and clears
    the model: generation then goes where it goes with no base URL at all,
    and the connection test of the OpenAI-compatible family asks for the
    model list next to the chat path. *)
Theorem provider_defaults_resolve_like_an_empty_base
    (env : option string) (formData : EngineConfig) (method : string) :
  let viaGemini := handleProviderChange gemini formData in
  let viaOpenAI := handleProviderChange openai formData in
  getGeminiEndpoint env viaGemini method
  = getGeminiEndpoint env (withBaseUrl "" viaGemini) method
  /\ getOpenAIEndpoint env viaOpenAI = getOpenAIEndpoint env (withBaseUrl "" viaOpenAI)
  /\ url (getOpenAIEndpoint env viaOpenAI) = "https://api.siliconflow.cn/v1/chat/completions"
  /\ model viaGemini = "" /\ model viaOpenAI = ""
  /\ apiKey viaGemini = apiKey formData /\ apiKey viaOpenAI = apiKey formData
  /\ (Js.trim (apiKey formData) <> "" ->
      exists probe,
        modelsProbe viaOpenAI = Some probe
        /\ probe_url probe = "https://api.siliconflow.cn/v1/models").
Proof.
  intros viaGemini viaOpenAI.
  assert (geminiBase viaGemini = geminiBase (withBaseUrl "" viaGemini)) as Hg
    by (vm_compute; reflexivity).
  assert (openAIBase viaOpenAI = "https://api.siliconflow.cn/v1") as Ho
    by (vm_compute; reflexivity).
  assert (openAIBase (withBaseUrl "" viaOpenAI) = "https://api.siliconflow.cn") as Ho'
    by (vm_compute; reflexivity).
  split; [| split; [| split]].
  - unfold getGeminiEndpoint. cbv zeta. rewrite Hg. reflexivity.
  - unfold getOpenAIEndpoint. cbv zeta. rewrite Ho, Ho'. reflexivity.
  - unfold getOpenAIEndpoint. cbv zeta. rewrite Ho. reflexivity.
  - repeat (split; [reflexivity |]).
    intros Hkey. unfold modelsProbe. cbv zeta.
    change (apiKey viaOpenAI) with (apiKey formData).
    rewrite (trim_truthy _ Hkey).
    change (Js.trim (baseUrl viaOpenAI)) with "https://api.siliconflow.cn/v1".
    eexists. split; reflexivity.
Qed.

(* ================================================================== *)
(** * The reading time and the review *)
(* ================================================================== *)

(** X27.  The reading time is shown in minutes and seconds under one hour,
    exactly, and in hours and minutes from one hour on, the seconds beyond
    the last full minute being dropped. *)
Theorem formatDuration_minutes_then_hours (seconds : Z) :
  (0 <= seconds)%Z ->
  ((seconds < 3600)%Z ->
   exists m s,
     formatDuration seconds = Js.ofZ m ++ "m " ++ Js.ofZ s ++ "s"
     /\ (seconds = 60 * m + s)%Z /\ (0 <= m < 60)%Z /\ (0 <= s < 60)%Z)
  /\ ((3600 <= seconds)%Z ->
      exists h m,
        formatDuration seconds = Js.ofZ h ++ "h " ++ Js.ofZ m ++ "m"
        /\ (1 <= h)%Z /\ (0 <= m < 60)%Z
        /\ (3600 * h + 60 * m <= seconds < 3600 * h + 60 * m + 60)%Z).
Proof.
  intros Hpos. unfold formatDuration. cbv zeta.
  rewrite !Z.rem_mod_nonneg by lia. split; intros H.
  - assert ((seconds / 3600 >? 0)%Z = false) as ->.
    { apply not_true_is_false. intros E. apply Z.gtb_lt in E.
      Z.to_euclidean_division_equations. lia. }
    eexists _, _. split; [reflexivity |].
    Z.to_euclidean_division_equations. lia.
  - assert ((seconds / 3600 >? 0)%Z = true) as ->.
    { apply Z.gtb_lt. Z.to_euclidean_division_equations. lia. }
    eexists _, _. split; [reflexivity |].
    Z.to_euclidean_division_equations. lia.
Qed.

Lemma formatDuration_witness :
  formatDuration 3725 = "1h 2m" /\ formatDuration 125 = "2m 5s".
Proof.
  destruct (formatDuration_minutes_then_hours 3725 ltac:(lia)) as [_ H].
  destruct (H ltac:(lia)) as (h & m & -> & Hh & Hm & Hs).
  assert (h = 1%Z) as -> by lia. assert (m = 2%Z) as -> by lia.
  split; reflexivity.
Defined.

Lemma map_lookup_books (f : Book -> Book) (l : list Book) (i : nat) (b : Book) :
  l !! i = Some b -> map f l !! i = Some (f b).
Proof.
  intros H. change (map f l) with (f <$> l). now rewrite list_lookup_fmap, H.
Qed.

Lemma tick_reading (s : App) :
  appState s = reading -> activeId s <> None ->
  tick s
  = setLibrary
      (map (fun b =>
              if sameId (book_id b) (activeBookId s)
              then {| book_id := book_id b; book_title := book_title b;
                      book_content := book_content b; book_author := book_author b;
                      book_category := book_category b; coverColor := coverColor b;
                      addedAt := addedAt b; timeSpent := (timeSpent b + 1)%Z;
                      rating := rating b; userReview := userReview b;
                      aiReview := aiReview b; isOriginal := isOriginal b;
                      writingMetadata := writingMetadata b |}
              else b)) s.
Proof.
  intros Hr Ha. unfold tick. rewrite Hr. now destruct (activeId s).
Qed.

Lemma iter_tick_keeps (n : nat) (s : App) :
  annotations (Nat.iter n tick s) = annotations s
  /\ activeBookId (Nat.iter n tick s) = activeBookId s
  /\ appState (Nat.iter n tick s) = appState s
  /\ length (library (Nat.iter n tick s)) = length (library s).
Proof.
  induction n as [|n IH]; [auto |]. rewrite !Nat.iter_succ.
  assert (forall t, annotations (tick t) = annotations t
                    /\ activeBookId (tick t) = activeBookId t
                    /\ appState (tick t) = appState t
                    /\ length (library (tick t)) = length (library t)) as Hkeep.
  { intros t. unfold tick. destruct (appState t) eqn:E, (activeId t);
      cbn [annotations activeBookId appState library setLibrary];
      rewrite ?List.length_map; auto. }
  destruct (Hkeep (Nat.iter n tick s)) as (-> & -> & -> & ->). exact IH.
Qed.

(** X28.  The reading timer.  While a book is open in the reader, [n]
    firings of the timer add [n] seconds to the books of the open id and
    change nothing else; in the library, or with no book open, a firing
    changes nothing. *)
Theorem reading_time_counts_the_ticks (n : nat) (s : App) :
  let s1 := Nat.iter n tick s in
  (appState s = reading -> activeId s <> None ->
   forall i b,
     library s !! i = Some b ->
     exists b1,
       library s1 !! i = Some b1
       /\ timeSpent b1
          = (if sameId (book_id b) (activeBookId s)
             then timeSpent b + Z.of_nat n else timeSpent b)%Z
       /\ book_id b1 = book_id b /\ book_title b1 = book_title b
       /\ book_content b1 = book_content b /\ rating b1 = rating b
       /\ userReview b1 = userReview b /\ aiReview b1 = aiReview b
       /\ isOriginal b1 = isOriginal b /\ writingMetadata b1 = writingMetadata b)
  /\ (appState s = library_view \/ activeId s = None -> s1 = s)
  /\ length (library s1) = length (library s)
  /\ annotations s1 = annotations s /\ activeBookId s1 = activeBookId s
  /\ appState s1 = appState s.
Proof.
  intros s1. subst s1.
  split; [| split; [| destruct (iter_tick_keeps n s) as (? & ? & ? & ?); auto]].
  - intros Hr Hact. induction n as [|n IH]; intros i b Hb.
    + exists b. cbn [Nat.iter]. split; [exact Hb |]. rewrite Z.add_0_r.
      split; [now destruct (sameId _ _) |]. repeat split; reflexivity.
    + destruct (iter_tick_keeps n s) as (_ & Hid' & Hs' & _).
      assert (appState (Nat.iter n tick s) = reading) as Hr' by congruence.
      assert (activeId (Nat.iter n tick s) <> None) as Hact'
        by (unfold activeId in *; now rewrite Hid').
      destruct (IH i b Hb) as (b1 & Hb1 & Ht & Hid & Hrest).
      rewrite Nat.iter_succ, (tick_reading _ Hr' Hact'). cbn [library setLibrary].
      eexists. split; [apply map_lookup_books; exact Hb1 |].
      rewrite Hid', Hid.
      destruct (sameId (book_id b) (activeBookId s));
        cbn [timeSpent book_id book_title book_content rating userReview aiReview isOriginal
             writingMetadata];
        (split; [lia |]); [repeat split; apply Hrest | split; [exact Hid | exact Hrest]].
  - intros Hidle. induction n as [|n IH]; [reflexivity |]. rewrite Nat.iter_succ, IH.
    unfold tick. destruct Hidle as [-> | ->]; [reflexivity | now destruct (appState s)].
Qed.

Lemma reading_time_witness :
  map timeSpent (library (Nat.iter 90 tick (Sample.reader "k" []))) = [ 90%Z ].
Proof.
  destruct (proj1 (reading_time_counts_the_ticks 90 (Sample.reader "k" []))
              eq_refl ltac:(discriminate) 0%nat Sample.walden eq_refl)
    as (b1 & Hb1 & Ht & _).
  pose proof (proj1 (proj2 (proj2 (reading_time_counts_the_ticks 90 (Sample.reader "k" []))))) as Hl.
  cbv zeta in Hl. cbn [Sample.reader library length] in Hl.
  destruct (library (Nat.iter 90 tick (Sample.reader "k" []))) as [|x [|y l]];
    try discriminate.
  cbn [lookup list_lookup] in Hb1. injection Hb1 as ->. cbn [map]. now rewrite Ht.
Defined.

Lemma setLibrary_same (f : list Book -> list Book) (s : App) :
  f (library s) = library s -> setLibrary f s = s.
Proof. intros H. unfold setLibrary. rewrite H. now destruct s. Qed.

Lemma map_same_books (f : Book -> Book) (l : list Book) :
  (forall b, In b l -> f b = b) -> map f l = l.
Proof.
  induction l as [|b l IH]; intros H; [reflexivity |]. cbn [map].
  rewrite (H b) by now left. f_equal. apply IH. intros x Hx. apply H. now right.
Qed.

(** X29.  Edits of the library by id.  [handleUpdateBook] and
    [handleSaveReview] replace the books of one id where they stand and keep
    the ids and the order of the library.  [handleSaveReview] does nothing
    with no book open; otherwise it stores the rating and the review on the
    books of the open id, replaces their long review by the one given, also
    by none, and reports success, even when the library has no book of that
    id and nothing is stored; the companion's reply it is handed is not
    stored.  An update for a book the library has not changes nothing. *)
Theorem library_edits_replace_books_in_place
    (updatedBook : Book) (stars : Z) (review : string)
    (aiResponse aiLongReview : option string) (s : App) :
  let edited := handleUpdateBook updatedBook s in
  let reviewed := handleSaveReview stars review aiResponse aiLongReview s in
  (forall i b, library s !! i = Some b ->
     library edited !! i
     = Some (if String.eqb (book_id b) (book_id updatedBook) then updatedBook else b))
  /\ map book_id (library edited) = map book_id (library s)
  /\ (~ In (book_id updatedBook) (map book_id (library s)) -> edited = s)
  /\ (activeId s = None -> reviewed = s)
  /\ (activeId s <> None ->
      toast reviewed = Some ("Review saved!", success)
      /\ map book_id (library reviewed) = map book_id (library s)
      /\ (forall i b, library s !! i = Some b ->
          exists b1,
            library reviewed !! i = Some b1
            /\ if sameId (book_id b) (activeBookId s)
               then rating b1 = Some stars /\ userReview b1 = Some review
                    /\ aiReview b1 = aiLongReview /\ timeSpent b1 = timeSpent b
                    /\ book_title b1 = book_title b /\ book_content b1 = book_content b
                    /\ isOriginal b1 = isOriginal b
               else b1 = b)
      /\ (activeBook s = None -> library reviewed = library s))
  /\ (forall other, handleSaveReview stars review other aiLongReview s = reviewed).
Proof.
  intros edited reviewed. subst edited reviewed.
  split; [| split; [| split; [| split; [| split]]]].
  - intros i b Hb. unfold handleUpdateBook. cbn [library setLibrary].
    now rewrite (map_lookup_books _ _ _ _ Hb).
  - unfold handleUpdateBook. cbn [library setLibrary]. rewrite List.map_map.
    apply map_ext. intros b.
    destruct (String.eqb_spec (book_id b) (book_id updatedBook)); congruence.
  - intros Hnot. unfold handleUpdateBook. apply setLibrary_same, map_same_books.
    intros b Hb. destruct (String.eqb_spec (book_id b) (book_id updatedBook)) as [E | _];
      [| reflexivity].
    exfalso. apply Hnot. rewrite <- E. now apply in_map.
  - intros H. unfold handleSaveReview. now rewrite H.
  - intros H. unfold handleSaveReview.
    destruct (activeId s) as [id |]; [| contradiction]. clear H.
    cbn [toast library showToast setLibrary]. split; [reflexivity |].
    split; [| split].
    + rewrite List.map_map. apply map_ext. intros b.
      now destruct (sameId (book_id b) (activeBookId s)).
    + intros i b Hb. eexists. split; [apply map_lookup_books; exact Hb |].
      destruct (sameId (book_id b) (activeBookId s)); [repeat split; reflexivity | reflexivity].
    + unfold activeBook. intros Hnone. apply map_same_books. intros b Hb.
      destruct (sameId (book_id b) (activeBookId s)) eqn:E; [| reflexivity].
      eapply find_none in Hnone; [| exact Hb]. cbn beta in Hnone. congruence.
  - reflexivity.
Qed.

(* ================================================================== *)
(** * The ids of the annotations of a scan *)
(* ================================================================== *)

Lemma ofZ_inj (a b : Z) : Js.ofZ a = Js.ofZ b -> a = b.
Proof.
  unfold Js.ofZ. intros H. apply DecimalZ.to_int_inj.
  assert (forall z, NilZero.int_of_string (NilZero.string_of_int (Z.to_int z))
                    = Some (Z.to_int z)) as Hisi.
  { intros z. apply NilZero.isi; destruct z; cbn [Z.to_int]; try discriminate;
      intros [= E]; now apply DecimalPos.Unsigned.to_uint_nonnil in E. }
  apply (f_equal NilZero.int_of_string) in H. rewrite !Hisi in H. congruence.
Qed.

Lemma collectNew_ids (job : ScanJob) (id_now ts_now : nat -> Z) (idx : nat)
    (results : list ScanResult) :
  Forall (fun a => exists k, (idx <= k)%nat /\ anno_id a = Js.ofZ (id_now k + Z.of_nat k))
         (collectNew job id_now ts_now idx results).
Proof.
  revert idx; induction results as [|r results IH]; intros idx; cbn [collectNew];
    [constructor |].
  assert (Forall (fun a => exists k, (idx <= k)%nat
                                     /\ anno_id a = Js.ofZ (id_now k + Z.of_nat k))
                 (collectNew job id_now ts_now (S idx) results)) as Hrest.
  { eapply List.Forall_impl; [| exact (IH (S idx))]. cbn beta.
    intros a (k & Hk & E). exists k. split; [lia | exact E]. }
  destruct (negb _); [| exact Hrest].
  constructor; [| exact Hrest]. exists idx. split; [lia | reflexivity].
Qed.

(** X30.  With a clock that does not go backwards, the annotations a scan
    adds have ids that differ from one another, for the page scan and for
    the initial scan of a saved work: the id of a result is the clock
    reading taken for it plus its index. *)
Theorem scan_annotations_have_distinct_ids
    (job : ScanJob) (init : InitialScanJob) (id_now ts_now : nat -> Z)
    (results : list ScanResult) :
  (forall i j, (i <= j)%nat -> (id_now i <= id_now j)%Z) ->
  List.NoDup (map anno_id (newAnnos job id_now ts_now results))
  /\ List.NoDup (map anno_id (initialAnnos init id_now ts_now results)).
Proof.
  intros Hmono.
  assert (forall i j, (i < j)%nat ->
            Js.ofZ (id_now i + Z.of_nat i) <> Js.ofZ (id_now j + Z.of_nat j)) as Hneq.
  { intros i j Hij E. apply ofZ_inj in E. specialize (Hmono i j ltac:(lia)). lia. }
  split.
  - rewrite newAnnos_collect. generalize 0%nat as idx.
    induction results as [|r results IH]; intros idx; cbn [collectNew]; [constructor |].
    destruct (negb _); [| apply IH]. cbn [map]. constructor; [| apply IH].
    intros Hin. apply in_map_iff in Hin as (a & Ea & Ha).
    pose proof (collectNew_ids job id_now ts_now (S idx) results) as Hall.
    rewrite List.Forall_forall in Hall. destruct (Hall a Ha) as (k & Hk & Ek).
    cbn [scanAnnotation anno_id] in Ea. rewrite Ek in Ea.
    apply (Hneq idx k); [lia | congruence].
  - unfold initialAnnos.
    assert (forall (l : list ScanResult) (base : nat),
              List.NoDup (map anno_id
                       (imap (fun i r => scanAnnotation (init_bookId init) (init_persona init)
                                           (base + i) (id_now (base + i)%nat)
                                           (ts_now (base + i)%nat) r) l))
              /\ Forall (fun a => exists k, (base <= k)%nat
                                            /\ anno_id a = Js.ofZ (id_now k + Z.of_nat k))
                        (imap (fun i r => scanAnnotation (init_bookId init) (init_persona init)
                                            (base + i) (id_now (base + i)%nat)
                                            (ts_now (base + i)%nat) r) l)) as H.
    { induction l as [|r l IH]; intros base; cbn [imap map]; [split; constructor |].
      assert (imap ((fun i r0 => scanAnnotation (init_bookId init) (init_persona init)
                                   (base + i) (id_now (base + i)%nat)
                                   (ts_now (base + i)%nat) r0) ∘ S) l
              = imap (fun i r0 => scanAnnotation (init_bookId init) (init_persona init)
                                    (S base + i) (id_now (S base + i)%nat)
                                    (ts_now (S base + i)%nat) r0) l) as ->.
      { apply imap_ext. intros i x _. cbn [compose].
        now replace (base + S i)%nat with (S base + i)%nat by lia. }
      destruct (IH (S base)) as [Hnd Hall]. split.
      - constructor; [| exact Hnd]. intros Hin. apply in_map_iff in Hin as (a & Ea & Ha).
        rewrite List.Forall_forall in Hall. destruct (Hall a Ha) as (k & Hk & Ek).
        cbn [scanAnnotation anno_id] in Ea. rewrite Ek, Nat.add_0_r in Ea.
        apply (Hneq base k); [lia | congruence].
      - constructor.
        + exists base. rewrite Nat.add_0_r. split; [lia | reflexivity].
        + eapply List.Forall_impl; [| exact Hall]. cbn beta.
          intros a (k & Hk & E). exists k. split; [lia | exact E]. }
    exact (proj1 (H results 0%nat)).
Qed.

Lemma scan_ids_witness :
  map anno_id
    (newAnnos Sample.scanOfA Sample.clock Sample.clock [ Sample.found "Z"; Sample.found "W" ])
  = [ "1000"; "1001" ]
  /\ List.NoDup [ "1000"; "1001" ].
Proof.
  split; [reflexivity |].
  exact (proj1 (scan_annotations_have_distinct_ids Sample.scanOfA Sample.initialScan
                  Sample.clock Sample.clock [ Sample.found "Z"; Sample.found "W" ]
                  ltac:(intros; reflexivity))).
Defined.
